(** * Kenchi: outlier detectors and pipelines, embedded and verified

    Sources embedded here:
    - [kenchi/outlier_detection/base.py]: [OutlierMixin], [BaseOutlierDetector];
    - [kenchi/outlier_detection/empirical_distns.py]: [EmpiricalOutlierDetector];
    - [kenchi/pipeline.py]: [ExtendedPipeline].

    NumPy and scikit-learn are libraries outside the repository.  The
    pieces of them the code calls ([np.log], [np.max], [np.percentile],
    [check_array], [check_is_fitted], [MinMaxScaler], the step loop of
    [sklearn.pipeline.Pipeline]) are modelled after their documented
    behaviour; the nearest-neighbour index and the abstract hooks of
    [BaseOutlierDetector] are parameters.  The plotting methods are left
    out.

    Floating point numbers are idealised: a finite float is a real number
    (no rounding), and the three special values of IEEE arithmetic are kept
    because the code produces and compares them ([np.log 0] is minus
    infinity).  The properties proved about finite values are chosen so
    that rounding does not break them: a value is stated as the real
    number the code approximates, and no bound or strict order is stated
    that the rounded result can miss.  [Binary64] repeats on binary64
    numbers the lines of arithmetic where the rounded result differs
    visibly from the real one. *)

From Stdlib Require Import Reals Lra Lia List Bool ZArith Permutation Sorted.
From Stdlib Require String.
From Stdlib Require Floats.
Import String.StringSyntax.
Delimit Scope string_scope with string.
Import ListNotations.
Local Open Scope R_scope.

(** ** Numbers *)

Module Num.

Inductive num : Type :=
| NInf
| Fin (r : R)
| PInf
| NaN.

Definition Rleb (a b : R) : bool := if Rle_dec a b then true else false.
Definition Rltb (a b : R) : bool := if Rlt_dec a b then true else false.
Definition Reqb (a b : R) : bool := if Req_dec_T a b then true else false.

Definition is_nan (x : num) : bool :=
  match x with NaN => true | _ => false end.

Definition is_finite (x : num) : bool :=
  match x with Fin _ => true | _ => false end.

(** [x <= y]; false as soon as one side is NaN. *)
Definition le (x y : num) : bool :=
  match x, y with
  | NaN, _ | _, NaN => false
  | NInf, _ => true
  | _, PInf => true
  | Fin a, Fin b => Rleb a b
  | _, _ => false
  end.

(** [x < y]; false as soon as one side is NaN. *)
Definition lt (x y : num) : bool :=
  match x, y with
  | NaN, _ | _, NaN => false
  | NInf, NInf => false
  | NInf, _ => true
  | PInf, _ => false
  | Fin _, NInf => false
  | Fin a, Fin b => Rltb a b
  | Fin _, PInf => true
  end.

Definition opp (x : num) : num :=
  match x with
  | NInf => PInf
  | Fin a => Fin (- a)
  | PInf => NInf
  | NaN => NaN
  end.

Definition add (x y : num) : num :=
  match x, y with
  | NaN, _ | _, NaN => NaN
  | NInf, PInf | PInf, NInf => NaN
  | NInf, _ | _, NInf => NInf
  | PInf, _ | _, PInf => PInf
  | Fin a, Fin b => Fin (a + b)
  end.

Definition sub (x y : num) : num := add x (opp y).

(** An infinity times a finite factor: the sign of the factor decides, and
    a zero factor gives NaN. *)
Definition scale_inf (inf : num) (a : R) : num :=
  if Rltb 0 a then inf else if Rltb a 0 then opp inf else NaN.

Definition mul (x y : num) : num :=
  match x, y with
  | NaN, _ | _, NaN => NaN
  | Fin a, Fin b => Fin (a * b)
  | Fin a, inf => scale_inf inf a
  | inf, Fin b => scale_inf inf b
  | NInf, NInf | PInf, PInf => PInf
  | NInf, PInf | PInf, NInf => NInf
  end.

(** [np.log]: minus infinity at zero, NaN below zero. *)
Definition log (x : num) : num :=
  match x with
  | NaN | NInf => NaN
  | PInf => PInf
  | Fin a => if Rltb 0 a then Fin (ln a) else if Rltb a 0 then NaN else NInf
  end.

(** The maximum of two entries as [np.max] takes it: NaN wins. *)
Definition max (x y : num) : num :=
  if is_nan x then x else if is_nan y then y else if le x y then y else x.

Definition not_nan (x : num) : Prop := is_nan x = false.

Definition of_Z (z : Z) : num := Fin (IZR z).
Definition of_nat (n : nat) : num := Fin (INR n).

End Num.

Abbreviation num := Num.num.
Abbreviation NInf := Num.NInf.
Abbreviation Fin := Num.Fin.
Abbreviation PInf := Num.PInf.
Abbreviation NaN := Num.NaN.

Declare Scope num_scope.
Delimit Scope num_scope with num.
Infix "+" := Num.add : num_scope.
Infix "-" := Num.sub : num_scope.
Infix "*" := Num.mul : num_scope.
Notation "- x" := (Num.opp x) : num_scope.
Infix "<=?" := Num.le : num_scope.
Infix "<?" := Num.lt : num_scope.

(** ** Exceptions and the state-and-exception monad

    A Python method mutates [self] and may raise.  A computation therefore
    takes the object's state and returns an outcome together with the state
    it leaves behind: an exception does not roll back the assignments made
    before it. *)

Inductive exn : Type :=
| ValueError        (* invalid parameter or invalid input *)
| NotFittedError    (* [sklearn.exceptions.NotFittedError] *)
| AttributeError.   (* a missing attribute or method *)

Inductive res (A : Type) : Type :=
| Ok (a : A)
| Raise (e : exn).
Arguments Ok {A} a.
Arguments Raise {A} e.

Definition res_bind {A B} (r : res A) (k : A -> res B) : res B :=
  match r with
  | Ok a => k a
  | Raise e => Raise e
  end.

Definition M (S A : Type) : Type := S -> res A * S.

Definition ret {S A} (a : A) : M S A := fun s => (Ok a, s).

Definition bind {S A B} (m : M S A) (k : A -> M S B) : M S B :=
  fun s =>
    match m s with
    | (Ok a, s') => k a s'
    | (Raise e, s') => (Raise e, s')
    end.

Definition raise {S A} (e : exn) : M S A := fun s => (Raise e, s).
Definition get {S} : M S S := fun s => (Ok s, s).
Definition modify {S} (f : S -> S) : M S unit := fun s => (Ok tt, f s).
Definition lift {S A} (r : res A) : M S A := fun s => (r, s).

Declare Scope monad_scope.
Delimit Scope monad_scope with monad.
Notation "x <- m ;; k" := (bind m (fun x => k))
  (at level 61, m at next level, right associativity) : monad_scope.
Notation "m ;; k" := (bind m (fun _ => k))
  (at level 61, right associativity) : monad_scope.
Open Scope monad_scope.

(** ** Arrays *)

Definition vector := list num.
Definition matrix := list vector.

Definition n_samples (X : matrix) : nat := length X.

(** [X.shape[1]] *)
Definition n_features (X : matrix) : nat :=
  match X with
  | [] => O
  | row :: _ => length row
  end.

(** What [check_array] accepts with its default arguments: a rectangular
    array with at least one row and one column and finite entries only. *)
Definition well_formed (X : matrix) : bool :=
  negb (Nat.eqb (n_samples X) 0) && negb (Nat.eqb (n_features X) 0)
  && forallb (fun row => Nat.eqb (length row) (n_features X)
                         && forallb Num.is_finite row) X.

Definition check_array (X : matrix) : res matrix :=
  if well_formed X then Ok X else Raise ValueError.

(** [np.max(row)]: a reduction over no entries raises. *)
Definition np_max (row : vector) : res num :=
  match row with
  | [] => Raise ValueError
  | x :: xs => Ok (fold_left Num.max xs x)
  end.

Fixpoint mapM {A B} (f : A -> res B) (l : list A) : res (list B) :=
  match l with
  | [] => Ok []
  | a :: l' =>
      res_bind (f a) (fun b =>
      res_bind (mapM f l') (fun bs => Ok (b :: bs)))
  end.

(** [np.max(dist, axis=1)] *)
Definition np_max_axis1 (dist : matrix) : res vector := mapM np_max dist.

(** ** [np.percentile], linear interpolation

    The array is sorted, the virtual index of the percentile [q] is
    [q / 100 * (n - 1)], and the result interpolates linearly between the
    two entries around it.  A percentile outside [[0, 100]] raises; an
    array holding a NaN, or no entry at all, gives NaN.  The interpolation
    is NumPy's [_lerp]: [lo + (hi - lo) * t], replaced by
    [hi - (hi - lo) * (1 - t)] where [t >= 0.5]; the two agree on finite
    entries and differ when an entry is infinite. *)

Fixpoint insert (x : num) (l : vector) : vector :=
  match l with
  | [] => [x]
  | y :: l' => if (x <=? y)%num then x :: l else y :: insert x l'
  end.

Definition np_sort (a : vector) : vector := fold_right insert [] a.

Definition lerp (lo hi : num) (t : R) : num :=
  if Num.Rleb (1 / 2) t
  then (hi - (hi - lo) * Fin (1 - t))%num
  else (lo + (hi - lo) * Fin t)%num.

Definition percentile (a : vector) (q : num) : res num :=
  match q with
  | Fin q =>
      if Num.Rleb 0 (q / 100) && Num.Rleb (q / 100) 1 then
        if existsb Num.is_nan a || Nat.eqb (length a) 0 then Ok NaN
        else
          let s := np_sort a in
          let h := q / 100 * INR (length a - 1) in
          let i := Z.to_nat (Zfloor h) in
          let j := Nat.min (i + 1) (length a - 1) in
          Ok (lerp (nth i s NaN) (nth j s NaN) (h - IZR (Zfloor h)))
      else Raise ValueError
  | _ => Raise ValueError
  end.

(** ** [sklearn.preprocessing.MinMaxScaler] on one column, range [(0, 1)] *)

Record MinMaxScaler : Type := {
  data_min_ : R;
  data_max_ : R;
  data_range_ : R;
  scale_ : R;
  min_ : R
}.

Fixpoint finite_values (v : vector) : option (list R) :=
  match v with
  | [] => Some []
  | Fin r :: v' => option_map (cons r) (finite_values v')
  | _ :: _ => None
  end.

(** [check_array] on the column [v[:, np.newaxis]]: finite entries, and at
    least one of them. *)
Definition check_column (v : vector) : res (list R) :=
  match finite_values v with
  | Some (r :: l) => Ok (r :: l)
  | _ => Raise ValueError
  end.

Definition _handle_zeros_in_scale (scale : R) : R :=
  if Num.Reqb scale 0 then 1 else scale.

Definition MinMaxScaler_fit (v : vector) : res MinMaxScaler :=
  match check_column v with
  | Ok (r :: l) =>
      let data_min := fold_left Rmin l r in
      let data_max := fold_left Rmax l r in
      let data_range := data_max - data_min in
      let scale := (1 - 0) / _handle_zeros_in_scale data_range in
      Ok {| data_min_ := data_min;
            data_max_ := data_max;
            data_range_ := data_range;
            scale_ := scale;
            min_ := 0 - data_min * scale |}
  | Ok [] => Raise ValueError
  | Raise e => Raise e
  end.

Definition MinMaxScaler_transform (sc : MinMaxScaler) (v : vector)
  : res vector :=
  res_bind (check_column v) (fun l =>
  Ok (map (fun x => Fin (x * scale_ sc + min_ sc)) l)).

(** ** The same arithmetic on binary64 numbers

    The interpreter rounds after every operation.  Three lines of
    arithmetic are repeated here as it runs them. *)

Module Binary64.

Import PrimFloat.
Local Open Scope float_scope.

(** [_lerp] of [np.percentile] *)
Definition lerp_rounded (a b t : float) : float :=
  if 0.5 <=? t then b - (b - a) * (1 - t) else a + (b - a) * t.

(** [100. * (1. - self.fpr)], the percentile that
    [EmpiricalOutlierDetector.fit] asks for *)
Definition percentile_rank (fpr : float) : float := 100 * (1 - fpr).

(** [MinMaxScaler] fitted on a column with minimum [lo] and maximum [hi],
    then applied to [x]: [x * scale_ + min_] *)
Definition normalized_rounded (lo hi x : float) : float :=
  let data_range := hi - lo in
  let scale := (1 - 0) / (if data_range =? 0 then 1 else data_range) in
  let min_ := 0 - lo * scale in
  x * scale + min_.

End Binary64.

(** ** [kenchi/outlier_detection/base.py] *)

Module Base.

(** The attributes of a detector.  [model] stands for whatever the
    subclass's [_fit] stores; an attribute that has not been assigned yet
    is [None]. *)
Record BaseOutlierDetector (Model : Type) : Type := {
  contamination : num;
  verbose : bool;
  model : Model;
  fit_time_ : option R;
  anomaly_score_ : option vector;
  threshold_ : option num;
  _scaler : option MinMaxScaler
}.
Arguments contamination {Model} _.
Arguments verbose {Model} _.
Arguments model {Model} _.
Arguments fit_time_ {Model} _.
Arguments anomaly_score_ {Model} _.
Arguments threshold_ {Model} _.
Arguments _scaler {Model} _.

Section Detector.

Variable Model : Type.

(** The two abstract methods.  [_fit] rewrites the subclass's attributes
    and may raise; [_anomaly_score] reads them. *)
Variable _fit : matrix -> M Model unit.
Variable _anomaly_score : Model -> matrix -> res vector.

(** [time.time() - start_time], as measured around [_fit]. *)
Variable elapsed : R.

Local Abbreviation detector := (BaseOutlierDetector Model).

(** [__init__(contamination, verbose)] *)
Definition init (contamination : num) (verbose : bool) (m0 : Model)
  : detector :=
  {| contamination := contamination; verbose := verbose; model := m0;
     fit_time_ := None; anomaly_score_ := None; threshold_ := None;
     _scaler := None |}.

Definition set_model (m : Model) (d : detector) : detector :=
  {| contamination := contamination d; verbose := verbose d; model := m;
     fit_time_ := fit_time_ d; anomaly_score_ := anomaly_score_ d;
     threshold_ := threshold_ d; _scaler := _scaler d |}.

Definition set_fit_time_ (t : R) (d : detector) : detector :=
  {| contamination := contamination d; verbose := verbose d;
     model := model d;
     fit_time_ := Some t; anomaly_score_ := anomaly_score_ d;
     threshold_ := threshold_ d; _scaler := _scaler d |}.

Definition set_anomaly_score_ (s : vector) (d : detector) : detector :=
  {| contamination := contamination d; verbose := verbose d;
     model := model d;
     fit_time_ := fit_time_ d; anomaly_score_ := Some s;
     threshold_ := threshold_ d; _scaler := _scaler d |}.

Definition set_threshold_ (t : num) (d : detector) : detector :=
  {| contamination := contamination d; verbose := verbose d;
     model := model d;
     fit_time_ := fit_time_ d; anomaly_score_ := anomaly_score_ d;
     threshold_ := Some t; _scaler := _scaler d |}.

Definition set__scaler (sc : MinMaxScaler) (d : detector) : detector :=
  {| contamination := contamination d; verbose := verbose d;
     model := model d;
     fit_time_ := fit_time_ d; anomaly_score_ := anomaly_score_ d;
     threshold_ := threshold_ d; _scaler := Some sc |}.

(** The attributes after a call of [fit] that returned: the parameters of
    [d], and everything else assigned anew. *)
Definition fitted_state (d : detector) (m : Model) (s : vector) (t : num)
  (sc : MinMaxScaler) : detector :=
  {| contamination := contamination d; verbose := verbose d; model := m;
     fit_time_ := Some elapsed; anomaly_score_ := Some s;
     threshold_ := Some t; _scaler := Some sc |}.

(** Reading an attribute; a missing one is an [AttributeError]. *)
Definition attr {A} (f : detector -> option A) : M detector A :=
  fun d => match f d with
           | Some a => (Ok a, d)
           | None => (Raise AttributeError, d)
           end.

(** Running a method of the subclass on its own attributes. *)
Definition on_model {A} (m : M Model A) : M detector A :=
  fun d => let (r, m') := m (model d) in (r, set_model m' d).

(** [check_is_fitted(self, '_scaler')] *)
Definition check_is_fitted : M detector unit :=
  fun d => match _scaler d with
           | Some _ => (Ok tt, d)
           | None => (Raise NotFittedError, d)
           end.

Definition _check_params : M detector unit :=
  fun d =>
    if negb ((Fin 0 <=? contamination d)%num
             && (contamination d <=? Fin (1 / 2))%num)
    then (Raise ValueError, d)
    else (Ok tt, d).

Definition _get_threshold : M detector num :=
  s <- attr anomaly_score_ ;;
  c <- (fun d => (Ok (contamination d), d)) ;;
  lift (percentile s (Fin 100 * (Fin 1 - c))%num).

(** [fit(X)].  The method returns [self]; here the detector after the
    call is the state the computation leaves.  The message printed when
    [verbose] is set is not modelled. *)
Definition fit (X : matrix) : M detector unit :=
  _check_params ;;
  X <- lift (check_array X) ;;
  on_model (_fit X) ;;
  modify (set_fit_time_ elapsed) ;;
  s <- (fun d => (_anomaly_score (model d) X, d)) ;;
  modify (set_anomaly_score_ s) ;;
  t <- _get_threshold ;;
  modify (set_threshold_ t) ;;
  sc <- lift (MinMaxScaler_fit s) ;;
  modify (set__scaler sc) ;;
  ret tt.

Definition anomaly_score (X : matrix) (normalize : bool)
  : M detector vector :=
  check_is_fitted ;;
  X <- lift (check_array X) ;;
  anomaly_score <- (fun d => (_anomaly_score (model d) X, d)) ;;
  if normalize then
    sc <- attr _scaler ;;
    lift (MinMaxScaler_transform sc anomaly_score)
  else ret anomaly_score.

(** [np.where(anomaly_score <= threshold, 1, -1)], one entry *)
Definition label (threshold score : num) : Z :=
  if (score <=? threshold)%num then 1%Z else (-1)%Z.

Definition predict (X : matrix) (threshold : option num)
  : M detector (list Z) :=
  anomaly_score <- anomaly_score X false ;;
  threshold <- match threshold with
               | None => attr threshold_
               | Some t => ret t
               end ;;
  ret (map (label threshold) anomaly_score).

(** [OutlierMixin.fit_predict]: [self.fit(X).predict(X)] *)
Definition fit_predict (X : matrix) : M detector (list Z) :=
  fit X ;; predict X None.

End Detector.

End Base.

(** ** [kenchi/outlier_detection/empirical_distns.py]

    The decorators [assign_info_on_pandas_obj] and [construct_pandas_obj]
    come from [kenchi/utils.py]; they act on labelled tables only and pass
    a plain array through, which is the input modelled here. *)

Module Empirical.

Section Detector.

(** The nearest-neighbour index of scikit-learn, a black box:
    [NearestNeighbors(metric='minkowski', n_jobs, n_neighbors, p).fit(X)]
    builds it, and [kneighbors(X)] answers with one row of distances per
    sample (the row of indices it also returns is dropped by the code). *)
Variable Index : Type.
Variable NearestNeighbors_fit : Z -> Z -> Z -> matrix -> res Index.
Variable kneighbors : Index -> matrix -> res matrix.

Record EmpiricalOutlierDetector : Type := {
  fpr : num;
  n_jobs : Z;
  n_neighbors : Z;
  p : Z;
  _neigh : option Index;
  threshold_ : option num
}.

(** [__init__(fpr, n_jobs, n_neighbors, p)] *)
Definition init (fpr : num) (n_jobs n_neighbors p : Z)
  : EmpiricalOutlierDetector :=
  {| fpr := fpr; n_jobs := n_jobs; n_neighbors := n_neighbors; p := p;
     _neigh := None; threshold_ := None |}.

Definition set__neigh (i : Index) (d : EmpiricalOutlierDetector) :=
  {| fpr := fpr d; n_jobs := n_jobs d; n_neighbors := n_neighbors d;
     p := p d; _neigh := Some i; threshold_ := threshold_ d |}.

Definition set_threshold_ (t : num) (d : EmpiricalOutlierDetector) :=
  {| fpr := fpr d; n_jobs := n_jobs d; n_neighbors := n_neighbors d;
     p := p d; _neigh := _neigh d; threshold_ := Some t |}.

(** [-np.log(self.n_neighbors) + n_features * np.log(radius)], one entry *)
Definition score (n_neighbors : Z) (n_features : nat) (radius : num)
  : num :=
  (- Num.log (Num.of_Z n_neighbors)
   + Num.of_nat n_features * Num.log radius)%num.

Definition anomaly_score (X : matrix)
  : M EmpiricalOutlierDetector vector :=
  fun d =>
    match _neigh d with
    | None => (Raise NotFittedError, d)
    | Some neigh =>
        (res_bind (check_array X) (fun X =>
         let n_features := n_features X in
         res_bind (kneighbors neigh X) (fun dist =>
         res_bind (np_max_axis1 dist) (fun radius =>
         Ok (map (score (n_neighbors d) n_features) radius)))), d)
    end.

Definition fit (X : matrix) : M EmpiricalOutlierDetector unit :=
  X <- lift (check_array X) ;;
  neigh <- (fun d =>
              (NearestNeighbors_fit (n_jobs d) (n_neighbors d) (p d) X, d)) ;;
  modify (set__neigh neigh) ;;
  scores <- anomaly_score X ;;
  fpr <- (fun d => (Ok (fpr d), d)) ;;
  threshold <- lift (percentile scores (Fin 100 * (Fin 1 - fpr))%num) ;;
  modify (set_threshold_ threshold) ;;
  ret tt.

End Detector.

End Empirical.

(** ** [kenchi/pipeline.py] *)

Module Pipeline.

(** The methods a final estimator may have.  [if_delegate_has_method]
    makes a method of the pipeline exist only when the final estimator has
    the method of the same name. *)
Record Estimator (D : Type) : Type := {
  est_fit : option (matrix -> M D unit);
  est_predict : option (matrix -> M D (list Z));
  est_fit_predict : option (matrix -> M D (list Z));
  est_anomaly_score : option (matrix -> M D vector);
  est_detect : option (matrix -> M D (list Z));
  est_fit_detect : option (matrix -> M D (list Z));
  est_feature_wise_anomaly_score : option (matrix -> M D matrix);
  est_analyze : option (matrix -> M D matrix);
  est_fit_analyze : option (matrix -> M D matrix)
}.
Arguments est_fit {D} _.
Arguments est_predict {D} _.
Arguments est_fit_predict {D} _.
Arguments est_anomaly_score {D} _.
Arguments est_detect {D} _.
Arguments est_fit_detect {D} _.
Arguments est_feature_wise_anomaly_score {D} _.
Arguments est_analyze {D} _.
Arguments est_fit_analyze {D} _.

Section Pipeline.

(** A transform object: its state, [transform], and [fit_transform],
    which returns the transformed array and leaves the fitted object. *)
Variable Transformer : Type.
Variable transform : Transformer -> matrix -> res matrix.
Variable fit_transform : matrix -> M Transformer matrix.

Variable D : Type.
Variable E : Estimator D.

Definition step : Type := (String.string * option Transformer)%type.

(** [steps] holds [self.steps[:-1]]; the last step is the pair of
    [final_name] and [_final_estimator]. *)
Record ExtendedPipeline : Type := {
  steps : list step;
  final_name : String.string;
  _final_estimator : D
}.

Definition set_steps (l : list step) (pl : ExtendedPipeline) :=
  {| steps := l; final_name := final_name pl;
     _final_estimator := _final_estimator pl |}.

Definition set__final_estimator (d : D) (pl : ExtendedPipeline) :=
  {| steps := steps pl; final_name := final_name pl;
     _final_estimator := d |}.

(** Running a method of the final estimator inside the pipeline. *)
Definition on_final {A} (m : M D A) : M ExtendedPipeline A :=
  fun pl => let (r, d) := m (_final_estimator pl) in
            (r, set__final_estimator d pl).

(** The loop shared by the methods that do not fit:
[[
    Xt = X
    for _, transform in self.steps[:-1]:
        if transform is not None:
            Xt = transform.transform(Xt)
]] *)
Definition transform_loop (l : list step) (X : matrix) : res matrix :=
  fold_left
    (fun Xt st =>
       res_bind Xt (fun Xt =>
       match snd st with
       | None => Ok Xt
       | Some t => transform t Xt
       end))
    l (Ok X).

(** [Pipeline._fit] of scikit-learn without caching and without fit
    parameters: every transform that is not [None] is fitted on the output
    of the one before it and replaced by its fitted self. *)
Fixpoint _fit_steps (l : list step) (Xt : matrix)
  : res matrix * list step :=
  match l with
  | [] => (Ok Xt, [])
  | (name, None) :: l' =>
      let (r, l'') := _fit_steps l' Xt in (r, (name, None) :: l'')
  | (name, Some t) :: l' =>
      match fit_transform Xt t with
      | (Ok Xt', t') =>
          let (r, l'') := _fit_steps l' Xt' in (r, (name, Some t') :: l'')
      | (Raise e, t') => (Raise e, (name, Some t') :: l')
      end
  end.

Definition _fit (X : matrix) : M ExtendedPipeline matrix :=
  fun pl => let (r, l) := _fit_steps (steps pl) X in (r, set_steps l pl).

(** A method guarded by [if_delegate_has_method]: without the method of
    the final estimator the attribute lookup fails. *)
Definition delegate {A B} (m : option (A -> M D B))
  (k : (A -> M D B) -> M ExtendedPipeline B) : M ExtendedPipeline B :=
  match m with
  | None => raise AttributeError
  | Some f => k f
  end.

(** The body of the methods that do not fit. *)
Definition transform_then {B} (f : matrix -> M D B) (X : matrix)
  : M ExtendedPipeline B :=
  pl <- get ;;
  Xt <- lift (transform_loop (steps pl) X) ;;
  on_final (f Xt).

(** [fit]: [super().fit(X, y)] *)
Definition fit (X : matrix) : M ExtendedPipeline unit :=
  delegate (est_fit E) (fun f => Xt <- _fit X ;; on_final (f Xt)).

(** [predict]: [super().predict(X)] *)
Definition predict (X : matrix) : M ExtendedPipeline (list Z) :=
  delegate (est_predict E) (fun f => transform_then f X).

(** [fit_predict]: [super().fit_predict(X, y)] *)
Definition fit_predict (X : matrix) : M ExtendedPipeline (list Z) :=
  delegate (est_fit_predict E) (fun f => Xt <- _fit X ;; on_final (f Xt)).

Definition anomaly_score (X : matrix) : M ExtendedPipeline vector :=
  delegate (est_anomaly_score E) (fun f => transform_then f X).

Definition detect (X : matrix) : M ExtendedPipeline (list Z) :=
  delegate (est_detect E) (fun f => transform_then f X).

Definition fit_detect (X : matrix) : M ExtendedPipeline (list Z) :=
  delegate (est_fit_detect E) (fun f => Xt <- _fit X ;; on_final (f Xt)).

Definition feature_wise_anomaly_score (X : matrix)
  : M ExtendedPipeline matrix :=
  delegate (est_feature_wise_anomaly_score E) (fun f => transform_then f X).

Definition analyze (X : matrix) : M ExtendedPipeline matrix :=
  delegate (est_analyze E) (fun f => transform_then f X).

Definition fit_analyze (X : matrix) : M ExtendedPipeline matrix :=
  delegate (est_fit_analyze E) (fun f => Xt <- _fit X ;; on_final (f Xt)).

End Pipeline.

End Pipeline.

(** ** A brute-force index on the line

    For data with a single feature the Minkowski distance of every order
    is the absolute difference, so the neighbours of a point are found by
    sorting the differences.  This index stands in for scikit-learn's in
    the concrete runs below, all of which use one feature.  As in
    scikit-learn, building the index never fails and a query for more
    neighbours than there are training points raises. *)

Module LineIndex.

Record index : Type := { k : Z; points : list R }.

Definition first_feature (X : matrix) : list R :=
  flat_map (fun row => match row with Fin r :: _ => [r] | _ => [] end) X.

Definition dist (x y : R) : R := if Num.Rleb x y then y - x else x - y.

Definition fit (n_jobs n_neighbors p : Z) (X : matrix) : res index :=
  Ok {| k := n_neighbors; points := first_feature X |}.

Definition kneighbors (i : index) (X : matrix) : res matrix :=
  if (k i <=? 0)%Z || (Z.of_nat (length (points i)) <? k i)%Z
  then Raise ValueError
  else Ok (map (fun x =>
                  firstn (Z.to_nat (k i))
                    (np_sort (map (fun y => Fin (dist x y)) (points i))))
               (first_feature X)).

End LineIndex.

(** ** The k-nearest-neighbour detector on the lifecycle of [base.py]

    The sources hold no subclass of [BaseOutlierDetector].  For concrete
    runs of its lifecycle the two hooks are taken from
    [EmpiricalOutlierDetector]: [_fit] builds the index as [fit] does
    (lines 55-62), [_anomaly_score] is [anomaly_score] (lines 84-92). *)

Module KNN.

Section Hooks.

Variable Index : Type.
Variable NearestNeighbors_fit : Z -> Z -> Z -> matrix -> res Index.
Variable kneighbors : Index -> matrix -> res matrix.

Local Abbreviation Model := (Empirical.EmpiricalOutlierDetector Index).

Definition _fit (X : matrix) : M Model unit :=
  X <- lift (check_array X) ;;
  neigh <- (fun d =>
              (NearestNeighbors_fit (Empirical.n_jobs Index d)
                 (Empirical.n_neighbors Index d) (Empirical.p Index d) X,
               d)) ;;
  modify (Empirical.set__neigh Index neigh).

Definition _anomaly_score (m : Model) (X : matrix) : res vector :=
  fst (Empirical.anomaly_score Index kneighbors X m).

End Hooks.

End KNN.

(** * Notions used to state the properties *)

(** [m] is the maximum of [row]: an entry of [row] that none exceeds. *)
Definition is_maximum (row : vector) (m : num) : Prop :=
  In m row /\ forall x, In x row -> (x <=? m)%num = true.

(** * Concrete detectors for the runs *)

(** An [EmpiricalOutlierDetector] with one neighbour whose index holds the
    single training point 0. *)
Definition unit_detector : Empirical.EmpiricalOutlierDetector LineIndex.index :=
  Empirical.set__neigh LineIndex.index
    {| LineIndex.k := 1; LineIndex.points := [0] |}
    (Empirical.init LineIndex.index (Fin (1 / 100)) 1 1 2).

(** A detector on which no call of [fit] has succeeded: a freshly
    constructed one, one whose parameters were set again, or one left
    behind by a call of [fit] that raised. *)
Inductive never_fitted (Model : Type) (_fit : matrix -> M Model unit)
  (_anomaly_score : Model -> matrix -> res vector) (elapsed : R)
  : Base.BaseOutlierDetector Model -> Prop :=
| never_fitted_init : forall contamination verbose m0,
    never_fitted Model _fit _anomaly_score elapsed
      (Base.init Model contamination verbose m0)
| never_fitted_set_params : forall d contamination verbose,
    never_fitted Model _fit _anomaly_score elapsed d ->
    never_fitted Model _fit _anomaly_score elapsed
      {| Base.contamination := contamination;
         Base.verbose := verbose;
         Base.model := Base.model d;
         Base.fit_time_ := Base.fit_time_ d;
         Base.anomaly_score_ := Base.anomaly_score_ d;
         Base.threshold_ := Base.threshold_ d;
         Base._scaler := Base._scaler d |}
| never_fitted_failed_fit : forall d X e d',
    never_fitted Model _fit _anomaly_score elapsed d ->
    Base.fit Model _fit _anomaly_score elapsed X d = (Raise e, d') ->
    never_fitted Model _fit _anomaly_score elapsed d'.

(** The contamination passes [_check_params]. *)
Definition valid_contamination (c : num) : bool :=
  (Fin 0 <=? c)%num && (c <=? Fin (1 / 2))%num.

(** * The percentile of a list of reals, as the documentation words it

    Sort the values, take the virtual index [q / 100 * (n - 1)] and
    interpolate linearly between the two values around it. *)

Fixpoint Rinsert (x : R) (l : list R) : list R :=
  match l with
  | [] => [x]
  | y :: l' => if Num.Rleb x y then x :: l else y :: Rinsert x l'
  end.

Definition Rsort (l : list R) : list R := fold_right Rinsert [] l.

Definition linear_percentile (l : list R) (q : R) : R :=
  let s := Rsort l in
  let h := q / 100 * INR (length l - 1) in
  let i := Z.to_nat (Zfloor h) in
  let j := Nat.min (i + 1) (length l - 1) in
  nth i s 0 + (nth j s 0 - nth i s 0) * (h - IZR (Zfloor h)).

(** The number of samples labelled as outliers. *)
Definition n_outliers (labels : list Z) : nat :=
  count_occ Z.eq_dec labels (-1)%Z.

(** The number of values above a cut. *)
Definition count_above (t : R) (l : list R) : nat :=
  length (filter (fun x => Num.Rltb t x) l).

(** * Min-max normalisation, as the documentation words it *)

Definition list_min (l : list R) : R :=
  match l with
  | [] => 0
  | x :: l' => fold_left Rmin l' x
  end.

Definition list_max (l : list R) : R :=
  match l with
  | [] => 0
  | x :: l' => fold_left Rmax l' x
  end.

(** A score scaled by the range of the training scores [[lo, hi]]; an
    empty range is replaced by 1, as [_handle_zeros_in_scale] does. *)
Definition normalized (lo hi x : R) : R :=
  (x - lo) / _handle_zeros_in_scale (hi - lo).

(** * The pipeline, as the documentation words it *)

Section PipelineSpec.

Variable Transformer : Type.
Variable transform : Transformer -> matrix -> res matrix.
Variable fit_transform : matrix -> M Transformer matrix.
Variable D : Type.

(** The transform chain: every step that is not [None] applies its
    [transform], in step order; a [None] step is skipped. *)
Fixpoint transform_chain (l : list (Pipeline.step Transformer)) (X : matrix)
  : res matrix :=
  match l with
  | [] => Ok X
  | (_, None) :: l' => transform_chain l' X
  | (_, Some t) :: l' => res_bind (transform t X) (transform_chain l')
  end.

(** A method of the pipeline that does not fit: the chain, then the
    method of the same name of the final estimator on its output. *)
Definition delegated {B} (m : option (matrix -> M D B)) (X : matrix)
  : M (Pipeline.ExtendedPipeline Transformer D) B :=
  fun pl =>
    match m with
    | None => (Raise AttributeError, pl)
    | Some f =>
        match transform_chain (Pipeline.steps Transformer D pl) X with
        | Raise e => (Raise e, pl)
        | Ok Xt =>
            let (r, d) := f Xt (Pipeline._final_estimator Transformer D pl) in
            (r, Pipeline.set__final_estimator Transformer D d pl)
        end
    end.

(** An identity transform returns the array it is given, fitted or not. *)
Definition is_identity (t : Transformer) : Prop :=
  (forall X, transform t X = Ok X)
  /\ (forall X, exists t', fit_transform X t = (Ok X, t')).

(** A step that leaves the array alone: absent, or an identity. *)
Definition passthrough (st : Pipeline.step Transformer) : Prop :=
  match snd st with
  | None => True
  | Some t => is_identity t
  end.

End PipelineSpec.

(** * The detectors and arrays of the concrete runs *)

(** Three points on the line, one unit apart. *)
Definition X_line : matrix := [[Fin 0]; [Fin 1]; [Fin 2]].

(** The index of [X_line] for two neighbours. *)
Definition line_index : LineIndex.index :=
  {| LineIndex.k := 2; LineIndex.points := [0; 1; 2] |}.

(** The attributes of the k-nearest-neighbour model: two neighbours. *)
Definition knn_model : Empirical.EmpiricalOutlierDetector LineIndex.index :=
  Empirical.init LineIndex.index (Fin (1 / 100)) 1 2 2.

Definition line_fit : matrix -> M _ unit :=
  KNN._fit LineIndex.index LineIndex.fit.

Definition line_anomaly_score :=
  KNN._anomaly_score LineIndex.index LineIndex.kneighbors.

(** A detector on the lifecycle of [base.py] around that model. *)
Definition knn_detector (contamination : num)
  : Base.BaseOutlierDetector (Empirical.EmpiricalOutlierDetector LineIndex.index) :=
  Base.init _ contamination false knn_model.

(** The detector that [fit] leaves on [X_line] with contamination 0.5;
    [fit] takes one time unit. *)
Definition tied_detector :=
  snd (Base.fit _ line_fit line_anomaly_score 1 X_line (knn_detector (Fin (1 / 2)))).

(** [EmpiricalOutlierDetector] with the given [fpr] and two neighbours. *)
Definition empirical_detector (fpr : num) :=
  Empirical.init LineIndex.index fpr 1 2 2.

(** A detector whose score is the logarithm of the first feature: the
    smallest subclass of [BaseOutlierDetector] with a score of minus
    infinity (at a sample whose first feature is 0). *)
Definition log_fit (X : matrix) : M unit unit := ret tt.

Definition log_anomaly_score (_ : unit) (X : matrix) : res vector :=
  Ok (map (fun row => Num.log (hd NaN row)) X).

Definition X_log : matrix := [[Fin 1]; [Fin 2]].

Definition log_detector : Base.BaseOutlierDetector unit :=
  snd (Base.fit unit log_fit log_anomaly_score 1 X_log
         (Base.init unit (Fin (1 / 10)) false tt)).

(** Four samples that the same detector scores differently, and the
    detector that [fit] leaves on them with contamination 0.5. *)
Definition X_spread : matrix := [[Fin 1]; [Fin 2]; [Fin 3]; [Fin 4]].

Definition spread_detector : Base.BaseOutlierDetector unit :=
  snd (Base.fit unit log_fit log_anomaly_score 1 X_spread
         (Base.init unit (Fin (1 / 2)) false tt)).

(** [BaseOutlierDetector] as the final estimator of a pipeline: it has
    [fit], [predict], [fit_predict] and [anomaly_score], and none of the
    other methods.  The pipeline passes [y = None] where [predict] has its
    threshold and [anomaly_score] its [normalize] flag. *)
Definition base_estimator (Model : Type) (_fit : matrix -> M Model unit)
  (_anomaly_score : Model -> matrix -> res vector) (elapsed : R)
  : Pipeline.Estimator (Base.BaseOutlierDetector Model) :=
  {| Pipeline.est_fit := Some (Base.fit Model _fit _anomaly_score elapsed);
     Pipeline.est_predict :=
       Some (fun X => Base.predict Model _anomaly_score X None);
     Pipeline.est_fit_predict :=
       Some (Base.fit_predict Model _fit _anomaly_score elapsed);
     Pipeline.est_anomaly_score :=
       Some (fun X => Base.anomaly_score Model _anomaly_score X false);
     Pipeline.est_detect := None;
     Pipeline.est_fit_detect := None;
     Pipeline.est_feature_wise_anomaly_score := None;
     Pipeline.est_analyze := None;
     Pipeline.est_fit_analyze := None |}.

(** The identity transform: an object without state. *)
Definition identity_transform (_ : unit) (X : matrix) : res matrix := Ok X.

Definition identity_fit_transform (X : matrix) : M unit matrix := ret X.

(** The two-step pipeline of an identity transform and the
    k-nearest-neighbour detector. *)
Definition identity_pipeline
  : Pipeline.ExtendedPipeline unit
      (Base.BaseOutlierDetector (Empirical.EmpiricalOutlierDetector LineIndex.index)) :=
  {| Pipeline.steps := [("identity"%string, Some tt)];
     Pipeline.final_name := "detector"%string;
     Pipeline._final_estimator := knn_detector (Fin (1 / 2)) |}.

(** * Further notions *)

(** The false positive rate leads to a percentile that NumPy accepts:
    [100 * (1 - fpr)] lies in [[0, 100]]. *)
Definition valid_fpr (fpr : num) : bool :=
  (Fin 0 <=? fpr)%num && (fpr <=? Fin 1)%num.

(** The false positive rate is a number so far outside [[0, 1]] that
    [100 * (1 - fpr)], rounded or not, misses [[0, 100]]: above 1, or
    below minus one billionth. *)
Definition out_of_range_fpr (fpr : num) : bool :=
  (Fin 1 <? fpr)%num || (fpr <? Fin (- (1 / 1000000000)))%num.

(** The steps that are not [None]. *)
Definition present_steps {Transformer : Type}
  (l : list (Pipeline.step Transformer)) : list (Pipeline.step Transformer) :=
  filter (fun st => match snd st with Some _ => true | None => false end) l.

(** [fit_transform] agrees with fitting and then transforming: the array
    it returns is what [transform] of the fitted object gives on the same
    input. *)
Definition consistent_transformers {Transformer : Type}
  (transform : Transformer -> matrix -> res matrix)
  (fit_transform : matrix -> M Transformer matrix) : Prop :=
  forall X t X' t',
    fit_transform X t = (Ok X', t') -> transform t' X = Ok X'.

(** A method of the pipeline that does not fit, whatever its name: the
    guard of [if_delegate_has_method] around the loop and the call. *)
Definition forwarded (Transformer : Type)
  (transform : Transformer -> matrix -> res matrix) (D : Type) {B : Type}
  (m : option (matrix -> M D B)) (X : matrix)
  : M (Pipeline.ExtendedPipeline Transformer D) B :=
  Pipeline.delegate Transformer D m
    (fun f => Pipeline.transform_then Transformer transform D f X).

(** The shape of a list of steps: the names, and which steps are [None]. *)
Definition step_shape {Transformer : Type}
  (l : list (Pipeline.step Transformer)) : list (String.string * bool) :=
  map (fun st => (fst st, match snd st with Some _ => true | None => false end))
    l.

(** The detector that [fit] leaves on [X_line] with contamination 0. *)
Definition zero_detector :=
  snd (Base.fit _ line_fit line_anomaly_score 1 X_line (knn_detector (Fin 0))).

(** A transform that passes the array through when its flag is set and
    raises otherwise, and a pipeline whose second step raises. *)
Definition guard_transform (enabled : bool) (X : matrix) : res matrix :=
  if enabled then Ok X else Raise ValueError.

Definition guard_fit_transform (X : matrix) : M bool matrix :=
  fun enabled => (guard_transform enabled X, enabled).

Definition failing_pipeline
  : Pipeline.ExtendedPipeline bool
      (Base.BaseOutlierDetector (Empirical.EmpiricalOutlierDetector LineIndex.index)) :=
  {| Pipeline.steps := [("pass"%string, Some true); ("fail"%string, Some false)];
     Pipeline.final_name := "detector"%string;
     Pipeline._final_estimator := tied_detector |}.

(** * Facts about the numbers *)

Lemma Rleb_true a b : a <= b -> Num.Rleb a b = true.
Proof. intros H. unfold Num.Rleb. destruct (Rle_dec a b); [reflexivity | contradiction]. Qed.

Lemma Rleb_false a b : b < a -> Num.Rleb a b = false.
Proof. intros H. unfold Num.Rleb. destruct (Rle_dec a b); [lra | reflexivity]. Qed.

Lemma Rltb_true a b : a < b -> Num.Rltb a b = true.
Proof. intros H. unfold Num.Rltb. destruct (Rlt_dec a b); [reflexivity | contradiction]. Qed.

Lemma Rltb_false a b : b <= a -> Num.Rltb a b = false.
Proof. intros H. unfold Num.Rltb. destruct (Rlt_dec a b); [lra | reflexivity]. Qed.

Lemma Reqb_true a b : a = b -> Num.Reqb a b = true.
Proof. intros H. unfold Num.Reqb. destruct (Req_dec_T a b); [reflexivity | contradiction]. Qed.

Lemma Reqb_false a b : a <> b -> Num.Reqb a b = false.
Proof. intros H. unfold Num.Reqb. destruct (Req_dec_T a b); [contradiction | reflexivity]. Qed.

Lemma Rleb_spec a b : Num.Rleb a b = true <-> a <= b.
Proof.
  unfold Num.Rleb. destruct (Rle_dec a b); split; intros; auto; discriminate.
Qed.

Lemma Rltb_spec a b : Num.Rltb a b = true <-> a < b.
Proof.
  unfold Num.Rltb. destruct (Rlt_dec a b); split; intros; auto; discriminate.
Qed.

(** Deciding the comparisons of closed real expressions met in a run. *)
Ltac Rdecide :=
  repeat match goal with
    | |- context [Num.Rleb ?a ?b] =>
        first [ rewrite (Rleb_true a b) by lra
              | rewrite (Rleb_false a b) by lra ]
    | |- context [Num.Rltb ?a ?b] =>
        first [ rewrite (Rltb_true a b) by lra
              | rewrite (Rltb_false a b) by lra ]
    | |- context [Num.Reqb ?a ?b] =>
        first [ rewrite (Reqb_true a b) by lra
              | rewrite (Reqb_false a b) by lra ]
    end.

Lemma le_refl x : Num.not_nan x -> (x <=? x)%num = true.
Proof. destruct x; intros H; try reflexivity; try discriminate. simpl. apply Rleb_true; lra. Qed.

Lemma le_trans x y z :
  (x <=? y)%num = true -> (y <=? z)%num = true -> (x <=? z)%num = true.
Proof.
  destruct x, y, z; simpl; try congruence.
  rewrite !Rleb_spec. lra.
Qed.

Lemma le_total x y :
  Num.not_nan x -> Num.not_nan y -> (x <=? y)%num = true \/ (y <=? x)%num = true.
Proof.
  destruct x, y; simpl; intros; try discriminate; auto.
  rewrite !Rleb_spec. lra.
Qed.

(** Away from NaN, [x <= y] fails exactly when [y < x]. *)
Lemma le_false_lt x y :
  Num.not_nan x -> Num.not_nan y -> ((x <=? y)%num = false <-> (y <? x)%num = true).
Proof.
  destruct x, y; simpl; intros; try discriminate; try (split; congruence).
  unfold Num.Rleb, Num.Rltb.
  destruct (Rle_dec r r0), (Rlt_dec r0 r); split; intros; try congruence; lra.
Qed.

Lemma add_comm x y : (x + y)%num = (y + x)%num.
Proof. destruct x, y; simpl; try reflexivity. f_equal; lra. Qed.

Lemma max_not_nan x y : Num.not_nan x -> Num.not_nan y -> Num.not_nan (Num.max x y).
Proof.
  unfold Num.not_nan, Num.max. intros Hx Hy. rewrite Hx, Hy.
  destruct (x <=? y)%num; assumption.
Qed.

(** The special values behave as in IEEE arithmetic. *)
Example special_values :
  Num.log (Fin 0) = NInf
  /\ (Fin 0 * NInf)%num = NaN
  /\ (NInf - NInf)%num = NaN
  /\ (NInf <=? Fin 0)%num = true
  /\ (NInf <=? NInf)%num = true
  /\ (NaN <=? NaN)%num = false
  /\ (Fin 0 <? NaN)%num = false
  /\ Num.max (Fin 0) NaN = NaN.
Proof.
  unfold Num.log, Num.mul, Num.scale_inf.
  rewrite (Rltb_false 0 0) by lra. repeat split.
Qed.

Example percentile_examples :
  percentile [Fin 3; Fin 1; Fin 2] (Fin 50) = Ok (Fin 2)
  /\ percentile [Fin 1; Fin 2] (Fin 75) = Ok (Fin (7 / 4))
  /\ percentile [Fin 1; Fin 2] (Fin 101) = Raise ValueError
  /\ percentile [Fin 1; NaN] (Fin 50) = Ok NaN.
Proof.
  repeat split.
  - unfold percentile. Rdecide. simpl length. cbn [existsb Num.is_nan orb Nat.eqb].
    replace (50 / 100 * INR (3 - 1)) with 1 by (simpl; lra).
    rewrite (Zfloor_eq 1 1) by lra.
    change (Z.to_nat 1) with 1%nat.
    replace (np_sort [Fin 3; Fin 1; Fin 2]) with [Fin 1; Fin 2; Fin 3].
    + unfold lerp. Rdecide. simpl. do 2 f_equal. lra.
    + unfold np_sort. simpl. Rdecide. simpl. Rdecide. reflexivity.
  - unfold percentile. Rdecide. simpl length. cbn [existsb Num.is_nan orb Nat.eqb].
    replace (75 / 100 * INR (2 - 1)) with (3 / 4) by (simpl; lra).
    rewrite (Zfloor_eq 0 (3 / 4)) by lra.
    change (Z.to_nat 0) with 0%nat.
    replace (np_sort [Fin 1; Fin 2]) with [Fin 1; Fin 2].
    + unfold lerp. Rdecide. simpl. do 2 f_equal. lra.
    + unfold np_sort. simpl. Rdecide. reflexivity.
  - unfold percentile. Rdecide. reflexivity.
  - unfold percentile. Rdecide. reflexivity.
Qed.

(** Between minus infinity and a finite score, in the upper half of the
    gap, the interpolation gives minus infinity: the percentile 99 of two
    duplicate points and one other. *)
Example percentile_of_infinite_scores :
  percentile [NInf; NInf; Fin (- ln 2)] (Fin 99) = Ok NInf.
Proof.
  unfold percentile. Rdecide. simpl length. cbn [existsb Num.is_nan orb Nat.eqb].
  replace (99 / 100 * INR (3 - 1)) with (99 / 50) by (simpl; lra).
  rewrite (Zfloor_eq 1 (99 / 50)) by lra.
  change (Z.to_nat 1) with 1%nat.
  replace (np_sort [NInf; NInf; Fin (- ln 2)]) with [NInf; NInf; Fin (- ln 2)]
    by reflexivity.
  unfold lerp. Rdecide. simpl. unfold Num.scale_inf. Rdecide. reflexivity.
Qed.

(** * Sorting and the percentile *)

Lemma finite_values_map s l : finite_values s = Some l -> s = map Fin l.
Proof.
  revert l. induction s as [|x s IH]; simpl; intros l H.
  - inversion H. reflexivity.
  - destruct x; try discriminate.
    destruct (finite_values s) as [l'|]; simpl in H; [|discriminate].
    inversion H; subst. simpl. f_equal. apply IH. reflexivity.
Qed.

Lemma finite_values_of_map l : finite_values (map Fin l) = Some l.
Proof. induction l as [|x l IH]; simpl; [|rewrite IH]; reflexivity. Qed.

Lemma insert_map_Fin x l :
  insert (Fin x) (map Fin l) = map Fin (Rinsert x l).
Proof.
  induction l as [|y l IH]; simpl; [reflexivity|].
  destruct (Num.Rleb x y); simpl; [reflexivity|]. f_equal. exact IH.
Qed.

Lemma np_sort_map_Fin l : np_sort (map Fin l) = map Fin (Rsort l).
Proof.
  unfold np_sort, Rsort. induction l as [|x l IH]; simpl; [reflexivity|].
  rewrite IH. apply insert_map_Fin.
Qed.

Lemma no_nan_map_Fin l : existsb Num.is_nan (map Fin l) = false.
Proof. induction l; simpl; auto. Qed.

Lemma Rinsert_perm x l : Permutation (x :: l) (Rinsert x l).
Proof.
  induction l as [|y l IH]; simpl; [reflexivity|].
  destruct (Num.Rleb x y); [reflexivity|].
  rewrite perm_swap. constructor. exact IH.
Qed.

Lemma Rsort_perm l : Permutation l (Rsort l).
Proof.
  unfold Rsort. induction l as [|x l IH]; simpl; [constructor|].
  rewrite <- Rinsert_perm. constructor. exact IH.
Qed.

Lemma Rsort_length l : length (Rsort l) = length l.
Proof. symmetry. apply Permutation_length, Rsort_perm. Qed.

Lemma Rinsert_sorted x l :
  StronglySorted Rle l -> StronglySorted Rle (Rinsert x l).
Proof.
  induction 1 as [|y l Hs IH Hy]; simpl.
  - repeat constructor.
  - destruct (Num.Rleb x y) eqn:E.
    + apply Rleb_spec in E. constructor; [constructor; assumption|].
      constructor; [assumption|].
      eapply Forall_impl; [|exact Hy]. intros z Hz. simpl in Hz. lra.
    + constructor; [exact IH|].
      assert (Hyx : y <= x).
      { unfold Num.Rleb in E. destruct (Rle_dec x y); [discriminate | lra]. }
      eapply Permutation_Forall; [apply Rinsert_perm|].
      constructor; assumption.
Qed.

Lemma Rsort_sorted l : StronglySorted Rle (Rsort l).
Proof.
  unfold Rsort. induction l; simpl; [constructor | apply Rinsert_sorted; assumption].
Qed.

Lemma sorted_nth_le l : StronglySorted Rle l ->
  forall i j, (i <= j < length l)%nat -> nth i l 0 <= nth j l 0.
Proof.
  induction 1 as [|x l Hs IH Hx]; intros i j Hij; simpl in Hij; [lia|].
  destruct i as [|i], j as [|j]; simpl; try lra; try lia.
  - rewrite Forall_forall in Hx. apply Hx, nth_In. lia.
  - apply IH. lia.
Qed.

(** Without repeated values the sorted list increases strictly. *)
Lemma sorted_nth_lt l : StronglySorted Rle l -> NoDup l ->
  forall i j, (i < j < length l)%nat -> nth i l 0 < nth j l 0.
Proof.
  intros Hs Hnd i j Hij.
  destruct (sorted_nth_le l Hs i j ltac:(lia)) as [Hlt | Heq]; [exact Hlt|].
  exfalso. rewrite NoDup_nth in Hnd.
  assert (i = j) by (apply (Hnd i j); [lia | lia | exact Heq]). lia.
Qed.

Lemma nth_map_Fin l i :
  (i < length l)%nat -> nth i (map Fin l) NaN = Fin (nth i l 0).
Proof.
  intros H. rewrite (nth_indep _ NaN (Fin 0)) by (rewrite length_map; exact H).
  apply (map_nth Fin).
Qed.

(** Where the virtual index of a percentile in [[0, 100]] falls. *)
Lemma virtual_index_bounds (n : nat) (q : R) :
  (1 <= n)%nat -> 0 <= q <= 100 ->
  let h := q / 100 * INR (n - 1) in
  (0 <= Zfloor h)%Z /\ (Z.to_nat (Zfloor h) <= n - 1)%nat
  /\ INR (Z.to_nat (Zfloor h)) = IZR (Zfloor h)
  /\ IZR (Zfloor h) <= h < IZR (Zfloor h) + 1.
Proof.
  intros Hn Hq h.
  assert (Hn1 : 0 <= INR (n - 1)) by apply pos_INR.
  assert (Hh : 0 <= h <= INR (n - 1)).
  { unfold h. split; [apply Rmult_le_pos; lra|].
    rewrite <- (Rmult_1_l (INR (n - 1))) at 2.
    apply Rmult_le_compat_r; lra. }
  assert (Hb := Zfloor_bound h).
  assert (H0 : (0 <= Zfloor h)%Z) by (apply Zfloor_lub; simpl; lra).
  assert (Hle : (Zfloor h <= Z.of_nat (n - 1))%Z).
  { apply le_IZR. rewrite <- INR_IZR_INZ. lra. }
  repeat split; try lra; try lia.
  rewrite INR_IZR_INZ, Z2Nat.id by exact H0. reflexivity.
Qed.

Lemma percentile_finite l q :
  l <> [] -> 0 <= q <= 100 ->
  percentile (map Fin l) (Fin q) = Ok (Fin (linear_percentile l q)).
Proof.
  intros Hl Hq. unfold percentile.
  rewrite (Rleb_true 0 (q / 100)) by lra.
  rewrite (Rleb_true (q / 100) 1) by lra.
  rewrite no_nan_map_Fin, length_map. simpl.
  assert (Hn : (1 <= length l)%nat) by (destruct l; [congruence | simpl; lia]).
  replace (Nat.eqb (length l) 0) with false
    by (symmetry; apply Nat.eqb_neq; lia).
  destruct (virtual_index_bounds (length l) q Hn Hq) as (_ & Hi & _ & _).
  rewrite np_sort_map_Fin.
  rewrite !nth_map_Fin by (rewrite Rsort_length; lia).
  unfold lerp, linear_percentile.
  destruct (Num.Rleb (1 / 2) _); simpl; do 2 f_equal; lra.
Qed.

(** When [np.percentile] returns on finite values for the percentile
    [100 * (1 - fpr)], the rate lies in [[0, 1]] and the result is the
    linear percentile. *)
Lemma percentile_of_fpr_inv l fpr t :
  l <> [] ->
  percentile (map Fin l) (Fin 100 * (Fin 1 - fpr))%num = Ok t ->
  exists r,
    fpr = Fin r /\ 0 <= r <= 1
    /\ t = Fin (linear_percentile l (100 * (1 - r))).
Proof.
  intros Hl H. destruct fpr as [|r| |]; [simpl in H| |simpl in H|simpl in H].
  - unfold Num.scale_inf in H. rewrite (Rltb_true 0 100) in H by lra.
    discriminate.
  - change (Fin 100 * (Fin 1 - Fin r))%num with (Fin (100 * (1 - r))) in H.
    destruct (Rle_dec 0 r) as [H0|H0]; [destruct (Rle_dec r 1) as [H1|H1]|].
    + rewrite percentile_finite in H by (try assumption; lra).
      inversion H. exists r. repeat split; assumption.
    + unfold percentile in H. rewrite (Rleb_false 0 _) in H by lra.
      discriminate.
    + unfold percentile in H. rewrite (Rleb_true 0 _) in H by lra.
      rewrite (Rleb_false _ 1) in H by lra. discriminate.
  - unfold Num.scale_inf in H. rewrite (Rltb_true 0 100) in H by lra.
    discriminate.
  - discriminate.
Qed.

(** ** How many values lie above a percentile *)

Lemma count_above_app t l1 l2 :
  count_above t (l1 ++ l2) = (count_above t l1 + count_above t l2)%nat.
Proof. unfold count_above. rewrite filter_app, length_app. reflexivity. Qed.

Lemma count_above_perm t l l' :
  Permutation l l' -> count_above t l = count_above t l'.
Proof.
  unfold count_above.
  induction 1 as [|x l l' _ IH|x y l|l l' l'' _ IH1 _ IH2]; simpl.
  - reflexivity.
  - destruct (Num.Rltb t x); simpl; congruence.
  - destruct (Num.Rltb t x), (Num.Rltb t y); reflexivity.
  - congruence.
Qed.

Lemma count_above_none t l :
  (forall x, In x l -> x <= t) -> count_above t l = 0%nat.
Proof.
  unfold count_above. induction l as [|x l IH]; simpl; intros H; [reflexivity|].
  rewrite Rltb_false by (apply H; left; reflexivity).
  apply IH. intros y Hy. apply H. right. exact Hy.
Qed.

Lemma count_above_all t l :
  (forall x, In x l -> t < x) -> count_above t l = length l.
Proof.
  unfold count_above. induction l as [|x l IH]; simpl; intros H; [reflexivity|].
  rewrite Rltb_true by (apply H; left; reflexivity). simpl.
  f_equal. apply IH. intros y Hy. apply H. right. exact Hy.
Qed.

Lemma count_above_le_length t l : (count_above t l <= length l)%nat.
Proof. unfold count_above. apply filter_length_le. Qed.

(** The labels of [predict] on finite scores count the scores above the
    threshold. *)
Lemma n_outliers_count_above t l :
  n_outliers (map (Base.label (Fin t)) (map Fin l)) = count_above t l.
Proof.
  unfold n_outliers, count_above, Base.label.
  induction l as [|x l IH]; simpl; [reflexivity|].
  unfold Num.Rleb, Num.Rltb.
  destruct (Rle_dec x t), (Rlt_dec t x); try lra; simpl.
  - destruct (Z.eq_dec 1 (-1)); [discriminate | exact IH].
  - destruct (Z.eq_dec (-1) (-1)); [f_equal; exact IH | congruence].
Qed.

Section PercentileCount.

Variable l : list R.
Variable c : R.
Hypothesis l_not_empty : l <> [].
Hypothesis c_range : 0 <= c <= 1 / 2.

Let n := length l.
Let q := 100 * (1 - c).
Let h := q / 100 * INR (n - 1).
Let i := Z.to_nat (Zfloor h).
Let t := linear_percentile l q.

Lemma n_positive : (1 <= n)%nat.
Proof. unfold n. destruct l; [congruence | simpl; lia]. Qed.

Lemma index_facts :
  (i <= n - 1)%nat /\ INR i <= h < INR i + 1
  /\ h = INR n - 1 - c * INR n + c.
Proof.
  assert (Hn := n_positive).
  destruct (virtual_index_bounds n q Hn) as (_ & Hi & Hii & Hb).
  { unfold q. lra. }
  fold h in Hi, Hii, Hb. fold i in Hi, Hii.
  split; [exact Hi|]. split; [rewrite Hii; exact Hb|].
  unfold h, q. rewrite minus_INR by exact Hn. simpl. field.
Qed.

Lemma threshold_above_lower_neighbour : nth i (Rsort l) 0 <= t.
Proof.
  destruct index_facts as (Hi & Hb & _). assert (Hn := n_positive).
  unfold t, linear_percentile. fold n h i.
  set (j := Nat.min (i + 1) (n - 1)).
  assert (Hij : nth i (Rsort l) 0 <= nth j (Rsort l) 0).
  { apply sorted_nth_le; [apply Rsort_sorted|].
    rewrite Rsort_length. fold n. unfold j. lia. }
  assert (Hf : 0 <= h - IZR (Zfloor h)) by (generalize (Zfloor_bound h); lra).
  assert (0 <= (nth j (Rsort l) 0 - nth i (Rsort l) 0) * (h - IZR (Zfloor h)))
    by (apply Rmult_le_pos; lra).
  lra.
Qed.

Lemma count_above_percentile_le :
  (count_above t l <= n - 1 - i)%nat.
Proof.
  destruct index_facts as (Hi & _ & _). assert (Hn := n_positive).
  rewrite (count_above_perm t l (Rsort l) (Rsort_perm l)).
  rewrite <- (firstn_skipn (i + 1) (Rsort l)), count_above_app.
  rewrite count_above_none.
  - simpl. etransitivity; [apply count_above_le_length|].
    rewrite length_skipn, Rsort_length. fold n. lia.
  - intros x Hx. apply (In_nth _ _ 0) in Hx. destruct Hx as (k & Hk & <-).
    rewrite length_firstn, Rsort_length in Hk. fold n in Hk.
    rewrite nth_firstn.
    replace (k <? i + 1)%nat with true by (symmetry; apply Nat.ltb_lt; lia).
    etransitivity; [|apply threshold_above_lower_neighbour].
    apply sorted_nth_le; [apply Rsort_sorted|].
    rewrite Rsort_length. fold n. lia.
Qed.

Lemma count_above_percentile_ge :
  NoDup l -> (n - 1 - i <= count_above t l)%nat.
Proof.
  intros Hnd. destruct index_facts as (Hi & Hb & _). assert (Hn := n_positive).
  assert (Hnd' : NoDup (Rsort l)) by (eapply Permutation_NoDup; [apply Rsort_perm | exact Hnd]).
  rewrite (count_above_perm t l (Rsort l) (Rsort_perm l)).
  rewrite <- (firstn_skipn (i + 1) (Rsort l)), count_above_app.
  rewrite (count_above_all t (skipn (i + 1) (Rsort l))).
  - rewrite length_skipn, Rsort_length. fold n. lia.
  - intros x Hx. apply (In_nth _ _ 0) in Hx. destruct Hx as (k & Hk & <-).
    rewrite length_skipn, Rsort_length in Hk. fold n in Hk.
    rewrite nth_skipn.
    assert (Hlt : t < nth (i + 1) (Rsort l) 0).
    { unfold t, linear_percentile. fold n h i.
      replace (Nat.min (i + 1) (n - 1)) with (i + 1)%nat by lia.
      assert (Hs : nth i (Rsort l) 0 < nth (i + 1) (Rsort l) 0).
      { apply sorted_nth_lt; [apply Rsort_sorted | exact Hnd' |].
        rewrite Rsort_length. fold n. lia. }
      assert (Hf : h - IZR (Zfloor h) < 1) by (generalize (Zfloor_bound h); lra).
      assert (Hf0 : 0 <= h - IZR (Zfloor h)) by (generalize (Zfloor_bound h); lra).
      nra. }
    eapply Rlt_le_trans; [exact Hlt|].
    apply sorted_nth_le; [apply Rsort_sorted|].
    rewrite Rsort_length. fold n. lia.
Qed.

(** Fewer than [c * n + 1] values lie above the percentile
    [100 * (1 - c)]. *)
Lemma count_above_percentile_upper :
  INR (count_above t l) < c * INR n + 1.
Proof.
  destruct index_facts as (Hi & Hb & Hh). assert (Hn := n_positive).
  assert (H := count_above_percentile_le). apply le_INR in H.
  rewrite !minus_INR in H by lia. simpl in H. lra.
Qed.

(** More than [c * n - 1] do when no value is repeated. *)
Lemma count_above_percentile_lower :
  NoDup l -> c * INR n - 1 < INR (count_above t l).
Proof.
  intros Hnd.
  destruct index_facts as (Hi & Hb & Hh). assert (Hn := n_positive).
  assert (H := count_above_percentile_ge Hnd). apply le_INR in H.
  rewrite !minus_INR in H by lia. simpl in H. lra.
Qed.

End PercentileCount.

(** * The score normaliser *)

Lemma fold_left_Rmin_spec l : forall x,
  In (fold_left Rmin l x) (x :: l)
  /\ forall y, In y (x :: l) -> fold_left Rmin l x <= y.
Proof.
  induction l as [|a l IH]; intros x; simpl.
  - split; [left; reflexivity | intros y [<- | []]; lra].
  - destruct (IH (Rmin x a)) as [Hin Hle]. split.
    + destruct Hin as [Hin | Hin]; [|auto].
      rewrite <- Hin. unfold Rmin. destruct (Rle_dec x a); auto.
    + intros y Hy.
      assert (Hm : fold_left Rmin l (Rmin x a) <= Rmin x a)
        by (apply Hle; left; reflexivity).
      destruct Hy as [<- | [<- | Hy]].
      * generalize (Rmin_l x a). lra.
      * generalize (Rmin_r x a). lra.
      * apply Hle. right. exact Hy.
Qed.

Lemma fold_left_Rmax_spec l : forall x,
  In (fold_left Rmax l x) (x :: l)
  /\ forall y, In y (x :: l) -> y <= fold_left Rmax l x.
Proof.
  induction l as [|a l IH]; intros x; simpl.
  - split; [left; reflexivity | intros y [<- | []]; lra].
  - destruct (IH (Rmax x a)) as [Hin Hle]. split.
    + destruct Hin as [Hin | Hin]; [|auto].
      rewrite <- Hin. unfold Rmax. destruct (Rle_dec x a); auto.
    + intros y Hy.
      assert (Hm : Rmax x a <= fold_left Rmax l (Rmax x a))
        by (apply Hle; left; reflexivity).
      destruct Hy as [<- | [<- | Hy]].
      * generalize (Rmax_l x a). lra.
      * generalize (Rmax_r x a). lra.
      * apply Hle. right. exact Hy.
Qed.

Lemma list_min_spec l : l <> [] ->
  In (list_min l) l /\ forall y, In y l -> list_min l <= y.
Proof. destruct l; [congruence|]. intros _. apply fold_left_Rmin_spec. Qed.

Lemma list_max_spec l : l <> [] ->
  In (list_max l) l /\ forall y, In y l -> y <= list_max l.
Proof. destruct l; [congruence|]. intros _. apply fold_left_Rmax_spec. Qed.

Lemma check_column_finite l :
  l <> [] -> check_column (map Fin l) = Ok l.
Proof.
  intros H. unfold check_column. rewrite finite_values_of_map.
  destruct l; [congruence | reflexivity].
Qed.

Lemma check_column_inv s l :
  check_column s = Ok l -> s = map Fin l /\ l <> [].
Proof.
  unfold check_column. destruct (finite_values s) as [[|r l']|] eqn:E;
    try discriminate.
  intros H. inversion H; subst. split; [|discriminate].
  apply finite_values_map. exact E.
Qed.

(** Fitting succeeds exactly on a non-empty list of finite scores, and
    records their minimum and maximum. *)
Lemma MinMaxScaler_fit_finite l :
  l <> [] ->
  exists sc,
    MinMaxScaler_fit (map Fin l) = Ok sc
    /\ data_min_ sc = list_min l
    /\ data_max_ sc = list_max l
    /\ forall x, x * scale_ sc + min_ sc
                 = normalized (list_min l) (list_max l) x.
Proof.
  intros H. unfold MinMaxScaler_fit. rewrite check_column_finite by exact H.
  destruct l as [|r l]; [congruence|].
  eexists. split; [reflexivity|]. simpl. repeat split.
  intros x. unfold normalized. simpl.
  assert (Hz : _handle_zeros_in_scale (fold_left Rmax l r - fold_left Rmin l r) <> 0).
  { unfold _handle_zeros_in_scale, Num.Reqb.
    destruct (Req_dec_T _ 0); [lra | assumption]. }
  field. exact Hz.
Qed.

Lemma MinMaxScaler_fit_inv s sc :
  MinMaxScaler_fit s = Ok sc -> exists l, s = map Fin l /\ l <> [].
Proof.
  unfold MinMaxScaler_fit.
  destruct (check_column s) as [l|e] eqn:E; [|discriminate].
  intros _. exists l. apply check_column_inv. exact E.
Qed.

Lemma normalized_lo lo hi : normalized lo hi lo = 0.
Proof. unfold normalized. unfold Rdiv. replace (lo - lo) with 0 by lra. lra. Qed.

(** Over the reals the maximum is mapped to 1 exactly. *)
Lemma normalized_hi lo hi : lo < hi -> normalized lo hi hi = 1.
Proof.
  intros H. unfold normalized, _handle_zeros_in_scale.
  rewrite Reqb_false by lra. field. lra.
Qed.

Lemma normalized_flat lo x : normalized lo lo x = x - lo.
Proof.
  unfold normalized, _handle_zeros_in_scale.
  rewrite Reqb_true by lra. field.
Qed.

(** The normalisation never decreases, and is not negative from the
    minimum on. *)
Lemma normalized_monotone lo hi x y :
  lo <= hi -> x <= y -> normalized lo hi x <= normalized lo hi y.
Proof.
  intros Hr Hxy. unfold normalized, _handle_zeros_in_scale, Num.Reqb.
  destruct (Req_dec_T (hi - lo) 0) as [E | E].
  - lra.
  - apply Rmult_le_compat_r; [|lra].
    left. apply Rinv_0_lt_compat. lra.
Qed.

Lemma normalized_nonneg lo hi x :
  lo <= hi -> lo <= x -> 0 <= normalized lo hi x.
Proof.
  intros Hr Hx. rewrite <- (normalized_lo lo hi).
  apply normalized_monotone; assumption.
Qed.

(** * The score of [EmpiricalOutlierDetector] *)

Lemma fold_left_max_spec xs : forall x,
  Num.not_nan x -> Forall Num.not_nan xs ->
  Num.not_nan (fold_left Num.max xs x)
  /\ In (fold_left Num.max xs x) (x :: xs)
  /\ (x <=? fold_left Num.max xs x)%num = true
  /\ (forall y, In y xs -> (y <=? fold_left Num.max xs x)%num = true).
Proof.
  induction xs as [|a xs IH]; intros x Hx Hxs; simpl.
  - repeat split; auto using le_refl; try (intros y []).
  - inversion Hxs as [|? ? Ha Hxs']; subst.
    destruct (IH (Num.max x a) (max_not_nan x a Hx Ha) Hxs')
      as (Hn & Hin & Hle & Hall).
    assert (Hxm : (x <=? Num.max x a)%num = true
                  /\ (a <=? Num.max x a)%num = true).
    { unfold Num.max. rewrite Hx, Ha.
      destruct (x <=? a)%num eqn:E.
      - split; [assumption | apply le_refl; assumption].
      - split; [apply le_refl; assumption|].
        destruct (le_total x a Hx Ha); congruence. }
    destruct Hxm as [Hxm Ham].
    repeat split.
    + assumption.
    + destruct Hin as [Hin | Hin]; [|auto].
      revert Hin. unfold Num.max. rewrite Hx, Ha.
      destruct (x <=? a)%num; intros Hin; [right; left | left]; assumption.
    + eapply le_trans; eassumption.
    + intros y [-> | Hy]; [eapply le_trans; eassumption | auto].
Qed.

Lemma np_max_is_maximum row :
  row <> [] -> Forall Num.not_nan row ->
  exists m, np_max row = Ok m /\ is_maximum row m.
Proof.
  destruct row as [|x xs]; [congruence|]. intros _ H.
  inversion H as [|? ? Hx Hxs]; subst.
  destruct (fold_left_max_spec xs x Hx Hxs) as (_ & Hin & Hle & Hall).
  exists (fold_left Num.max xs x). split; [reflexivity|].
  split; [assumption|]. intros y [-> | Hy]; auto.
Qed.

Lemma np_max_axis1_spec dist :
  Forall (fun row => row <> [] /\ Forall Num.not_nan row) dist ->
  exists radius, np_max_axis1 dist = Ok radius
                 /\ Forall2 is_maximum dist radius.
Proof.
  induction 1 as [|row dist [Hne Hnn] _ IH].
  - exists []. split; [reflexivity | constructor].
  - destruct (np_max_is_maximum row Hne Hnn) as (m & Hm & Hmax).
    destruct IH as (radius & Hr & Hall).
    exists (m :: radius). unfold np_max_axis1 in *. simpl.
    rewrite Hm. simpl. rewrite Hr. simpl. split; [reflexivity|].
    constructor; assumption.
Qed.

(** The expression of the code and the formula of the documentation are
    the same number, special values included. *)
Lemma score_formula k n radius :
  Empirical.score k n radius
  = (Num.of_nat n * Num.log radius - Num.log (Num.of_Z k))%num.
Proof. unfold Empirical.score, Num.sub. apply add_comm. Qed.

Lemma score_example : Empirical.score 1 1 (Fin (exp 1)) = Fin 1.
Proof.
  unfold Empirical.score, Num.of_Z, Num.of_nat. simpl.
  assert (He := exp_pos 1).
  rewrite (Rltb_true 0 1) by lra. rewrite ln_1.
  rewrite (Rltb_true 0 (exp 1)) by lra. rewrite ln_exp.
  simpl. f_equal. lra.
Qed.

(** C1.  On a fitted detector and a valid array [X], [anomaly_score]
    returns one score per row of neighbour distances, and each score is
    [n_features * log(radius) - log(n_neighbors)], where [radius] is the
    maximum of the row.  With one neighbour, one feature and a distance of
    [e] the score is 1. *)
Theorem anomaly_score_is_log_radius_formula
  (Index : Type) (kneighbors : Index -> matrix -> res matrix)
  (d : Empirical.EmpiricalOutlierDetector Index) (neigh : Index)
  (X dist : matrix) :
  Empirical._neigh Index d = Some neigh ->
  well_formed X = true ->
  kneighbors neigh X = Ok dist ->
  Forall (fun row => row <> [] /\ Forall Num.not_nan row) dist ->
  (exists scores,
      Empirical.anomaly_score Index kneighbors X d = (Ok scores, d)
      /\ Forall2
           (fun row s =>
              exists radius,
                is_maximum row radius
                /\ s = (Num.of_nat (n_features X) * Num.log radius
                        - Num.log (Num.of_Z (Empirical.n_neighbors Index d)))%num)
           dist scores)
  /\ Empirical.score 1 1 (Fin (exp 1)) = Fin 1.
Proof.
  intros Hfit HX Hk Hdist. split; [|exact score_example].
  destruct (np_max_axis1_spec dist Hdist) as (radius & Hr & Hmax).
  exists (map (Empirical.score (Empirical.n_neighbors Index d) (n_features X))
            radius).
  split.
  - unfold Empirical.anomaly_score, check_array.
    rewrite Hfit, HX. simpl. rewrite Hk. simpl. rewrite Hr. reflexivity.
  - clear Hr Hdist Hk. induction Hmax as [|row r dist radius Hrow _ IH].
    + constructor.
    + simpl. constructor; [|exact IH].
      exists r. split; [assumption | apply score_formula].
Qed.

(** The example of the documentation, run on the line index: one training
    point at 0, one neighbour, a query at [e]. *)
Lemma anomaly_score_is_log_radius_formula_witness :
  (exists scores,
      Empirical.anomaly_score LineIndex.index LineIndex.kneighbors
        [[Fin (exp 1)]] unit_detector = (Ok scores, unit_detector)
      /\ Forall2
           (fun row s =>
              exists radius,
                is_maximum row radius
                /\ s = (Num.of_nat (n_features [[Fin (exp 1)]])
                        * Num.log radius
                        - Num.log
                            (Num.of_Z
                               (Empirical.n_neighbors LineIndex.index
                                  unit_detector)))%num)
           [[Fin (exp 1 - 0)]] scores)
  /\ Empirical.score 1 1 (Fin (exp 1)) = Fin 1.
Proof.
  apply (anomaly_score_is_log_radius_formula LineIndex.index
           LineIndex.kneighbors unit_detector
           {| LineIndex.k := 1; LineIndex.points := [0] |}
           [[Fin (exp 1)]] [[Fin (exp 1 - 0)]]).
  - reflexivity.
  - reflexivity.
  - unfold LineIndex.kneighbors, LineIndex.dist. simpl.
    rewrite (Rleb_false (exp 1) 0) by (generalize (exp_pos 1); lra).
    reflexivity.
  - repeat constructor. discriminate.
Defined.

(** * The lifecycle of [BaseOutlierDetector] *)

Section BaseFacts.

Variable Model : Type.
Variable _fit : matrix -> M Model unit.
Variable _anomaly_score : Model -> matrix -> res vector.
Variable elapsed : R.

Local Abbreviation detector := (Base.BaseOutlierDetector Model).
Local Abbreviation fit := (Base.fit Model _fit _anomaly_score elapsed).
Local Abbreviation anomaly_score := (Base.anomaly_score Model _anomaly_score).
Local Abbreviation predict := (Base.predict Model _anomaly_score).
Local Abbreviation fit_predict :=
  (Base.fit_predict Model _fit _anomaly_score elapsed).

Local Abbreviation fitted_state := (Base.fitted_state Model elapsed).

(** [fit], step by step: where it may raise and what it has assigned by
    then. *)
Lemma fit_unfold X d :
  fit X d =
  if negb (valid_contamination (Base.contamination d))
  then (Raise ValueError, d)
  else if negb (well_formed X) then (Raise ValueError, d)
  else
    match _fit X (Base.model d) with
    | (Raise e, m) => (Raise e, Base.set_model Model m d)
    | (Ok _, m) =>
        let d1 := Base.set_fit_time_ Model elapsed (Base.set_model Model m d) in
        match _anomaly_score m X with
        | Raise e => (Raise e, d1)
        | Ok s =>
            let d2 := Base.set_anomaly_score_ Model s d1 in
            match percentile s (Fin 100 * (Fin 1 - Base.contamination d))%num with
            | Raise e => (Raise e, d2)
            | Ok t =>
                let d3 := Base.set_threshold_ Model t d2 in
                match MinMaxScaler_fit s with
                | Raise e => (Raise e, d3)
                | Ok sc => (Ok tt, fitted_state d m s t sc)
                end
            end
        end
    end.
Proof.
  unfold Base.fit, Base._get_threshold, Base.on_model, Base.attr,
    Base._check_params, valid_contamination, check_array, bind, lift,
    modify, ret.
  destruct (negb _); [reflexivity|].
  destruct (well_formed X); simpl; [|reflexivity].
  destruct (_fit X (Base.model d)) as [[[]|e] m]; [|reflexivity].
  simpl.
  destruct (_anomaly_score m X) as [s|e]; [|reflexivity].
  simpl.
  destruct (percentile s _) as [t|e]; [|reflexivity].
  destruct (MinMaxScaler_fit s) as [sc|e]; reflexivity.
Qed.

(** What a successful [fit] went through. *)
Lemma fit_ok_inv X d d' :
  fit X d = (Ok tt, d') ->
  valid_contamination (Base.contamination d) = true
  /\ well_formed X = true
  /\ exists m s t sc,
      _fit X (Base.model d) = (Ok tt, m)
      /\ _anomaly_score m X = Ok s
      /\ percentile s (Fin 100 * (Fin 1 - Base.contamination d))%num = Ok t
      /\ MinMaxScaler_fit s = Ok sc
      /\ d' = fitted_state d m s t sc.
Proof.
  rewrite fit_unfold.
  destruct (valid_contamination _); simpl; [|discriminate].
  destruct (well_formed X); simpl; [|discriminate].
  destruct (_fit X (Base.model d)) as [[[]|e] m]; [|discriminate].
  destruct (_anomaly_score m X) as [s|e] eqn:Hs; [|discriminate].
  destruct (percentile s _) as [t|e] eqn:Ht; [|discriminate].
  destruct (MinMaxScaler_fit s) as [sc|e] eqn:Hsc; [|discriminate].
  intros H. inversion H; subst. repeat split.
  exists m, s, t, sc. repeat split; assumption.
Qed.

Lemma anomaly_score_unfitted X normalize d :
  Base._scaler d = None ->
  anomaly_score X normalize d = (Raise NotFittedError, d).
Proof.
  intros H. unfold Base.anomaly_score, bind, Base.check_is_fitted.
  rewrite H. reflexivity.
Qed.

Lemma predict_unfitted X threshold d :
  Base._scaler d = None ->
  predict X threshold d = (Raise NotFittedError, d).
Proof.
  intros H. unfold Base.predict, bind.
  rewrite anomaly_score_unfitted by assumption. reflexivity.
Qed.

(** The raw scores of a fitted detector on a valid array are those of
    the hook, and the call leaves the detector as it was. *)
Lemma anomaly_score_raw X d sc :
  Base._scaler d = Some sc -> well_formed X = true ->
  anomaly_score X false d = (_anomaly_score (Base.model d) X, d).
Proof.
  intros H HX. unfold Base.anomaly_score, bind, Base.check_is_fitted, lift,
    check_array.
  rewrite H, HX. destruct (_anomaly_score (Base.model d) X); reflexivity.
Qed.

Lemma predict_fitted X d sc s threshold t :
  Base._scaler d = Some sc -> well_formed X = true ->
  _anomaly_score (Base.model d) X = Ok s ->
  threshold = Some t \/ (threshold = None /\ Base.threshold_ d = Some t) ->
  predict X threshold d = (Ok (map (Base.label t) s), d).
Proof.
  intros H HX Hs Ht. unfold Base.predict, bind.
  rewrite (anomaly_score_raw X d sc H HX), Hs.
  destruct Ht as [-> | [-> Ht]]; [reflexivity|].
  unfold Base.attr. rewrite Ht. reflexivity.
Qed.

Lemma never_fitted_no_scaler d :
  never_fitted Model _fit _anomaly_score elapsed d -> Base._scaler d = None.
Proof.
  induction 1 as [| |d X e d' _ IH Hfit]; try assumption; try reflexivity.
  rewrite fit_unfold in Hfit.
  destruct (negb (valid_contamination _)); [inversion Hfit; subst; assumption|].
  destruct (negb (well_formed X)); [inversion Hfit; subst; assumption|].
  destruct (_fit X (Base.model d)) as [[[]|e0] m];
    [|inversion Hfit; subst; assumption].
  destruct (_anomaly_score m X) as [s|e0];
    [|inversion Hfit; subst; assumption].
  destruct (percentile s _) as [t|e0]; [|inversion Hfit; subst; assumption].
  destruct (MinMaxScaler_fit s) as [sc|e0]; inversion Hfit; subst; assumption.
Qed.

Lemma valid_contamination_inv c :
  valid_contamination c = true -> exists r, c = Fin r /\ 0 <= r <= 1 / 2.
Proof.
  unfold valid_contamination. destruct c; simpl; try discriminate.
  rewrite andb_true_iff, !Rleb_spec. intros H. exists r. split; [reflexivity | lra].
Qed.

(** With a contamination that passed [_check_params], [np.percentile]
    is asked for a percentile between 50 and 100 and returns, whatever
    the scores. *)
Lemma percentile_of_valid_contamination s c :
  valid_contamination c = true ->
  exists t, percentile s (Fin 100 * (Fin 1 - c))%num = Ok t.
Proof.
  intros Hc. destruct (valid_contamination_inv c Hc) as (r & -> & Hr).
  simpl. rewrite (Rleb_true 0 _), (Rleb_true _ 1) by lra. simpl.
  destruct (_ || _); eexists; reflexivity.
Qed.

Lemma percentile_of_contamination l r :
  l <> [] -> 0 <= r <= 1 / 2 ->
  percentile (map Fin l) (Fin 100 * (Fin 1 - Fin r))%num
  = Ok (Fin (linear_percentile l (100 * (1 - r)))).
Proof.
  intros Hl Hr. simpl. apply (percentile_finite l (100 * (1 - r)) Hl). lra.
Qed.

(** [fit] returns whenever the parameters and the array are valid, the
    hooks do not raise and the training scores are finite. *)
Lemma fit_returns X d r m l :
  Base.contamination d = Fin r -> 0 <= r <= 1 / 2 ->
  well_formed X = true ->
  _fit X (Base.model d) = (Ok tt, m) ->
  _anomaly_score m X = Ok (map Fin l) -> l <> [] ->
  exists sc,
    MinMaxScaler_fit (map Fin l) = Ok sc
    /\ fit X d
       = (Ok tt,
          fitted_state d m (map Fin l)
            (Fin (linear_percentile l (100 * (1 - r)))) sc).
Proof.
  intros Hc Hr HX Hfit Hs Hl.
  destruct (MinMaxScaler_fit_finite l Hl) as (sc & Hsc & _).
  exists sc. split; [exact Hsc|].
  assert (Hv : valid_contamination (Fin r) = true).
  { unfold valid_contamination. simpl.
    rewrite (Rleb_true 0 r), (Rleb_true r (1 / 2)) by lra. reflexivity. }
  rewrite fit_unfold, Hc, Hv, HX, Hfit, Hs.
  rewrite (percentile_of_contamination l r Hl Hr), Hsc.
  reflexivity.
Qed.

(** Conversely, a call of [fit] that returned saw finite training scores
    and left the percentile of them as the threshold. *)
Lemma fit_ok_finite X d d' :
  fit X d = (Ok tt, d') ->
  exists r l m sc,
    Base.contamination d = Fin r /\ 0 <= r <= 1 / 2
    /\ well_formed X = true
    /\ l <> []
    /\ _fit X (Base.model d) = (Ok tt, m)
    /\ _anomaly_score m X = Ok (map Fin l)
    /\ MinMaxScaler_fit (map Fin l) = Ok sc
    /\ d' = fitted_state d m (map Fin l)
              (Fin (linear_percentile l (100 * (1 - r)))) sc.
Proof.
  intros H. destruct (fit_ok_inv X d d' H)
    as (Hc & HX & m & s & t & sc & Hfit & Hs & Ht & Hsc & ->).
  destruct (valid_contamination_inv _ Hc) as (r & Hr & Hrange).
  destruct (MinMaxScaler_fit_inv s sc Hsc) as (l & -> & Hl).
  rewrite Hr, (percentile_of_contamination l r Hl Hrange) in Ht.
  inversion Ht; subst t.
  exists r, l, m, sc. repeat split; try assumption; lra.
Qed.

(** The normalised scores of a fitted detector: every finite raw score is
    scaled by the range of the training scores. *)
Lemma anomaly_score_normalized d m l t sc X' l' :
  l <> [] -> MinMaxScaler_fit (map Fin l) = Ok sc ->
  well_formed X' = true -> l' <> [] ->
  _anomaly_score m X' = Ok (map Fin l') ->
  anomaly_score X' true (fitted_state d m (map Fin l) t sc)
  = (Ok (map (fun x => Fin (normalized (list_min l) (list_max l) x)) l'),
     fitted_state d m (map Fin l) t sc).
Proof.
  intros Hl Hsc HX' Hl' Hs'.
  destruct (MinMaxScaler_fit_finite l Hl) as (sc' & Hsc' & _ & _ & Hnorm).
  rewrite Hsc in Hsc'. inversion Hsc'; subst sc'. clear Hsc'.
  unfold Base.anomaly_score, Base.check_is_fitted, Base.attr, bind, lift,
    check_array. simpl. rewrite HX', Hs'.
  unfold MinMaxScaler_transform. rewrite check_column_finite by exact Hl'.
  simpl. do 2 f_equal. apply map_ext. intros x. f_equal. apply Hnorm.
Qed.

End BaseFacts.

(** * The lifecycle of [EmpiricalOutlierDetector] *)

Section EmpiricalFacts.

Variable Index : Type.
Variable NearestNeighbors_fit : Z -> Z -> Z -> matrix -> res Index.
Variable kneighbors : Index -> matrix -> res matrix.

(** [fit], step by step. *)
Lemma Empirical_fit_unfold X d :
  Empirical.fit Index NearestNeighbors_fit kneighbors X d =
  if well_formed X then
    match NearestNeighbors_fit (Empirical.n_jobs _ d)
            (Empirical.n_neighbors _ d) (Empirical.p _ d) X with
    | Raise e => (Raise e, d)
    | Ok neigh =>
        let d1 := Empirical.set__neigh _ neigh d in
        match Empirical.anomaly_score Index kneighbors X d1 with
        | (Raise e, d2) => (Raise e, d2)
        | (Ok scores, d2) =>
            match percentile scores
                    (Fin 100 * (Fin 1 - Empirical.fpr _ d2))%num with
            | Raise e => (Raise e, d2)
            | Ok t => (Ok tt, Empirical.set_threshold_ _ t d2)
            end
        end
    end
  else (Raise ValueError, d).
Proof.
  unfold Empirical.fit, check_array, bind, lift, modify, ret.
  destruct (well_formed X); [|reflexivity].
  destruct (NearestNeighbors_fit _ _ _ X) as [neigh|e]; [|reflexivity].
  simpl.
  destruct (Empirical.anomaly_score Index kneighbors X
              (Empirical.set__neigh Index neigh d)) as [[scores|e] d2];
    [|reflexivity].
  simpl. destruct (percentile scores
              (Fin 100 * (Fin 1 - Empirical.fpr Index d2))%num); reflexivity.
Qed.

(** Scoring leaves the detector as it was and does not read the
    threshold. *)
Lemma Empirical_anomaly_score_state X d :
  snd (Empirical.anomaly_score Index kneighbors X d) = d.
Proof.
  unfold Empirical.anomaly_score. destruct (Empirical._neigh Index d);
    reflexivity.
Qed.

Lemma Empirical_anomaly_score_threshold X d t :
  Empirical.anomaly_score Index kneighbors X (Empirical.set_threshold_ Index t d)
  = (fst (Empirical.anomaly_score Index kneighbors X d),
     Empirical.set_threshold_ Index t d).
Proof.
  unfold Empirical.anomaly_score. simpl.
  destruct (Empirical._neigh Index d); reflexivity.
Qed.

(** A call of [fit] that returned has stored the percentile of the
    scores of the training samples. *)
Lemma Empirical_fit_ok_inv X d d' :
  Empirical.fit Index NearestNeighbors_fit kneighbors X d = (Ok tt, d') ->
  exists scores t,
    Empirical.anomaly_score Index kneighbors X d' = (Ok scores, d')
    /\ percentile scores (Fin 100 * (Fin 1 - Empirical.fpr Index d))%num
       = Ok t
    /\ Empirical.threshold_ Index d' = Some t.
Proof.
  rewrite Empirical_fit_unfold.
  destruct (well_formed X); [|discriminate].
  destruct (NearestNeighbors_fit _ _ _ X) as [neigh|e]; [|discriminate].
  cbv zeta.
  assert (Hst := Empirical_anomaly_score_state X
                   (Empirical.set__neigh Index neigh d)).
  destruct (Empirical.anomaly_score Index kneighbors X
              (Empirical.set__neigh Index neigh d)) as [[scores|e] d2] eqn:Hs;
    [|discriminate].
  simpl in Hst. subst d2.
  destruct (percentile scores _) as [t|e] eqn:Ht; [|discriminate].
  intros H. inversion H; subst d'. exists scores, t.
  rewrite Empirical_anomaly_score_threshold, Hs. simpl.
  repeat split. exact Ht.
Qed.

End EmpiricalFacts.

(** * The contract of [BaseOutlierDetector] *)

Lemma Forall2_map_r {A B} (P : A -> B -> Prop) (f : A -> B) l :
  (forall x, P x (f x)) -> Forall2 P l (map f l).
Proof. intros H. induction l; simpl; constructor; auto. Qed.

Lemma label_spec t score :
  (Base.label t score = 1%Z <-> (score <=? t)%num = true)
  /\ (Base.label t score = (-1)%Z <-> (score <=? t)%num = false).
Proof.
  unfold Base.label. destruct (score <=? t)%num; split; split;
    intros; try reflexivity; try discriminate.
Qed.

Section BaseContract.

Variable Model : Type.
Variable _fit : matrix -> M Model unit.
Variable _anomaly_score : Model -> matrix -> res vector.
Variable elapsed : R.

Local Abbreviation fit := (Base.fit Model _fit _anomaly_score elapsed).
Local Abbreviation anomaly_score := (Base.anomaly_score Model _anomaly_score).
Local Abbreviation predict := (Base.predict Model _anomaly_score).
Local Abbreviation fit_predict :=
  (Base.fit_predict Model _fit _anomaly_score elapsed).
Local Abbreviation fitted_state := (Base.fitted_state Model elapsed).

(** C2, amended.  After a successful [fit] the training scores are
    finite and the threshold is their [100 * (1 - c)] percentile, with
    linear interpolation.  Fewer than [c * n + 1] of the [n] training
    samples are then labelled outliers by [predict] at that threshold, and
    more than [c * n - 2] are when no two training scores are equal (more
    than [c * n - 1] in exact arithmetic; the margin of one more sample
    covers a computed threshold that rounding has put on the score just
    above it, see [Binary64.lerp_rounded]).  With equal scores fewer
    samples may be labelled.  [EmpiricalOutlierDetector] stores a
    threshold as well; when its training scores are finite it is their
    [100 * (1 - fpr)] percentile. *)
Theorem threshold_is_percentile_of_training_scores X d d' :
  fit X d = (Ok tt, d') ->
  (exists c l labels,
      Base.contamination d = Fin c /\ 0 <= c <= 1 / 2
      /\ _anomaly_score (Base.model d') X = Ok (map Fin l)
      /\ Base.anomaly_score_ d' = Some (map Fin l)
      /\ percentile (map Fin l) (Fin 100 * (Fin 1 - Fin c))%num
         = Ok (Fin (linear_percentile l (100 * (1 - c))))
      /\ Base.threshold_ d' = Some (Fin (linear_percentile l (100 * (1 - c))))
      /\ predict X None d' = (Ok labels, d')
      /\ INR (n_outliers labels) < c * INR (length l) + 1
      /\ (NoDup l -> c * INR (length l) - 2 < INR (n_outliers labels)))
  /\ (forall (Index : Type)
             (NearestNeighbors_fit : Z -> Z -> Z -> matrix -> res Index)
             (kneighbors : Index -> matrix -> res matrix) Xe e e',
        Empirical.fit Index NearestNeighbors_fit kneighbors Xe e = (Ok tt, e') ->
        exists scores t,
          Empirical.anomaly_score Index kneighbors Xe e' = (Ok scores, e')
          /\ Empirical.threshold_ Index e' = Some t
          /\ forall l r,
               scores = map Fin l -> l <> [] ->
               Empirical.fpr Index e = Fin r ->
               t = Fin (linear_percentile l (100 * (1 - r)))).
Proof.
  intros H. split.
  2:{ intros Index NearestNeighbors_fit kneighbors Xe e e' He.
      destruct (Empirical_fit_ok_inv Index NearestNeighbors_fit kneighbors
                  Xe e e' He) as (scores & t & Hs & Ht & Hth).
      exists scores, t. repeat split; try assumption.
      intros l r -> Hl Hr.
      destruct (percentile_of_fpr_inv l _ t Hl Ht) as (r' & Hr' & _ & ->).
      rewrite Hr in Hr'. inversion Hr'. reflexivity. }
  destruct (fit_ok_finite Model _fit _anomaly_score elapsed X d d' H)
    as (c & l & m & sc & Hc & Hr & HX & Hl & Hfit & Hs & Hsc & ->).
  exists c, l,
    (map (Base.label (Fin (linear_percentile l (100 * (1 - c))))) (map Fin l)).
  repeat split; try assumption; try lra.
  - apply percentile_of_contamination; assumption.
  - apply (predict_fitted Model _anomaly_score X _ sc (map Fin l) None);
      try assumption; try reflexivity.
    right. split; reflexivity.
  - rewrite n_outliers_count_above.
    apply count_above_percentile_upper; assumption.
  - intros Hnd. rewrite n_outliers_count_above.
    assert (Hlow := count_above_percentile_lower l c Hl Hr Hnd). lra.
Qed.

(** C3, amended.  On a fitted detector and a valid array, [predict]
    labels a row +1 exactly when its raw score is at most the threshold
    (the fitted [threshold_] when the caller gives none) and -1 exactly
    when it is not; for a score and a threshold that are numbers, "is not
    at most" is "strictly greater", and when one of them is NaN the label
    is -1.  The detector is left as it was. *)
Theorem predict_labels_by_threshold X0 d0 d X s threshold :
  fit X0 d0 = (Ok tt, d) ->
  well_formed X = true ->
  _anomaly_score (Base.model d) X = Ok s ->
  exists t labels,
    match threshold with
    | Some t' => t = t'
    | None => Base.threshold_ d = Some t
    end
    /\ predict X threshold d = (Ok labels, d)
    /\ Forall2
         (fun score y =>
            (y = 1%Z <-> (score <=? t)%num = true)
            /\ (y = (-1)%Z <-> (score <=? t)%num = false)
            /\ (Num.not_nan score -> Num.not_nan t ->
                (y = (-1)%Z <-> (t <? score)%num = true)))
         s labels.
Proof.
  intros H HX Hs.
  destruct (fit_ok_finite Model _fit _anomaly_score elapsed X0 d0 d H)
    as (c & l & m & sc & _ & _ & _ & _ & _ & _ & _ & ->).
  set (t0 := Fin (linear_percentile l (100 * (1 - c)))).
  set (t := match threshold with Some t' => t' | None => t0 end).
  exists t, (map (Base.label t) s). repeat split.
  - unfold t. destruct threshold; reflexivity.
  - apply (predict_fitted Model _anomaly_score X _ sc s threshold t);
      try assumption; try reflexivity.
    unfold t. destruct threshold; [left | right; split]; reflexivity.
  - apply Forall2_map_r. intros score.
    destruct (label_spec t score) as [H1 H2].
    repeat split; try apply H1; try apply H2.
    + intros Hy. apply le_false_lt; try assumption. apply H2. exact Hy.
    + intros Hy. apply H2. apply le_false_lt; assumption.
Qed.

(** C5.  [fit_predict(X)] is [fit(X)] followed by [predict(X)] with no
    threshold argument: when [fit] raises so does [fit_predict], and when
    [fit] returns the labels are those of the training scores against the
    threshold that this very call of [fit] has stored. *)
Theorem fit_predict_is_fit_then_predict X d :
  fit_predict X d
  = (let (r, d') := fit X d in
     match r with
     | Ok _ => predict X None d'
     | Raise e => (Raise e, d')
     end)
  /\ (forall d', fit X d = (Ok tt, d') ->
      exists s t,
        _anomaly_score (Base.model d') X = Ok s
        /\ Base.threshold_ d' = Some t
        /\ fit_predict X d = (Ok (map (Base.label t) s), d')).
Proof.
  split.
  - unfold Base.fit_predict, bind. destruct (fit X d) as [[[]|e] d'];
      reflexivity.
  - intros d' H. unfold Base.fit_predict, bind. rewrite H.
    destruct (fit_ok_finite Model _fit _anomaly_score elapsed X d d' H)
      as (c & l & m & sc & _ & _ & HX & _ & _ & Hs & _ & ->).
    exists (map Fin l), (Fin (linear_percentile l (100 * (1 - c)))).
    repeat split; try assumption.
    apply (predict_fitted Model _anomaly_score X _ sc (map Fin l) None);
      try assumption; try reflexivity.
    right. split; reflexivity.
Qed.

(** C4, amended.  For a detector on the lifecycle of
    [BaseOutlierDetector], a contamination outside [[0, 0.5]] makes [fit]
    raise [ValueError] at once: whatever the array and whatever the hooks,
    the outcome is the same and the detector is left as it was, so neither
    the array nor a hook has been used. *)
Theorem fit_rejects_contamination_out_of_range X d :
  valid_contamination (Base.contamination d) = false ->
  fit X d = (Raise ValueError, d).
Proof.
  intros H. rewrite (fit_unfold Model _fit _anomaly_score elapsed), H.
  reflexivity.
Qed.

(** C6, amended.  On a detector of [BaseOutlierDetector] on which no call
    of [fit] has succeeded, [anomaly_score] and [predict] raise
    [NotFittedError]; so does [anomaly_score] on a freshly constructed
    [EmpiricalOutlierDetector]. *)
Theorem unfitted_detector_raises_NotFittedError d :
  never_fitted Model _fit _anomaly_score elapsed d ->
  (forall X normalize,
      anomaly_score X normalize d = (Raise NotFittedError, d))
  /\ (forall X threshold,
        predict X threshold d = (Raise NotFittedError, d))
  /\ (forall Index kneighbors fpr n_jobs n_neighbors p X,
        Empirical.anomaly_score Index kneighbors X
          (Empirical.init Index fpr n_jobs n_neighbors p)
        = (Raise NotFittedError,
           Empirical.init Index fpr n_jobs n_neighbors p)).
Proof.
  intros H.
  assert (Hs := never_fitted_no_scaler Model _fit _anomaly_score elapsed d H).
  repeat split; intros.
  - apply anomaly_score_unfitted. exact Hs.
  - apply predict_unfitted. exact Hs.
Qed.

(** C7, amended.  [fit] assigns its attributes one after the other and
    undoes nothing when a step raises.  A call that raises at the
    validation of the parameters or of the array leaves the detector
    exactly as it was.  Past the validation the detector a failed call
    leaves is the old one with the attributes assigned so far replaced:
    the model as [_fit] left it when [_fit] raises; that model and
    [fit_time_] when the scoring raises; and also the training scores and
    the threshold when the normaliser rejects the scores.  In every
    failure the parameters and the normaliser are the old ones.  A call
    that returns has assigned the model, [fit_time_], the training scores,
    the threshold and the normaliser anew. *)
Theorem fit_state_after_failure_or_success X d :
  (valid_contamination (Base.contamination d) = false
   \/ well_formed X = false ->
   fit X d = (Raise ValueError, d))
  /\ (valid_contamination (Base.contamination d) = true ->
      well_formed X = true ->
      forall r m, _fit X (Base.model d) = (r, m) ->
        match r with
        | Raise e => fit X d = (Raise e, Base.set_model Model m d)
        | Ok _ =>
            let d1 :=
              Base.set_fit_time_ Model elapsed (Base.set_model Model m d) in
            match _anomaly_score m X with
            | Raise e => fit X d = (Raise e, d1)
            | Ok s =>
                exists t,
                  percentile s
                    (Fin 100 * (Fin 1 - Base.contamination d))%num = Ok t
                  /\ match MinMaxScaler_fit s with
                     | Raise e =>
                         fit X d
                         = (Raise e,
                            Base.set_threshold_ Model t
                              (Base.set_anomaly_score_ Model s d1))
                     | Ok sc => fit X d = (Ok tt, fitted_state d m s t sc)
                     end
            end
        end)
  /\ (forall e d', fit X d = (Raise e, d') ->
      Base._scaler d' = Base._scaler d
      /\ Base.contamination d' = Base.contamination d
      /\ Base.verbose d' = Base.verbose d)
  /\ (forall d', fit X d = (Ok tt, d') ->
      exists m s t sc,
        _fit X (Base.model d) = (Ok tt, m)
        /\ _anomaly_score m X = Ok s
        /\ d' = fitted_state d m s t sc).
Proof.
  split; [|split; [|split]].
  - intros [H | H]; rewrite (fit_unfold Model _fit _anomaly_score elapsed).
    + rewrite H. reflexivity.
    + rewrite H. destruct (negb _); reflexivity.
  - intros Hc HX r m Hfit.
    rewrite (fit_unfold Model _fit _anomaly_score elapsed), Hc, HX, Hfit.
    cbv beta iota zeta. simpl negb. cbv iota.
    destruct r as [[]|e]; [|reflexivity].
    destruct (_anomaly_score m X) as [s|e]; [|reflexivity].
    destruct (percentile_of_valid_contamination s _ Hc) as [t Ht].
    exists t. split; [exact Ht|]. rewrite Ht.
    destruct (MinMaxScaler_fit s) as [sc|e]; reflexivity.
  - intros e d'. rewrite (fit_unfold Model _fit _anomaly_score elapsed).
    destruct (negb (valid_contamination _));
      [intros H; inversion H; subst; auto|].
    destruct (negb (well_formed X)); [intros H; inversion H; subst; auto|].
    destruct (_fit X (Base.model d)) as [[[]|e0] m];
      [|intros H; inversion H; subst; auto].
    destruct (_anomaly_score m X) as [s|e0];
      [|intros H; inversion H; subst; auto].
    destruct (percentile s _) as [t|e0]; [|intros H; inversion H; subst; auto].
    destruct (MinMaxScaler_fit s) as [sc|e0]; intros H; inversion H; subst; auto.
  - intros d' H.
    destruct (fit_ok_inv Model _fit _anomaly_score elapsed X d d' H)
      as (_ & _ & m & s & t & sc & Hfit & Hs & _ & _ & ->).
    exists m, s, t, sc. auto.
Qed.

(** C8, amended.  After a successful [fit] the normaliser holds the
    minimum [lo] and the maximum [hi] of the training scores, and
    [anomaly_score(X', normalize=True)] maps every finite raw score [x] to
    [(x - lo) / (hi - lo)] without clamping (the divisor is 1 when
    [hi = lo]).  The map never decreases: a raw score that is at least
    [lo] is mapped to at least 0, and the largest training score is
    mapped to the largest normalised training score.  On the training set
    0 is among the normalised scores, at the smallest training score; and
    when the training scores are all equal, all of them are mapped to 0.
    No bound of 1 from above is stated: in exact arithmetic [hi] is mapped
    to 1, and the binary64 product and sum of [MinMaxScaler] can land one
    step above it (see [Binary64.normalized_rounded]). *)
Theorem normalized_scores_range X d d' :
  fit X d = (Ok tt, d') ->
  exists l sc,
    l <> []
    /\ Base.anomaly_score_ d' = Some (map Fin l)
    /\ Base._scaler d' = Some sc
    /\ data_min_ sc = list_min l /\ data_max_ sc = list_max l
    /\ (forall X' l',
          well_formed X' = true -> l' <> [] ->
          _anomaly_score (Base.model d') X' = Ok (map Fin l') ->
          anomaly_score X' true d'
          = (Ok (map (fun x => Fin (normalized (list_min l) (list_max l) x))
                   l'), d'))
    /\ (forall x y, x <= y ->
          normalized (list_min l) (list_max l) x
          <= normalized (list_min l) (list_max l) y)
    /\ (forall x, list_min l <= x ->
          0 <= normalized (list_min l) (list_max l) x)
    /\ anomaly_score X true d'
       = (Ok (map (fun x => Fin (normalized (list_min l) (list_max l) x)) l),
          d')
    /\ In (list_min l) l
    /\ normalized (list_min l) (list_max l) (list_min l) = 0
    /\ In (list_max l) l
    /\ (forall x, In x l ->
          0 <= normalized (list_min l) (list_max l) x
            <= normalized (list_min l) (list_max l) (list_max l))
    /\ (list_min l = list_max l ->
        forall x, In x l -> normalized (list_min l) (list_max l) x = 0).
Proof.
  intros H.
  destruct (fit_ok_finite Model _fit _anomaly_score elapsed X d d' H)
    as (c & l & m & sc & _ & _ & HX & Hl & _ & Hs & Hsc & ->).
  destruct (MinMaxScaler_fit_finite l Hl) as (sc' & Hsc' & Hmin & Hmax & Hnorm).
  rewrite Hsc in Hsc'. inversion Hsc'; subst sc'. clear Hsc'.
  destruct (list_min_spec l Hl) as [Hmin_in Hmin_le].
  destruct (list_max_spec l Hl) as [Hmax_in Hmax_le].
  assert (Hrange : list_min l <= list_max l) by auto.
  assert (Hrun := fun X' l' =>
            anomaly_score_normalized Model _anomaly_score elapsed
              d m l (Fin (linear_percentile l (100 * (1 - c)))) sc X' l'
              Hl Hsc).
  exists l, sc. repeat split; try assumption.
  - intros x y Hxy. apply normalized_monotone; assumption.
  - intros x Hx. apply normalized_nonneg; assumption.
  - apply Hrun; assumption.
  - apply normalized_lo.
  - apply normalized_nonneg; auto.
  - apply normalized_monotone; auto.
  - intros E x Hx. rewrite <- E, normalized_flat.
    assert (list_min l <= x) by auto.
    assert (x <= list_max l) by auto. lra.
Qed.

End BaseContract.

(** * Duplicate points: a radius of zero *)

Lemma score_zero_radius k n :
  (1 <= k)%Z -> (1 <= n)%nat -> Empirical.score k n (Fin 0) = NInf.
Proof.
  intros Hk Hn. unfold Empirical.score, Num.of_Z, Num.of_nat. simpl.
  assert (1 <= IZR k) by (apply IZR_le; exact Hk).
  assert (1 <= INR n) by (apply (le_INR 1); exact Hn).
  rewrite (Rltb_true 0 (IZR k)) by lra.
  rewrite (Rltb_false 0 0) by lra.
  unfold Num.scale_inf. rewrite (Rltb_true 0 (INR n)) by lra.
  reflexivity.
Qed.

Lemma fold_left_max_zeros xs :
  Forall (eq (Fin 0)) xs -> fold_left Num.max xs (Fin 0) = Fin 0.
Proof.
  induction 1 as [|y ys <- _ IH]; simpl; [reflexivity|].
  replace (Num.max (Fin 0) (Fin 0)) with (Fin 0); [exact IH|].
  unfold Num.max. simpl. rewrite Rleb_true by lra. reflexivity.
Qed.

Lemma np_max_zeros row :
  row <> [] -> Forall (eq (Fin 0)) row -> np_max row = Ok (Fin 0).
Proof.
  destruct row as [|x xs]; [congruence|]. intros _ H.
  inversion H as [|? ? Hx Hxs]; subst. simpl. f_equal.
  apply fold_left_max_zeros. exact Hxs.
Qed.

Lemma np_max_axis1_total dist :
  Forall (fun row => row <> []) dist ->
  exists radius,
    np_max_axis1 dist = Ok radius
    /\ Forall2 (fun row r => np_max row = Ok r) dist radius.
Proof.
  induction 1 as [|row dist Hne _ IH].
  - exists []. split; [reflexivity | constructor].
  - destruct IH as (radius & Hr & Hall).
    destruct row as [|x xs]; [congruence|].
    exists (fold_left Num.max xs x :: radius).
    unfold np_max_axis1 in *. simpl. rewrite Hr. simpl.
    split; [reflexivity|]. constructor; [reflexivity | assumption].
Qed.

Lemma Forall2_nth_error {A B} (P : A -> B -> Prop) l l' :
  Forall2 P l l' -> forall i a, nth_error l i = Some a ->
  exists b, nth_error l' i = Some b /\ P a b.
Proof.
  induction 1 as [|x y l l' Hxy _ IH]; intros [|i] a Hi; simpl in *;
    try discriminate.
  - inversion Hi; subst. exists y. auto.
  - apply IH. exact Hi.
Qed.

(** C9, amended.  On a fitted [EmpiricalOutlierDetector] with at least
    one neighbour, a sample whose neighbour distances are all zero gets
    the score minus infinity, returned like any other score.  On a fitted
    detector of [BaseOutlierDetector], [predict] labels a sample with that
    score +1, at the fitted threshold and at every threshold that is a
    number (not NaN). *)
Theorem zero_radius_scores_minus_infinity_and_is_inlier :
  (forall (Index : Type) (kneighbors : Index -> matrix -> res matrix)
          (d : Empirical.EmpiricalOutlierDetector Index) neigh X dist,
      Empirical._neigh Index d = Some neigh ->
      (1 <= Empirical.n_neighbors Index d)%Z ->
      well_formed X = true ->
      kneighbors neigh X = Ok dist ->
      Forall (fun row => row <> []) dist ->
      exists scores,
        Empirical.anomaly_score Index kneighbors X d = (Ok scores, d)
        /\ forall i row,
            nth_error dist i = Some row ->
            Forall (eq (Fin 0)) row ->
            nth_error scores i = Some NInf)
  /\ (forall (Model : Type) (_fit : matrix -> M Model unit)
            (_anomaly_score : Model -> matrix -> res vector) (elapsed : R)
            X0 d0 d X s threshold,
        Base.fit Model _fit _anomaly_score elapsed X0 d0 = (Ok tt, d) ->
        well_formed X = true ->
        _anomaly_score (Base.model d) X = Ok s ->
        (forall t, threshold = Some t -> Num.not_nan t) ->
        exists labels,
          Base.predict Model _anomaly_score X threshold d = (Ok labels, d)
          /\ forall i,
              nth_error s i = Some NInf ->
              nth_error labels i = Some 1%Z).
Proof.
  split.
  - intros Index kneighbors d neigh X dist Hfit Hk HX Hdist Hne.
    destruct (np_max_axis1_total dist Hne) as (radius & Hr & Hall).
    exists (map (Empirical.score (Empirical.n_neighbors Index d)
                   (n_features X)) radius).
    split.
    + unfold Empirical.anomaly_score, check_array.
      rewrite Hfit, HX. simpl. rewrite Hdist. simpl. rewrite Hr. reflexivity.
    + intros i row Hi Hz.
      destruct (Forall2_nth_error _ _ _ Hall i row Hi) as (r & Hri & Hmax).
      assert (Hrow : row <> []).
      { rewrite Forall_forall in Hne. apply Hne.
        eapply nth_error_In. exact Hi. }
      rewrite (np_max_zeros row Hrow Hz) in Hmax. inversion Hmax; subst r.
      rewrite nth_error_map, Hri. simpl. f_equal.
      apply score_zero_radius; [exact Hk|].
      unfold well_formed in HX. rewrite !andb_true_iff in HX.
      destruct HX as [[_ HX] _]. rewrite negb_true_iff in HX.
      apply Nat.eqb_neq in HX. lia.
  - intros Model _fit _anomaly_score elapsed X0 d0 d X s threshold
      Hfit HX Hs Hthr.
    destruct (fit_ok_finite Model _fit _anomaly_score elapsed X0 d0 d Hfit)
      as (c & l & m & sc & _ & _ & _ & _ & _ & _ & _ & ->).
    set (t0 := Fin (linear_percentile l (100 * (1 - c)))).
    set (t := match threshold with Some t' => t' | None => t0 end).
    assert (Ht : Num.not_nan t).
    { unfold t. destruct threshold as [t'|]; [auto | reflexivity]. }
    exists (map (Base.label t) s). split.
    + apply (predict_fitted Model _anomaly_score X _ sc s threshold t);
        try assumption; try reflexivity.
      unfold t. destruct threshold; [left | right; split]; reflexivity.
    + intros i Hi. rewrite nth_error_map, Hi. simpl. f_equal.
      unfold Base.label. destruct t; try reflexivity. discriminate.
Qed.

(** * The pipeline *)

Section PipelineFacts.

Variable Transformer : Type.
Variable transform : Transformer -> matrix -> res matrix.
Variable fit_transform : matrix -> M Transformer matrix.
Variable D : Type.
Variable E : Pipeline.Estimator D.

Local Abbreviation pipeline := (Pipeline.ExtendedPipeline Transformer D).
Local Abbreviation steps := (Pipeline.steps Transformer D).
Local Abbreviation _final_estimator := (Pipeline._final_estimator Transformer D).
Local Abbreviation chain := (transform_chain Transformer transform).

Lemma transform_loop_raise l : forall e,
  fold_left
    (fun Xt (st : Pipeline.step Transformer) =>
       res_bind Xt (fun Xt =>
       match snd st with
       | None => Ok Xt
       | Some t => transform t Xt
       end))
    l (Raise e) = Raise e.
Proof. induction l as [|st l IH]; intros e; simpl; [reflexivity | apply IH]. Qed.

(** The loop of the code computes the chain. *)
Lemma transform_loop_chain l : forall X,
  Pipeline.transform_loop Transformer transform l X = chain l X.
Proof.
  unfold Pipeline.transform_loop.
  induction l as [|[name [t|]] l IH]; intros X; simpl.
  - reflexivity.
  - destruct (transform t X) as [Xt|e]; simpl.
    + apply IH.
    + apply transform_loop_raise.
  - apply IH.
Qed.

Lemma transform_then_delegated {B} (f : matrix -> M D B) X pl :
  Pipeline.transform_then Transformer transform D f X pl
  = delegated Transformer transform D (Some f) X pl.
Proof.
  unfold Pipeline.transform_then, delegated, bind, get, lift,
    Pipeline.on_final.
  rewrite transform_loop_chain.
  destruct (chain (steps pl) X); reflexivity.
Qed.

(** Fitting steps that all pass the array through hands the final
    estimator the array itself. *)
Lemma _fit_steps_passthrough l : forall X,
  Forall (passthrough Transformer transform fit_transform) l ->
  exists l',
    Pipeline._fit_steps Transformer fit_transform l X = (Ok X, l')
    /\ map fst l' = map fst l.
Proof.
  induction l as [|[name [t|]] l IH]; intros X H; simpl.
  - exists []. split; reflexivity.
  - inversion H as [|? ? Ht Hl]; subst.
    destruct Ht as [_ Ht]. destruct (Ht X) as (t' & Hfit). rewrite Hfit.
    destruct (IH X Hl) as (l' & Hl' & Hnames). rewrite Hl'.
    exists ((name, Some t') :: l'). simpl. rewrite Hnames. split; reflexivity.
  - inversion H as [|? ? _ Hl]; subst.
    destruct (IH X Hl) as (l' & Hl' & Hnames). rewrite Hl'.
    exists ((name, None) :: l'). simpl. rewrite Hnames. split; reflexivity.
Qed.

(** C10.  When every step before the last is [None] or an identity
    transform, [fit_predict] of the pipeline returns what [fit_predict] of
    the final detector returns on the same array, and leaves the final
    detector in the same state.  Each method that does not fit
    ([predict], [anomaly_score], [detect], [feature_wise_anomaly_score],
    [analyze]) applies the [transform] of every step that is not [None],
    in step order and without fitting, and then calls the method of the
    same name of the final detector on the transformed array. *)
Theorem pipeline_delegates_after_transforms X (pl : pipeline) :
  (Forall (passthrough Transformer transform fit_transform) (steps pl) ->
   forall f, Pipeline.est_fit_predict E = Some f ->
   exists pl',
     Pipeline.fit_predict Transformer fit_transform D E X pl
     = (fst (f X (_final_estimator pl)), pl')
     /\ _final_estimator pl' = snd (f X (_final_estimator pl))
     /\ map fst (steps pl') = map fst (steps pl))
  /\ Pipeline.predict Transformer transform D E X pl
     = delegated Transformer transform D (Pipeline.est_predict E) X pl
  /\ Pipeline.anomaly_score Transformer transform D E X pl
     = delegated Transformer transform D (Pipeline.est_anomaly_score E) X pl
  /\ Pipeline.detect Transformer transform D E X pl
     = delegated Transformer transform D (Pipeline.est_detect E) X pl
  /\ Pipeline.feature_wise_anomaly_score Transformer transform D E X pl
     = delegated Transformer transform D
         (Pipeline.est_feature_wise_anomaly_score E) X pl
  /\ Pipeline.analyze Transformer transform D E X pl
     = delegated Transformer transform D (Pipeline.est_analyze E) X pl.
Proof.
  split.
  - intros Hsteps f Hf.
    destruct (_fit_steps_passthrough (steps pl) X Hsteps)
      as (l' & Hl' & Hnames).
    unfold Pipeline.fit_predict, Pipeline.delegate. rewrite Hf.
    unfold bind, Pipeline._fit, Pipeline.on_final. rewrite Hl'. simpl.
    destruct (f X (_final_estimator pl)) as [r d']. simpl.
    eexists. split; [reflexivity|]. simpl. split; [reflexivity | exact Hnames].
  - unfold Pipeline.predict, Pipeline.anomaly_score, Pipeline.detect,
      Pipeline.feature_wise_anomaly_score, Pipeline.analyze,
      Pipeline.delegate.
    repeat split.
    + destruct (Pipeline.est_predict E);
        [apply transform_then_delegated | reflexivity].
    + destruct (Pipeline.est_anomaly_score E);
        [apply transform_then_delegated | reflexivity].
    + destruct (Pipeline.est_detect E);
        [apply transform_then_delegated | reflexivity].
    + destruct (Pipeline.est_feature_wise_anomaly_score E);
        [apply transform_then_delegated | reflexivity].
    + destruct (Pipeline.est_analyze E);
        [apply transform_then_delegated | reflexivity].
Qed.

End PipelineFacts.

(** * Concrete runs *)

Lemma dist_eval x y v :
  (x <= y /\ v = y - x) \/ (y < x /\ v = x - y) -> LineIndex.dist x y = v.
Proof.
  unfold LineIndex.dist. intros [[H ->] | [H ->]].
  - rewrite Rleb_true by assumption. reflexivity.
  - rewrite Rleb_false by assumption. reflexivity.
Qed.

Ltac dist_eval :=
  repeat match goal with
    | |- context [LineIndex.dist ?x ?y] =>
        first [ rewrite (dist_eval x y 0) by lra
              | rewrite (dist_eval x y 1) by lra
              | rewrite (dist_eval x y 2) by lra ]
    end.

Ltac run_sort := unfold np_sort; repeat (simpl; Rdecide).

Lemma res_bind_Ok {A B} (a : A) (k : A -> res B) : res_bind (Ok a) k = k a.
Proof. reflexivity. Qed.

Lemma line_kneighbors :
  LineIndex.kneighbors line_index X_line
  = Ok [[Fin 0; Fin 1]; [Fin 0; Fin 1]; [Fin 0; Fin 1]].
Proof.
  unfold LineIndex.kneighbors, line_index, X_line. simpl. dist_eval.
  run_sort. reflexivity.
Qed.

Lemma score_unit_radius : Empirical.score 2 1 (Fin 1) = Fin (- ln 2).
Proof.
  unfold Empirical.score, Num.of_Z, Num.of_nat. simpl.
  rewrite (Rltb_true 0 2) by lra. rewrite (Rltb_true 0 1) by lra.
  rewrite ln_1. simpl. f_equal. lra.
Qed.

(** On [X_line] every sample has its second neighbour at distance 1, so
    all scores are [- ln 2]. *)
Lemma line_scores m :
  Empirical._neigh _ m = Some line_index ->
  Empirical.n_neighbors _ m = 2%Z ->
  Empirical.anomaly_score LineIndex.index LineIndex.kneighbors X_line m
  = (Ok (map Fin [- ln 2; - ln 2; - ln 2]), m).
Proof.
  intros Hn Hk. unfold Empirical.anomaly_score. rewrite Hn, Hk.
  replace (check_array X_line) with (Ok X_line) by reflexivity.
  rewrite res_bind_Ok. cbv beta.
  rewrite line_kneighbors, res_bind_Ok. cbv beta.
  replace (np_max_axis1 [[Fin 0; Fin 1]; [Fin 0; Fin 1]; [Fin 0; Fin 1]])
    with (Ok [Fin 1; Fin 1; Fin 1]).
  - rewrite res_bind_Ok. replace (n_features X_line) with 1%nat by reflexivity.
    cbv beta. simpl map. rewrite score_unit_radius. reflexivity.
  - unfold np_max_axis1. simpl. unfold Num.max. simpl. Rdecide. reflexivity.
Qed.

Lemma line_fit_model m :
  Empirical.n_neighbors _ m = 2%Z ->
  line_fit X_line m = (Ok tt, Empirical.set__neigh _ line_index m).
Proof.
  intros Hk. unfold line_fit, KNN._fit, bind, lift, modify, LineIndex.fit.
  replace (check_array X_line) with (Ok X_line) by reflexivity.
  rewrite Hk. reflexivity.
Qed.

Lemma Rinsert_le x y l : x <= y -> Rinsert x (y :: l) = x :: y :: l.
Proof. intros H. simpl. rewrite Rleb_true by exact H. reflexivity. Qed.

Lemma linear_percentile_tied a :
  linear_percentile [a; a; a] (100 * (1 - 1 / 2)) = a.
Proof.
  unfold linear_percentile. simpl length.
  replace (100 * (1 - 1 / 2) / 100 * INR (3 - 1)) with 1 by (simpl; lra).
  rewrite (Zfloor_eq 1 1) by lra.
  change (Rsort [a; a; a]) with (Rinsert a (Rinsert a [a])).
  rewrite !(Rinsert_le a a) by lra.
  change (Z.to_nat 1) with 1%nat. cbn [nth Nat.min Nat.add Nat.sub]. lra.
Qed.

Lemma list_min_tied a : list_min [a; a; a] = a.
Proof.
  destruct (list_min_spec [a; a; a]) as [H _]; [discriminate|].
  simpl in H. intuition.
Qed.

Lemma list_max_tied a : list_max [a; a; a] = a.
Proof.
  destruct (list_max_spec [a; a; a]) as [H _]; [discriminate|].
  simpl in H. intuition.
Qed.

(** The successful run: [fit] on [X_line] with contamination 0.5. *)
Lemma tied_fit :
  exists sc,
    MinMaxScaler_fit (map Fin [- ln 2; - ln 2; - ln 2]) = Ok sc
    /\ Base.fit _ line_fit line_anomaly_score 1 X_line (knn_detector (Fin (1 / 2)))
       = (Ok tt, tied_detector)
    /\ tied_detector
       = Base.fitted_state _ 1 (knn_detector (Fin (1 / 2)))
           (Empirical.set__neigh _ line_index knn_model)
           (map Fin [- ln 2; - ln 2; - ln 2]) (Fin (- ln 2)) sc.
Proof.
  destruct (fit_returns _ line_fit line_anomaly_score 1 X_line
              (knn_detector (Fin (1 / 2))) (1 / 2)
              (Empirical.set__neigh _ line_index knn_model)
              [- ln 2; - ln 2; - ln 2]) as (sc & Hsc & Hfit).
  - reflexivity.
  - lra.
  - reflexivity.
  - apply line_fit_model. reflexivity.
  - unfold line_anomaly_score, KNN._anomaly_score.
    rewrite line_scores by reflexivity. reflexivity.
  - discriminate.
  - rewrite linear_percentile_tied in Hfit.
    exists sc. split; [exact Hsc|]. unfold tied_detector.
    rewrite Hfit. split; reflexivity.
Qed.

Lemma tied_scores :
  line_anomaly_score (Empirical.set__neigh _ line_index knn_model) X_line
  = Ok (map Fin [- ln 2; - ln 2; - ln 2]).
Proof.
  unfold line_anomaly_score, KNN._anomaly_score.
  rewrite line_scores by reflexivity. reflexivity.
Qed.

Lemma tied_predict :
  Base.predict _ line_anomaly_score X_line None tied_detector
  = (Ok [1%Z; 1%Z; 1%Z], tied_detector).
Proof.
  destruct tied_fit as (sc & Hsc & _ & Hd). rewrite Hd.
  rewrite (predict_fitted _ line_anomaly_score X_line _ sc
             (map Fin [- ln 2; - ln 2; - ln 2]) None (Fin (- ln 2))).
  - unfold Base.label. simpl. Rdecide. reflexivity.
  - reflexivity.
  - reflexivity.
  - exact tied_scores.
  - right. split; reflexivity.
Qed.

(** C2, counterexample.  On [X_line] all training scores are equal; with
    contamination 0.5 the threshold is that score and [predict] labels no
    training sample an outlier, one and a half samples short of
    [0.5 * 3]. *)
Lemma tied_scores_flag_no_outlier :
  exists d' labels,
    Base.fit _ line_fit line_anomaly_score 1 X_line
      (knn_detector (Fin (1 / 2))) = (Ok tt, d')
    /\ Base.predict _ line_anomaly_score X_line None d' = (Ok labels, d')
    /\ n_outliers labels = 0%nat
    /\ ~ (Rabs (INR (n_outliers labels) - 1 / 2 * INR (n_samples X_line)) <= 1).
Proof.
  destruct tied_fit as (sc & _ & Hfit & _).
  exists tied_detector, [1%Z; 1%Z; 1%Z].
  split; [exact Hfit|]. split; [exact tied_predict|].
  split; [reflexivity|]. simpl.
  replace (0 - 1 / 2 * (1 + 1 + 1)) with (- (3 / 2)) by lra.
  rewrite Rabs_Ropp, Rabs_pos_eq by lra. lra.
Qed.

(** C8, counterexample.  The same training scores, being all equal, are
    all normalised to 0: 1 is not among the normalised training scores. *)
Lemma tied_scores_normalize_to_zero :
  exists d',
    Base.fit _ line_fit line_anomaly_score 1 X_line
      (knn_detector (Fin (1 / 2))) = (Ok tt, d')
    /\ Base.anomaly_score _ line_anomaly_score X_line true d'
       = (Ok [Fin 0; Fin 0; Fin 0], d')
    /\ ~ In (Fin 1) [Fin 0; Fin 0; Fin 0].
Proof.
  destruct tied_fit as (sc & Hsc & Hfit & Hd).
  exists tied_detector. split; [exact Hfit|]. split.
  - rewrite Hd.
    rewrite (anomaly_score_normalized _ line_anomaly_score 1 _ _
               [- ln 2; - ln 2; - ln 2] _ sc X_line
               [- ln 2; - ln 2; - ln 2]);
      try discriminate; try reflexivity; try assumption; try exact tied_scores.
    rewrite list_min_tied, list_max_tied. simpl.
    rewrite normalized_lo. reflexivity.
  - simpl. intros [H | [H | [H | []]]]; inversion H; lra.
Qed.

(** C7, counterexample.  The fitted detector is fitted again on a single
    sample: the index is rebuilt, the query for two neighbours raises, and
    the detector now holds the new model next to the old scores, threshold
    and normaliser. *)
Lemma failed_refit_replaces_the_model :
  exists d1 d2,
    Base.fit _ line_fit line_anomaly_score 1 X_line
      (knn_detector (Fin (1 / 2))) = (Ok tt, d1)
    /\ Base.fit _ line_fit line_anomaly_score 1 [[Fin 0]] d1
       = (Raise ValueError, d2)
    /\ d2 <> d1
    /\ Base.model d2 <> Base.model d1
    /\ Base.anomaly_score_ d2 = Base.anomaly_score_ d1
    /\ Base.threshold_ d2 = Base.threshold_ d1
    /\ Base._scaler d2 = Base._scaler d1.
Proof.
  destruct tied_fit as (sc & _ & Hfit & Hd).
  exists tied_detector. eexists. split; [exact Hfit|].
  assert (Hrun :
    Base.fit _ line_fit line_anomaly_score 1 [[Fin 0]] tied_detector
    = (Raise ValueError,
       Base.set_fit_time_ _ 1
         (Base.set_model _
            (Empirical.set__neigh _
               {| LineIndex.k := 2; LineIndex.points := [0] |}
               (Base.model tied_detector))
            tied_detector))).
  { rewrite fit_unfold. rewrite Hd at 1 2 3. simpl Base.contamination.
    replace (valid_contamination (Fin (1 / 2))) with true.
    2:{ unfold valid_contamination. simpl. Rdecide. reflexivity. }
    rewrite Hd. reflexivity. }
  split; [exact Hrun|]. rewrite Hd. simpl.
  repeat split; try reflexivity; intros H; inversion H.
Qed.

(** C3, counterexample.  [predict] takes any threshold, also one that is
    not a number.  Every comparison with NaN is false, so at the threshold
    NaN every sample is labelled -1 although no score is strictly greater
    than the threshold. *)
Lemma nan_threshold_labels_every_sample_outlier :
  line_anomaly_score (Base.model tied_detector) X_line
  = Ok [Fin (- ln 2); Fin (- ln 2); Fin (- ln 2)]
  /\ Base.predict _ line_anomaly_score X_line (Some NaN) tied_detector
     = (Ok [(-1)%Z; (-1)%Z; (-1)%Z], tied_detector)
  /\ (NaN <? Fin (- ln 2))%num = false.
Proof.
  destruct tied_fit as (sc & _ & _ & Hd).
  split; [rewrite Hd; exact tied_scores|]. split; [|reflexivity].
  rewrite Hd.
  rewrite (predict_fitted _ line_anomaly_score X_line _ sc
             (map Fin [- ln 2; - ln 2; - ln 2]) (Some NaN) NaN).
  - reflexivity.
  - reflexivity.
  - reflexivity.
  - exact tied_scores.
  - left. reflexivity.
Qed.

Lemma tied_fit_ok :
  Base.fit _ line_fit line_anomaly_score 1 X_line (knn_detector (Fin (1 / 2)))
  = (Ok tt, tied_detector).
Proof. destruct tied_fit as (sc & _ & H & _). exact H. Qed.

Lemma invalid_contamination_example :
  valid_contamination (Base.contamination (knn_detector (Fin (6 / 10)))) = false.
Proof. unfold valid_contamination. simpl. Rdecide. reflexivity. Qed.

(** * Runs of [EmpiricalOutlierDetector] *)


Lemma empirical_line_fit_prefix fpr :
  Empirical.fit _ LineIndex.fit LineIndex.kneighbors X_line
    (empirical_detector fpr)
  = match percentile (map Fin [- ln 2; - ln 2; - ln 2])
            (Fin 100 * (Fin 1 - fpr))%num with
    | Raise e =>
        (Raise e, Empirical.set__neigh _ line_index (empirical_detector fpr))
    | Ok t =>
        (Ok tt,
         Empirical.set_threshold_ _ t
           (Empirical.set__neigh _ line_index (empirical_detector fpr)))
    end.
Proof.
  rewrite Empirical_fit_unfold.
  replace (well_formed X_line) with true by reflexivity.
  cbv beta iota zeta.
  change (LineIndex.fit _ _ _ X_line) with (Ok line_index).
  cbv beta iota zeta.
  rewrite line_scores by reflexivity. reflexivity.
Qed.

(** C4, counterexample.  0.6 lies outside [[0, 0.5]], yet
    [EmpiricalOutlierDetector(fpr=0.6).fit] validates the array, builds
    the index and returns. *)
Lemma empirical_fit_accepts_fpr_above_half :
  valid_contamination (Fin (6 / 10)) = false
  /\ exists d',
      Empirical.fit _ LineIndex.fit LineIndex.kneighbors X_line
        (empirical_detector (Fin (6 / 10))) = (Ok tt, d')
      /\ Empirical._neigh _ d' = Some line_index.
Proof.
  split.
  - unfold valid_contamination. simpl. Rdecide. reflexivity.
  - rewrite empirical_line_fit_prefix.
    replace (Fin 100 * (Fin 1 - Fin (6 / 10)))%num
      with (Fin (100 * (1 - 6 / 10))) by reflexivity.
    rewrite percentile_finite by (try discriminate; lra).
    eexists. split; reflexivity.
Qed.

(** C6, counterexample.  With [fpr = 2] the percentile asked of NumPy is
    negative and [fit] raises, after it has stored the index: no call of
    [fit] has succeeded on the detector, and [anomaly_score] returns
    scores. *)
Lemma empirical_scores_after_failed_fit :
  exists d' scores,
    Empirical.fit _ LineIndex.fit LineIndex.kneighbors X_line
      (empirical_detector (Fin 2)) = (Raise ValueError, d')
    /\ Empirical.anomaly_score _ LineIndex.kneighbors X_line d'
       = (Ok scores, d').
Proof.
  exists (Empirical.set__neigh _ line_index (empirical_detector (Fin 2))),
    (map Fin [- ln 2; - ln 2; - ln 2]).
  split.
  - rewrite empirical_line_fit_prefix. unfold percentile. simpl.
    rewrite (Rleb_false 0 _) by lra. reflexivity.
  - apply line_scores; reflexivity.
Qed.

(** * The theorems at concrete inputs *)

Lemma tied_detector_scores :
  line_anomaly_score (Base.model tied_detector) X_line
  = Ok (map Fin [- ln 2; - ln 2; - ln 2]).
Proof.
  destruct tied_fit as (sc & _ & _ & Hd). rewrite Hd. exact tied_scores.
Qed.

(** C3 on the fitted detector, at its own threshold. *)
Lemma predict_labels_by_threshold_witness :
  exists t labels,
    Base.threshold_ tied_detector = Some t
    /\ Base.predict _ line_anomaly_score X_line None tied_detector
       = (Ok labels, tied_detector)
    /\ Forall2
         (fun score y =>
            (y = 1%Z <-> (score <=? t)%num = true)
            /\ (y = (-1)%Z <-> (score <=? t)%num = false)
            /\ (Num.not_nan score -> Num.not_nan t ->
                (y = (-1)%Z <-> (t <? score)%num = true)))
         (map Fin [- ln 2; - ln 2; - ln 2]) labels.
Proof.
  apply (predict_labels_by_threshold _ line_fit line_anomaly_score 1
           X_line (knn_detector (Fin (1 / 2))) tied_detector X_line
           (map Fin [- ln 2; - ln 2; - ln 2]) None tied_fit_ok).
  - reflexivity.
  - exact tied_detector_scores.
Defined.

(** C4 at contamination 0.6. *)
Lemma fit_rejects_contamination_out_of_range_witness :
  valid_contamination (Base.contamination (knn_detector (Fin (6 / 10)))) = false
  /\ Base.fit _ line_fit line_anomaly_score 1 X_line
       (knn_detector (Fin (6 / 10)))
     = (Raise ValueError, knn_detector (Fin (6 / 10))).
Proof.
  split; [exact invalid_contamination_example|].
  exact (fit_rejects_contamination_out_of_range _ line_fit
           line_anomaly_score 1 X_line (knn_detector (Fin (6 / 10)))
           invalid_contamination_example).
Defined.

(** C6 on a freshly constructed detector. *)
Lemma unfitted_detector_raises_NotFittedError_witness :
  (forall X normalize,
      Base.anomaly_score _ line_anomaly_score X normalize
        (knn_detector (Fin (1 / 10)))
      = (Raise NotFittedError, knn_detector (Fin (1 / 10))))
  /\ (forall X threshold,
        Base.predict _ line_anomaly_score X threshold
          (knn_detector (Fin (1 / 10)))
        = (Raise NotFittedError, knn_detector (Fin (1 / 10))))
  /\ (forall Index kneighbors fpr n_jobs n_neighbors p X,
        Empirical.anomaly_score Index kneighbors X
          (Empirical.init Index fpr n_jobs n_neighbors p)
        = (Raise NotFittedError,
           Empirical.init Index fpr n_jobs n_neighbors p)).
Proof.
  exact (unfitted_detector_raises_NotFittedError _ line_fit
           line_anomaly_score 1 (knn_detector (Fin (1 / 10)))
           (never_fitted_init _ line_fit line_anomaly_score 1
              (Fin (1 / 10)) false knn_model)).
Defined.

(** C7 on the fitted detector fitted again on a single sample: the index
    is rebuilt, the query for two neighbours raises, and the detector is
    left with the new model and the new [fit_time_]. *)
Lemma fit_state_after_failure_or_success_witness :
  valid_contamination (Base.contamination tied_detector) = true
  /\ well_formed [[Fin 0]] = true
  /\ line_fit [[Fin 0]] (Base.model tied_detector)
     = (Ok tt,
        Empirical.set__neigh _
          {| LineIndex.k := 2; LineIndex.points := [0] |}
          (Base.model tied_detector))
  /\ Base.fit _ line_fit line_anomaly_score 1 [[Fin 0]] tied_detector
     = (Raise ValueError,
        Base.set_fit_time_ _ 1
          (Base.set_model _
             (Empirical.set__neigh _
                {| LineIndex.k := 2; LineIndex.points := [0] |}
                (Base.model tied_detector))
             tied_detector)).
Proof.
  destruct tied_fit as (sc & _ & _ & Hd).
  assert (Hc : valid_contamination (Base.contamination tied_detector) = true).
  { rewrite Hd. unfold valid_contamination. simpl. Rdecide. reflexivity. }
  assert (Hfit : line_fit [[Fin 0]] (Base.model tied_detector)
                 = (Ok tt,
                    Empirical.set__neigh _
                      {| LineIndex.k := 2; LineIndex.points := [0] |}
                      (Base.model tied_detector))).
  { rewrite Hd. reflexivity. }
  split; [exact Hc|]. split; [reflexivity|]. split; [exact Hfit|].
  generalize (proj1 (proj2 (fit_state_after_failure_or_success _ line_fit
                              line_anomaly_score 1 [[Fin 0]] tied_detector))
                Hc eq_refl _ _ Hfit).
  cbv beta iota zeta.
  replace (line_anomaly_score
             (Empirical.set__neigh _
                {| LineIndex.k := 2; LineIndex.points := [0] |}
                (Base.model tied_detector)) [[Fin 0]])
    with (@Raise vector ValueError) by (rewrite Hd; reflexivity).
  intros H. exact H.
Defined.

Lemma log_fit_ok :
  Base.fit unit log_fit log_anomaly_score 1 X_log
    (Base.init unit (Fin (1 / 10)) false tt)
  = (Ok tt, log_detector).
Proof.
  destruct (fit_returns unit log_fit log_anomaly_score 1 X_log
              (Base.init unit (Fin (1 / 10)) false tt) (1 / 10) tt
              [ln 1; ln 2]) as (sc & _ & H).
  - reflexivity.
  - lra.
  - reflexivity.
  - reflexivity.
  - unfold log_anomaly_score, X_log. simpl.
    rewrite (Rltb_true 0 1), (Rltb_true 0 2) by lra. reflexivity.
  - discriminate.
  - unfold log_detector. rewrite H. reflexivity.
Qed.

(** C8 on two runs of [fit]: on [X_line], where the training scores are
    all equal, and on [X_log], where they differ. *)
Lemma normalized_scores_range_witness :
  (exists l sc,
      l <> []
      /\ Base.anomaly_score_ tied_detector = Some (map Fin l)
      /\ Base._scaler tied_detector = Some sc
      /\ data_min_ sc = list_min l /\ data_max_ sc = list_max l
      /\ (forall X' l',
            well_formed X' = true -> l' <> [] ->
            line_anomaly_score (Base.model tied_detector) X' = Ok (map Fin l') ->
            Base.anomaly_score _ line_anomaly_score X' true tied_detector
            = (Ok (map (fun x => Fin (normalized (list_min l) (list_max l) x))
                     l'), tied_detector))
      /\ (forall x y, x <= y ->
            normalized (list_min l) (list_max l) x
            <= normalized (list_min l) (list_max l) y)
      /\ (forall x, list_min l <= x ->
            0 <= normalized (list_min l) (list_max l) x)
      /\ Base.anomaly_score _ line_anomaly_score X_line true tied_detector
         = (Ok (map (fun x => Fin (normalized (list_min l) (list_max l) x)) l),
            tied_detector)
      /\ In (list_min l) l
      /\ normalized (list_min l) (list_max l) (list_min l) = 0
      /\ In (list_max l) l
      /\ (forall x, In x l ->
            0 <= normalized (list_min l) (list_max l) x
              <= normalized (list_min l) (list_max l) (list_max l))
      /\ (list_min l = list_max l ->
          forall x, In x l -> normalized (list_min l) (list_max l) x = 0))
  /\ (exists l sc,
      l <> []
      /\ Base.anomaly_score_ log_detector = Some (map Fin l)
      /\ Base._scaler log_detector = Some sc
      /\ data_min_ sc = list_min l /\ data_max_ sc = list_max l
      /\ (forall X' l',
            well_formed X' = true -> l' <> [] ->
            log_anomaly_score (Base.model log_detector) X' = Ok (map Fin l') ->
            Base.anomaly_score _ log_anomaly_score X' true log_detector
            = (Ok (map (fun x => Fin (normalized (list_min l) (list_max l) x))
                     l'), log_detector))
      /\ (forall x y, x <= y ->
            normalized (list_min l) (list_max l) x
            <= normalized (list_min l) (list_max l) y)
      /\ (forall x, list_min l <= x ->
            0 <= normalized (list_min l) (list_max l) x)
      /\ Base.anomaly_score _ log_anomaly_score X_log true log_detector
         = (Ok (map (fun x => Fin (normalized (list_min l) (list_max l) x)) l),
            log_detector)
      /\ In (list_min l) l
      /\ normalized (list_min l) (list_max l) (list_min l) = 0
      /\ In (list_max l) l
      /\ (forall x, In x l ->
            0 <= normalized (list_min l) (list_max l) x
              <= normalized (list_min l) (list_max l) (list_max l))
      /\ (list_min l = list_max l ->
          forall x, In x l -> normalized (list_min l) (list_max l) x = 0)).
Proof.
  split.
  - exact (normalized_scores_range _ line_fit line_anomaly_score 1 X_line
             (knn_detector (Fin (1 / 2))) tied_detector tied_fit_ok).
  - exact (normalized_scores_range unit log_fit log_anomaly_score 1 X_log
             (Base.init unit (Fin (1 / 10)) false tt) log_detector
             log_fit_ok).
Defined.

Lemma log_score_of_zero :
  log_anomaly_score (Base.model log_detector) [[Fin 0]] = Ok [NInf].
Proof.
  unfold log_anomaly_score. simpl. rewrite (Rltb_false 0 0) by lra.
  reflexivity.
Qed.

(** C9, counterexample.  At the threshold NaN the sample that scores
    minus infinity is labelled -1: the comparison [-inf <= NaN] is
    false. *)
Lemma minus_infinity_is_outlier_at_nan_threshold :
  log_anomaly_score (Base.model log_detector) [[Fin 0]] = Ok [NInf]
  /\ Base.predict unit log_anomaly_score [[Fin 0]] (Some NaN) log_detector
     = (Ok [(-1)%Z], log_detector).
Proof.
  split; [exact log_score_of_zero|].
  destruct (fit_ok_finite unit log_fit log_anomaly_score 1 X_log _ _
              log_fit_ok) as (c & l & m & sc & _ & _ & _ & _ & _ & _ & _ & Hd).
  rewrite Hd.
  rewrite (predict_fitted unit log_anomaly_score [[Fin 0]] _ sc [NInf]
             (Some NaN) NaN).
  - reflexivity.
  - reflexivity.
  - reflexivity.
  - rewrite <- Hd. exact log_score_of_zero.
  - left. reflexivity.
Qed.

Lemma unit_kneighbors_at_zero :
  LineIndex.kneighbors {| LineIndex.k := 1; LineIndex.points := [0] |}
    [[Fin 0]] = Ok [[Fin 0]].
Proof.
  unfold LineIndex.kneighbors. simpl. rewrite (dist_eval 0 0 0) by lra.
  reflexivity.
Qed.

(** C9 at a query on top of the only training point, and at a detector
    that scores a sample minus infinity. *)
Lemma zero_radius_scores_minus_infinity_and_is_inlier_witness :
  (exists scores,
      Empirical.anomaly_score _ LineIndex.kneighbors [[Fin 0]] unit_detector
      = (Ok scores, unit_detector)
      /\ forall i row,
          nth_error [[Fin 0]] i = Some row ->
          Forall (eq (Fin 0)) row ->
          nth_error scores i = Some NInf)
  /\ (exists labels,
        Base.predict unit log_anomaly_score [[Fin 0]] (Some (Fin (-5)))
          log_detector = (Ok labels, log_detector)
        /\ forall i,
            nth_error [NInf] i = Some NInf ->
            nth_error labels i = Some 1%Z).
Proof.
  split.
  - apply (proj1 zero_radius_scores_minus_infinity_and_is_inlier
             LineIndex.index LineIndex.kneighbors unit_detector
             {| LineIndex.k := 1; LineIndex.points := [0] |}
             [[Fin 0]] [[Fin 0]]).
    + reflexivity.
    + simpl. lia.
    + reflexivity.
    + exact unit_kneighbors_at_zero.
    + repeat constructor. discriminate.
  - apply (proj2 zero_radius_scores_minus_infinity_and_is_inlier
             unit log_fit log_anomaly_score 1 X_log
             (Base.init unit (Fin (1 / 10)) false tt) log_detector
             [[Fin 0]] [NInf] (Some (Fin (-5))) log_fit_ok).
    + reflexivity.
    + exact log_score_of_zero.
    + intros t H. inversion H. reflexivity.
Defined.

Lemma identity_steps_pass_through :
  Forall (passthrough unit identity_transform identity_fit_transform)
    (Pipeline.steps _ _ identity_pipeline).
Proof.
  repeat constructor. intros X. exists tt. reflexivity.
Qed.

(** C10 on the pipeline of the identity transform and the detector. *)
Lemma pipeline_delegates_after_transforms_witness :
  exists pl',
    Pipeline.fit_predict unit identity_fit_transform _
      (base_estimator _ line_fit line_anomaly_score 1) X_line
      identity_pipeline
    = (fst (Base.fit_predict _ line_fit line_anomaly_score 1 X_line
              (knn_detector (Fin (1 / 2)))), pl')
    /\ Pipeline._final_estimator _ _ pl'
       = snd (Base.fit_predict _ line_fit line_anomaly_score 1 X_line
                (knn_detector (Fin (1 / 2))))
    /\ map fst (Pipeline.steps _ _ pl')
       = map fst (Pipeline.steps _ _ identity_pipeline).
Proof.
  exact (proj1 (pipeline_delegates_after_transforms unit identity_transform
                  identity_fit_transform _
                  (base_estimator _ line_fit line_anomaly_score 1)
                  X_line identity_pipeline)
           identity_steps_pass_through
           (Base.fit_predict _ line_fit line_anomaly_score 1)
           eq_refl).
Defined.

(** * Further properties of the score *)

Lemma max_Fin x y : Num.max (Fin x) (Fin y) = Fin (Rmax x y).
Proof.
  unfold Num.max, Rmax, Num.le, Num.Rleb. simpl.
  destruct (Rle_dec x y); reflexivity.
Qed.

Lemma fold_left_max_Fin l : forall x,
  fold_left Num.max (map Fin l) (Fin x) = Fin (fold_left Rmax l x).
Proof.
  induction l as [|y l IH]; intros x; simpl; [reflexivity|].
  rewrite max_Fin. apply IH.
Qed.

(** The radius of a row of finite distances is their maximum. *)
Lemma np_max_finite l :
  l <> [] -> np_max (map Fin l) = Ok (Fin (list_max l)).
Proof.
  destruct l as [|x l]; [congruence|]. intros _. simpl.
  rewrite fold_left_max_Fin. reflexivity.
Qed.

Lemma fold_left_Rmax_scale a l : 0 <= a -> forall x,
  fold_left Rmax (map (Rmult a) l) (a * x) = a * fold_left Rmax l x.
Proof.
  intros Ha. induction l as [|y l IH]; intros x; simpl; [reflexivity|].
  rewrite RmaxRmult by exact Ha. apply IH.
Qed.

Lemma list_max_scale a l :
  0 <= a -> list_max (map (Rmult a) l) = a * list_max l.
Proof.
  intros Ha. destruct l as [|x l]; simpl; [lra|].
  apply fold_left_Rmax_scale. exact Ha.
Qed.

Lemma score_finite k n r :
  (1 <= k)%Z -> 0 < r ->
  Empirical.score k n (Fin r) = Fin (- ln (IZR k) + INR n * ln r).
Proof.
  intros Hk Hr. unfold Empirical.score, Num.of_Z, Num.of_nat. simpl.
  assert (1 <= IZR k) by (apply IZR_le; exact Hk).
  rewrite (Rltb_true 0 (IZR k)), (Rltb_true 0 r) by lra. reflexivity.
Qed.

(** X1.  Scaling all the neighbour distances of a sample by a factor of
    at least 1 never lowers its score; at radius 0 the score stays minus
    infinity. *)
Theorem score_never_decreases_when_distances_are_scaled
  (k : Z) (n : nat) (l : list R) (a : R) :
  (1 <= k)%Z -> (1 <= n)%nat -> l <> [] -> 0 <= list_max l -> 1 <= a ->
  exists radius radius',
    np_max (map Fin l) = Ok radius
    /\ np_max (map Fin (map (Rmult a) l)) = Ok radius'
    /\ (Empirical.score k n radius <=? Empirical.score k n radius')%num = true.
Proof.
  intros Hk Hn Hl Hmax Ha.
  exists (Fin (list_max l)), (Fin (a * list_max l)).
  split; [apply np_max_finite; exact Hl|]. split.
  - rewrite np_max_finite by (destruct l; [congruence | discriminate]).
    rewrite list_max_scale by lra. reflexivity.
  - destruct Hmax as [Hmax | <-].
    + assert (Hpos : 0 < a * list_max l) by (apply Rmult_lt_0_compat; lra).
      rewrite !score_finite by assumption. simpl. apply Rleb_true.
      assert (Hln : ln (list_max l) <= ln (a * list_max l)).
      { destruct Ha as [Ha | <-].
        - left. apply ln_increasing; [exact Hmax|]. nra.
        - rewrite Rmult_1_l. lra. }
      assert (Hn' : 1 <= INR n) by (apply (le_INR 1); exact Hn).
      nra.
    + rewrite Rmult_0_r, score_zero_radius by assumption. reflexivity.
Qed.

Lemma score_never_decreases_when_distances_are_scaled_witness :
  exists radius radius',
    np_max (map Fin [1; 3]) = Ok radius
    /\ np_max (map Fin (map (Rmult 2) [1; 3])) = Ok radius'
    /\ (Empirical.score 5 2 radius <=? Empirical.score 5 2 radius')%num = true.
Proof.
  apply (score_never_decreases_when_distances_are_scaled 5 2 [1; 3] 2).
  - lia.
  - lia.
  - discriminate.
  - simpl. unfold Rmax. destruct (Rle_dec 1 3); lra.
  - lra.
Defined.

(** X2.  At the same positive radius a detector with more neighbours
    gives a strictly smaller score. *)
Theorem score_decreases_with_more_neighbours (k k' : Z) (n : nat) (r : R) :
  (1 <= k < k')%Z -> 0 < r ->
  (Empirical.score k' n (Fin r) <? Empirical.score k n (Fin r))%num = true.
Proof.
  intros Hk Hr. rewrite !score_finite by (try lia; assumption). simpl.
  apply Rltb_true.
  assert (1 <= IZR k) by (apply IZR_le; lia).
  assert (IZR k < IZR k') by (apply IZR_lt; lia).
  assert (ln (IZR k) < ln (IZR k')) by (apply ln_increasing; lra).
  lra.
Qed.

Lemma score_decreases_with_more_neighbours_witness :
  (Empirical.score 5 2 (Fin 3) <? Empirical.score 1 2 (Fin 3))%num = true.
Proof.
  apply (score_decreases_with_more_neighbours 1 5 2 3); [lia | lra].
Defined.

(** * Further properties of the percentile *)

Section PercentileBounds.

Variable l : list R.
Variable q : R.
Hypothesis l_not_empty : l <> [].
Hypothesis q_range : 0 <= q <= 100.

Let n := length l.
Let h := q / 100 * INR (n - 1).
Let i := Z.to_nat (Zfloor h).
Let j := Nat.min (i + 1) (n - 1).

Lemma percentile_index_facts :
  (1 <= n)%nat /\ (i <= j)%nat /\ (j <= n - 1)%nat
  /\ INR i = IZR (Zfloor h) /\ 0 <= h - IZR (Zfloor h) < 1.
Proof.
  assert (Hn : (1 <= n)%nat) by (unfold n; destruct l; [congruence | simpl; lia]).
  destruct (virtual_index_bounds n q Hn q_range) as (_ & Hi & Hii & Hb).
  fold h in Hi, Hii, Hb. fold i in Hi, Hii.
  repeat split; try assumption; try (unfold j; lia); lra.
Qed.

(** The percentile lies between the two sorted values around its
    virtual index. *)
Lemma percentile_between_neighbours :
  nth i (Rsort l) 0 <= linear_percentile l q <= nth j (Rsort l) 0.
Proof.
  destruct percentile_index_facts as (Hn & Hij & Hj & _ & Hf).
  unfold linear_percentile. fold n h i j.
  assert (Hle : nth i (Rsort l) 0 <= nth j (Rsort l) 0).
  { apply sorted_nth_le; [apply Rsort_sorted|].
    rewrite Rsort_length. fold n. lia. }
  split; nra.
Qed.

Lemma sorted_value_in_range m :
  (m < n)%nat -> list_min l <= nth m (Rsort l) 0 <= list_max l.
Proof.
  intros Hm.
  assert (Hin : In (nth m (Rsort l) 0) l).
  { eapply Permutation_in; [symmetry; apply Rsort_perm|].
    apply nth_In. rewrite Rsort_length. exact Hm. }
  destruct (list_min_spec l l_not_empty) as [_ Hmin].
  destruct (list_max_spec l l_not_empty) as [_ Hmax].
  split; auto.
Qed.

(** A percentile lies between the smallest and the largest value. *)
Lemma percentile_in_range :
  list_min l <= linear_percentile l q <= list_max l.
Proof.
  destruct percentile_index_facts as (Hn & Hij & Hj & _ & _).
  destruct percentile_between_neighbours as [Hlo Hhi].
  destruct (sorted_value_in_range i) as [H1 _]; [lia|].
  destruct (sorted_value_in_range j) as [_ H2]; [lia|].
  lra.
Qed.

End PercentileBounds.

(** The percentile 100 is the largest value. *)
Lemma percentile_100_is_max l :
  l <> [] -> linear_percentile l 100 = list_max l.
Proof.
  intros Hl.
  assert (Hn : (1 <= length l)%nat) by (destruct l; [congruence | simpl; lia]).
  destruct (percentile_in_range l 100 Hl ltac:(lra)) as [_ Hle].
  apply Rle_antisym; [exact Hle|].
  unfold linear_percentile.
  replace (100 / 100 * INR (length l - 1)) with (IZR (Z.of_nat (length l - 1)))
    by (rewrite <- INR_IZR_INZ; lra).
  rewrite (Zfloor_eq (Z.of_nat (length l - 1))) by lra.
  rewrite Nat2Z.id.
  replace (Nat.min (length l - 1 + 1) (length l - 1)) with (length l - 1)%nat
    by lia.
  replace (list_max l) with (nth (length l - 1) (Rsort l) 0 + 0)
    at 1; [lra|].
  rewrite Rplus_0_r. apply Rle_antisym.
  - destruct (sorted_value_in_range l Hl (length l - 1)) as [_ H]; [lia|].
    exact H.
  - destruct (list_max_spec l Hl) as [Hin _].
    apply (Permutation_in _ (Rsort_perm l)) in Hin.
    apply (In_nth _ _ 0) in Hin. destruct Hin as (m & Hm & <-).
    rewrite Rsort_length in Hm.
    apply sorted_nth_le; [apply Rsort_sorted|]. rewrite Rsort_length. lia.
Qed.

(** A higher percentile is never a smaller value. *)
Lemma percentile_monotone l q1 q2 :
  l <> [] -> 0 <= q1 <= q2 -> q2 <= 100 ->
  linear_percentile l q1 <= linear_percentile l q2.
Proof.
  intros Hl Hq1 Hq2.
  assert (Hr1 : 0 <= q1 <= 100) by lra.
  assert (Hr2 : 0 <= q2 <= 100) by lra.
  destruct (percentile_index_facts l q1 Hl Hr1) as (Hn & Hij1 & Hj1 & Hi1 & Hf1).
  destruct (percentile_index_facts l q2 Hl Hr2) as (_ & Hij2 & Hj2 & Hi2 & Hf2).
  assert (Hh : q1 / 100 * INR (length l - 1) <= q2 / 100 * INR (length l - 1)).
  { apply Rmult_le_compat_r; [apply pos_INR | lra]. }
  assert (Hfl := Zfloor_le _ _ Hh).
  set (h1 := q1 / 100 * INR (length l - 1)) in *.
  set (h2 := q2 / 100 * INR (length l - 1)) in *.
  destruct (Z.eq_dec (Zfloor h1) (Zfloor h2)) as [E | E].
  - unfold linear_percentile. fold h1 h2. rewrite <- E.
    set (i := Z.to_nat (Zfloor h1)).
    assert (Hle : nth i (Rsort l) 0
                  <= nth (Nat.min (i + 1) (length l - 1)) (Rsort l) 0).
    { apply sorted_nth_le; [apply Rsort_sorted|].
      rewrite Rsort_length. unfold i in *. lia. }
    assert (h1 - IZR (Zfloor h1) <= h2 - IZR (Zfloor h1)) by lra.
    nra.
  - destruct (percentile_between_neighbours l q1 Hl Hr1) as [_ Hup].
    destruct (percentile_between_neighbours l q2 Hl Hr2) as [Hlo _].
    fold h1 in Hup. fold h2 in Hlo.
    assert (H0 : (0 <= Zfloor h1)%Z).
    { apply Zfloor_lub. simpl. unfold h1.
      apply Rmult_le_pos; [lra | apply pos_INR]. }
    assert (Hlt : (Z.to_nat (Zfloor h1) + 1 <= Z.to_nat (Zfloor h2))%nat) by lia.
    eapply Rle_trans; [exact Hup|]. eapply Rle_trans; [|exact Hlo].
    apply sorted_nth_le; [apply Rsort_sorted|].
    rewrite Rsort_length. fold h1 h2 in Hj1, Hj2, Hij2. lia.
Qed.

Lemma count_above_antitone t1 t2 l :
  t1 <= t2 -> (count_above t2 l <= count_above t1 l)%nat.
Proof.
  intros Ht. unfold count_above. induction l as [|x l IH]; simpl; [lia|].
  destruct (Num.Rltb t2 x) eqn:E2, (Num.Rltb t1 x) eqn:E1; simpl; try lia.
  exfalso. apply Rltb_spec in E2.
  rewrite Rltb_true in E1 by lra. discriminate.
Qed.

Lemma count_above_lt_length t l x :
  In x l -> x <= t -> (count_above t l < length l)%nat.
Proof.
  intros Hin Hx. apply in_split in Hin. destruct Hin as (l1 & l2 & ->).
  rewrite count_above_app, length_app. simpl.
  assert (H1 := count_above_le_length t l1).
  assert (H2 := count_above_le_length t l2).
  unfold count_above at 2. simpl. rewrite Rltb_false by exact Hx.
  fold (count_above t l2). lia.
Qed.

(** * Further properties of [BaseOutlierDetector] *)

Lemma map_Fin_inj l l' : map Fin l = map Fin l' -> l = l'.
Proof.
  intros H. assert (E : finite_values (map Fin l) = finite_values (map Fin l'))
    by (rewrite H; reflexivity).
  rewrite !finite_values_of_map in E. inversion E. reflexivity.
Qed.

Lemma label_values t score :
  Base.label t score = 1%Z \/ Base.label t score = (-1)%Z.
Proof. unfold Base.label. destruct (score <=? t)%num; auto. Qed.

Lemma n_outliers_le_when_threshold_raised t1 t2 s :
  (t1 <=? t2)%num = true ->
  Forall2 (fun y1 y2 => y1 = 1%Z -> y2 = 1%Z)
    (map (Base.label t1) s) (map (Base.label t2) s)
  /\ (n_outliers (map (Base.label t2) s)
      <= n_outliers (map (Base.label t1) s))%nat.
Proof.
  intros Ht. unfold n_outliers.
  induction s as [|x s [IH1 IH2]]; simpl; [split; [constructor | lia]|].
  assert (Hx : Base.label t1 x = 1%Z -> Base.label t2 x = 1%Z).
  { unfold Base.label. destruct (x <=? t1)%num eqn:E; [|discriminate].
    rewrite (le_trans x t1 t2 E Ht). reflexivity. }
  split; [constructor; assumption|].
  destruct (label_values t1 x) as [E1 | E1].
  - rewrite (Hx E1), E1. simpl. exact IH2.
  - rewrite E1. destruct (label_values t2 x) as [E2 | E2]; rewrite E2; simpl; lia.
Qed.

Lemma percentile_valid_ok a q :
  0 <= q <= 100 -> exists t, percentile a (Fin q) = Ok t.
Proof.
  intros Hq. unfold percentile.
  rewrite (Rleb_true 0 (q / 100)), (Rleb_true (q / 100) 1) by lra. simpl.
  destruct (existsb Num.is_nan a || Nat.eqb (length a) 0); eexists; reflexivity.
Qed.

Lemma check_column_not_finite s :
  Exists (fun x => Num.is_finite x = false) s ->
  check_column s = Raise ValueError.
Proof.
  intros H. unfold check_column.
  assert (E : finite_values s = None).
  { induction H as [x s Hx | x s _ IH]; simpl.
    - destruct x; try reflexivity; discriminate.
    - destruct x; try reflexivity. rewrite IH. reflexivity. }
  rewrite E. reflexivity.
Qed.

Section BaseFurther.

Variable Model : Type.
Variable _fit : matrix -> M Model unit.
Variable _anomaly_score : Model -> matrix -> res vector.
Variable elapsed : R.

Local Abbreviation fit := (Base.fit Model _fit _anomaly_score elapsed).
Local Abbreviation anomaly_score := (Base.anomaly_score Model _anomaly_score).
Local Abbreviation predict := (Base.predict Model _anomaly_score).
Local Abbreviation fit_predict :=
  (Base.fit_predict Model _fit _anomaly_score elapsed).
Local Abbreviation fitted_state := (Base.fitted_state Model elapsed).

Lemma fit_predict_after_fit X d d' :
  fit X d = (Ok tt, d') -> fit_predict X d = predict X None d'.
Proof. intros H. unfold Base.fit_predict, bind. rewrite H. reflexivity. Qed.

Lemma predict_fitted_state X d m l t sc threshold t' :
  well_formed X = true -> _anomaly_score m X = Ok (map Fin l) ->
  t' = match threshold with Some u => u | None => t end ->
  predict X threshold (fitted_state d m (map Fin l) t sc)
  = (Ok (map (Base.label t') (map Fin l)),
     fitted_state d m (map Fin l) t sc).
Proof.
  intros HX Hs ->.
  apply (predict_fitted Model _anomaly_score X _ sc (map Fin l) threshold);
    try assumption; try reflexivity.
  destruct threshold; [left | right; split]; reflexivity.
Qed.

(** X3.  After a successful [fit] the threshold lies between the smallest
    and the largest training score, so [fit_predict] labels the training
    samples with the smallest score +1: it never labels every training
    sample an outlier. *)
Theorem threshold_within_training_scores X d d' :
  fit X d = (Ok tt, d') ->
  exists l t labels,
    Base.anomaly_score_ d' = Some (map Fin l)
    /\ Base.threshold_ d' = Some (Fin t)
    /\ list_min l <= t <= list_max l
    /\ fit_predict X d = (Ok labels, d')
    /\ length labels = length l
    /\ (forall i, nth_error l i = Some (list_min l) ->
                  nth_error labels i = Some 1%Z)
    /\ (n_outliers labels < length labels)%nat.
Proof.
  intros H. rewrite (fit_predict_after_fit X d d' H).
  destruct (fit_ok_finite Model _fit _anomaly_score elapsed X d d' H)
    as (c & l & m & sc & Hc & Hr & HX & Hl & Hfit & Hs & Hsc & ->).
  set (t := linear_percentile l (100 * (1 - c))).
  assert (Ht : list_min l <= t <= list_max l)
    by (apply percentile_in_range; [exact Hl | lra]).
  exists l, t, (map (Base.label (Fin t)) (map Fin l)).
  repeat split; try apply Ht.
  - apply predict_fitted_state; try assumption; reflexivity.
  - rewrite !length_map. reflexivity.
  - intros i Hi. rewrite !nth_error_map, Hi. simpl. f_equal.
    unfold Base.label. simpl. rewrite Rleb_true by apply Ht. reflexivity.
  - rewrite n_outliers_count_above, !length_map.
    destruct (list_min_spec l Hl) as [Hin _].
    apply (count_above_lt_length t l (list_min l) Hin). apply Ht.
Qed.

(** X4.  With contamination 0 the threshold is the largest training
    score and [fit_predict] labels every training sample +1. *)
Theorem zero_contamination_flags_no_training_sample X d d' :
  Base.contamination d = Fin 0 ->
  fit X d = (Ok tt, d') ->
  exists l labels,
    Base.anomaly_score_ d' = Some (map Fin l)
    /\ Base.threshold_ d' = Some (Fin (list_max l))
    /\ fit_predict X d = (Ok labels, d')
    /\ labels = map (fun _ => 1%Z) l.
Proof.
  intros Hc0 H. rewrite (fit_predict_after_fit X d d' H).
  destruct (fit_ok_finite Model _fit _anomaly_score elapsed X d d' H)
    as (c & l & m & sc & Hc & Hr & HX & Hl & Hfit & Hs & Hsc & ->).
  rewrite Hc0 in Hc. inversion Hc; subst c.
  replace (100 * (1 - 0)) with 100 by lra.
  rewrite (percentile_100_is_max l Hl).
  exists l, (map (Base.label (Fin (list_max l))) (map Fin l)).
  repeat split.
  - apply predict_fitted_state; try assumption; reflexivity.
  - rewrite map_map. apply map_ext_in. intros x Hx.
    unfold Base.label. simpl.
    destruct (list_max_spec l Hl) as [_ Hmax].
    rewrite Rleb_true by (apply Hmax; exact Hx). reflexivity.
Qed.

(** X5.  On the same training array and model, a higher contamination
    gives a threshold that is not higher and a number of flagged training
    samples that is not lower. *)
Theorem higher_contamination_lowers_threshold X d1 d2 d1' d2' c1 c2 :
  Base.model d1 = Base.model d2 ->
  Base.contamination d1 = Fin c1 -> Base.contamination d2 = Fin c2 ->
  c1 <= c2 ->
  fit X d1 = (Ok tt, d1') -> fit X d2 = (Ok tt, d2') ->
  exists t1 t2 labels1 labels2,
    Base.threshold_ d1' = Some (Fin t1)
    /\ Base.threshold_ d2' = Some (Fin t2)
    /\ t2 <= t1
    /\ predict X None d1' = (Ok labels1, d1')
    /\ predict X None d2' = (Ok labels2, d2')
    /\ (n_outliers labels1 <= n_outliers labels2)%nat.
Proof.
  intros Hm Hc1 Hc2 Hle H1 H2.
  destruct (fit_ok_finite Model _fit _anomaly_score elapsed X d1 d1' H1)
    as (c & l & m & sc & Hc & Hr & HX & Hl & Hfit & Hs & Hsc & ->).
  destruct (fit_ok_finite Model _fit _anomaly_score elapsed X d2 d2' H2)
    as (c' & l' & m' & sc' & Hc' & Hr' & _ & _ & Hfit' & Hs' & Hsc' & ->).
  rewrite Hc1 in Hc. inversion Hc; subst c.
  rewrite Hc2 in Hc'. inversion Hc'; subst c'.
  rewrite Hm, Hfit' in Hfit. inversion Hfit; subst m'.
  rewrite Hs in Hs'. inversion Hs' as [E]. apply map_Fin_inj in E. subst l'.
  assert (Ht : linear_percentile l (100 * (1 - c2))
               <= linear_percentile l (100 * (1 - c1)))
    by (apply percentile_monotone; [exact Hl | lra | lra]).
  do 4 eexists. split; [reflexivity|]. split; [reflexivity|].
  split; [exact Ht|].
  split; [apply predict_fitted_state; try assumption; reflexivity|].
  split; [apply predict_fitted_state; try assumption; reflexivity|].
  rewrite !n_outliers_count_above. apply count_above_antitone. exact Ht.
Qed.

(** X6.  Raising the threshold passed to [predict] never turns an inlier
    into an outlier: every sample labelled +1 at the lower threshold is
    labelled +1 at the higher one, and the number of outliers does not
    grow. *)
Theorem raising_threshold_only_removes_outliers X0 d0 d X s t1 t2 :
  fit X0 d0 = (Ok tt, d) ->
  well_formed X = true ->
  _anomaly_score (Base.model d) X = Ok s ->
  (t1 <=? t2)%num = true ->
  exists labels1 labels2,
    predict X (Some t1) d = (Ok labels1, d)
    /\ predict X (Some t2) d = (Ok labels2, d)
    /\ Forall2 (fun y1 y2 => y1 = 1%Z -> y2 = 1%Z) labels1 labels2
    /\ (n_outliers labels2 <= n_outliers labels1)%nat.
Proof.
  intros H HX Hs Ht.
  destruct (fit_ok_finite Model _fit _anomaly_score elapsed X0 d0 d H)
    as (c & l & m & sc & _ & _ & _ & _ & _ & _ & _ & ->).
  exists (map (Base.label t1) s), (map (Base.label t2) s).
  split; [|split].
  - apply (predict_fitted Model _anomaly_score X _ sc s (Some t1) t1);
      try assumption; try reflexivity. left. reflexivity.
  - apply (predict_fitted Model _anomaly_score X _ sc s (Some t2) t2);
      try assumption; try reflexivity. left. reflexivity.
  - apply n_outliers_le_when_threshold_raised. exact Ht.
Qed.

End BaseFurther.

Section BaseState.

Variable Model : Type.
Variable _fit : matrix -> M Model unit.
Variable _anomaly_score : Model -> matrix -> res vector.
Variable elapsed : R.

Local Abbreviation fit := (Base.fit Model _fit _anomaly_score elapsed).
Local Abbreviation anomaly_score := (Base.anomaly_score Model _anomaly_score).
Local Abbreviation predict := (Base.predict Model _anomaly_score).
Local Abbreviation fitted_state := (Base.fitted_state Model elapsed).

(** X7.  [fit] reads the parameters and the model only: two detectors
    that agree on them fail alike, and when [fit] returns on one it returns
    on the other and leaves the same detector, whatever scores, threshold
    and normaliser they held before. *)
Theorem fit_ignores_previous_fitted_state X d1 d2 :
  Base.contamination d1 = Base.contamination d2 ->
  Base.verbose d1 = Base.verbose d2 ->
  Base.model d1 = Base.model d2 ->
  fst (fit X d1) = fst (fit X d2)
  /\ (forall d', fit X d1 = (Ok tt, d') -> fit X d2 = (Ok tt, d')).
Proof.
  intros Hc Hv Hm.
  rewrite !(fit_unfold Model _fit _anomaly_score elapsed), Hc, Hm.
  destruct (negb (valid_contamination _)); [split; [reflexivity | discriminate]|].
  destruct (negb (well_formed X)); [split; [reflexivity | discriminate]|].
  destruct (_fit X (Base.model d2)) as [[[]|e] m];
    [|split; [reflexivity | discriminate]].
  cbv zeta.
  destruct (_anomaly_score m X) as [s|e]; [|split; [reflexivity | discriminate]].
  destruct (percentile s _) as [t|e]; [|split; [reflexivity | discriminate]].
  destruct (MinMaxScaler_fit s) as [sc|e]; [|split; [reflexivity | discriminate]].
  split; [reflexivity|]. intros d' H. inversion H; subst d'.
  unfold Base.fitted_state. rewrite Hc, Hv. reflexivity.
Qed.

Lemma anomaly_score_state X normalize d :
  snd (anomaly_score X normalize d) = d.
Proof.
  unfold Base.anomaly_score, Base.check_is_fitted, Base.attr, bind, lift, ret.
  destruct (Base._scaler d) as [sc|] eqn:E; [|reflexivity].
  destruct (check_array X); [|reflexivity].
  destruct (_anomaly_score (Base.model d) a); [|reflexivity].
  destruct normalize; [|reflexivity].
  rewrite E. destruct (MinMaxScaler_transform sc a0); reflexivity.
Qed.

Lemma predict_state X threshold d : snd (predict X threshold d) = d.
Proof.
  unfold Base.predict, bind.
  assert (H := anomaly_score_state X false d).
  destruct (anomaly_score X false d) as [[s|e] d']; simpl in H; subst d';
    [|reflexivity].
  destruct threshold as [t|]; [reflexivity|].
  unfold Base.attr, ret. destruct (Base.threshold_ d); reflexivity.
Qed.

(** X8.  Scoring never changes the detector: whatever they return or
    raise, [anomaly_score] and [predict] leave every attribute as it was,
    so a second call of [predict] with the same arguments gives the result
    of the first. *)
Theorem scoring_leaves_the_detector_unchanged X d :
  (forall normalize, snd (anomaly_score X normalize d) = d)
  /\ (forall threshold, snd (predict X threshold d) = d)
  /\ (forall threshold,
        (predict X threshold ;; predict X threshold) d
        = predict X threshold d).
Proof.
  split; [intros; apply anomaly_score_state|].
  split; [intros; apply predict_state|].
  intros threshold. unfold bind at 1.
  assert (H := predict_state X threshold d).
  destruct (predict X threshold d) as [[labels|e] d'] eqn:E; simpl in H;
    subst d'; [exact E | reflexivity].
Qed.

(** X9.  Normalisation never reverses the ranking: on a fitted detector
    [anomaly_score(X, normalize=True)] applies one map to the finite raw
    scores, and the map never decreases.  So a sample with the strictly
    higher normalised score has the strictly higher raw score. *)
Theorem normalization_never_reverses_the_ranking X d d' :
  fit X d = (Ok tt, d') ->
  exists f : R -> R,
    (forall x y, x <= y -> f x <= f y)
    /\ (forall x y, f x < f y -> x < y)
    /\ forall X' l',
        well_formed X' = true -> l' <> [] ->
        _anomaly_score (Base.model d') X' = Ok (map Fin l') ->
        anomaly_score X' false d' = (Ok (map Fin l'), d')
        /\ anomaly_score X' true d' = (Ok (map (fun x => Fin (f x)) l'), d').
Proof.
  intros H.
  destruct (fit_ok_finite Model _fit _anomaly_score elapsed X d d' H)
    as (c & l & m & sc & _ & _ & _ & Hl & _ & _ & Hsc & ->).
  assert (Hrange : list_min l <= list_max l).
  { destruct (list_min_spec l Hl) as [Hin Hmin].
    destruct (list_max_spec l Hl) as [_ Hmax]. auto. }
  assert (Hmono : forall x y, x <= y ->
            normalized (list_min l) (list_max l) x
            <= normalized (list_min l) (list_max l) y)
    by (intros x y; apply normalized_monotone; exact Hrange).
  exists (normalized (list_min l) (list_max l)). split; [exact Hmono|]. split.
  - intros x y Hxy. destruct (Rlt_le_dec x y) as [Hlt | Hge]; [exact Hlt|].
    apply Hmono in Hge. lra.
  - intros X' l' HX' Hl' Hs'. split.
    + rewrite (anomaly_score_raw Model _anomaly_score X' _ sc);
        try assumption; try reflexivity.
      rewrite Hs'. reflexivity.
    + apply anomaly_score_normalized; assumption.
Qed.

(** X10.  A raw score that is not finite is returned by
    [anomaly_score(X)] and makes [anomaly_score(X, normalize=True)] raise
    [ValueError]: the normaliser rejects it. *)
Theorem normalize_rejects_infinite_scores X0 d0 d X s :
  fit X0 d0 = (Ok tt, d) ->
  well_formed X = true ->
  _anomaly_score (Base.model d) X = Ok s ->
  Exists (fun x => Num.is_finite x = false) s ->
  anomaly_score X false d = (Ok s, d)
  /\ anomaly_score X true d = (Raise ValueError, d).
Proof.
  intros H HX Hs Hinf.
  destruct (fit_ok_finite Model _fit _anomaly_score elapsed X0 d0 d H)
    as (c & l & m & sc & _ & _ & _ & _ & _ & _ & _ & ->).
  split.
  - rewrite (anomaly_score_raw Model _anomaly_score X _ sc);
      try assumption; try reflexivity.
    rewrite Hs. reflexivity.
  - unfold Base.anomaly_score, Base.check_is_fitted, Base.attr, bind, lift,
      check_array. simpl. simpl in Hs. rewrite HX, Hs.
    unfold MinMaxScaler_transform.
    rewrite (check_column_not_finite s Hinf). reflexivity.
Qed.

(** X11.  [fit] cannot succeed on training samples of which one has a
    score that is not finite: it raises [ValueError] when it fits the
    normaliser.  By then it has stored the model, the training scores and a
    threshold; the normaliser is the one the detector had before. *)
Theorem fit_rejects_infinite_training_scores X d m s :
  valid_contamination (Base.contamination d) = true ->
  well_formed X = true ->
  _fit X (Base.model d) = (Ok tt, m) ->
  _anomaly_score m X = Ok s ->
  Exists (fun x => Num.is_finite x = false) s ->
  exists d' t,
    fit X d = (Raise ValueError, d')
    /\ Base.model d' = m
    /\ Base.anomaly_score_ d' = Some s
    /\ Base.threshold_ d' = Some t
    /\ Base._scaler d' = Base._scaler d.
Proof.
  intros Hc HX Hfit Hs Hinf.
  destruct (valid_contamination_inv _ Hc) as (c & Hcc & Hr).
  destruct (percentile_valid_ok s (100 * (1 - c)) ltac:(lra)) as (t & Ht).
  rewrite (fit_unfold Model _fit _anomaly_score elapsed), Hc, HX, Hfit, Hs.
  rewrite Hcc. cbv zeta.
  replace (Fin 100 * (Fin 1 - Fin c))%num with (Fin (100 * (1 - c)))
    by reflexivity.
  rewrite Ht.
  unfold MinMaxScaler_fit. rewrite (check_column_not_finite s Hinf).
  simpl. do 2 eexists. repeat split.
Qed.

End BaseState.

(** * Further properties of [EmpiricalOutlierDetector] *)

Lemma percentile_of_invalid_fpr a fpr :
  valid_fpr fpr = false ->
  percentile a (Fin 100 * (Fin 1 - fpr))%num = Raise ValueError.
Proof.
  unfold valid_fpr. destruct fpr as [|r| |]; simpl; intros H.
  - unfold Num.scale_inf. rewrite (Rltb_true 0 100) by lra. reflexivity.
  - unfold percentile.
    destruct (Rle_dec 0 r) as [H0|H0].
    + rewrite (Rleb_true 0 r) in H by exact H0. simpl in H.
      assert (1 < r).
      { unfold Num.Rleb in H. destruct (Rle_dec r 1); [discriminate | lra]. }
      rewrite (Rleb_false 0 _) by lra. reflexivity.
    + rewrite (Rleb_true 0 _) by lra.
      rewrite (Rleb_false _ 1) by lra. reflexivity.
  - unfold Num.scale_inf. rewrite (Rltb_true 0 100) by lra. reflexivity.
  - reflexivity.
Qed.

Lemma out_of_range_fpr_invalid fpr :
  out_of_range_fpr fpr = true -> valid_fpr fpr = false.
Proof.
  unfold out_of_range_fpr, valid_fpr.
  destruct fpr as [|r| |]; simpl; try reflexivity; try discriminate.
  rewrite orb_true_iff, !Rltb_spec. intros [H | H].
  - rewrite (Rleb_false r 1) by exact H. apply andb_false_r.
  - rewrite (Rleb_false 0 r) by lra. reflexivity.
Qed.

Lemma percentile_of_valid_fpr a fpr :
  valid_fpr fpr = true ->
  exists t, percentile a (Fin 100 * (Fin 1 - fpr))%num = Ok t.
Proof.
  unfold valid_fpr. destruct fpr as [|r| |]; simpl; try discriminate.
  rewrite andb_true_iff, !Rleb_spec. intros [H0 H1].
  apply (percentile_valid_ok a (100 * (1 - r))). lra.
Qed.

Lemma mapM_length {A B} (f : A -> res B) l : forall l',
  mapM f l = Ok l' -> length l' = length l.
Proof.
  induction l as [|a l IH]; simpl; intros l' H.
  - inversion H. reflexivity.
  - destruct (f a); [|discriminate]. simpl in H.
    destruct (mapM f l) as [bs|]; [|discriminate]. simpl in H.
    inversion H. simpl. f_equal. apply IH. reflexivity.
Qed.

Section EmpiricalFurther.

Variable Index : Type.
Variable NearestNeighbors_fit : Z -> Z -> Z -> matrix -> res Index.
Variable kneighbors : Index -> matrix -> res matrix.

Local Abbreviation fit := (Empirical.fit Index NearestNeighbors_fit kneighbors).
Local Abbreviation anomaly_score := (Empirical.anomaly_score Index kneighbors).

(** X12.  With a false positive rate above 1, or below zero by more than
    rounding can hide, [fit] never returns: the percentile is refused.
    When the array is valid and the index and the scores could be
    computed, the error is a [ValueError] raised after the index has been
    stored.  (A negative rate below the resolution of binary64 at 1 is
    absorbed by [1 - fpr], see [Binary64.percentile_rank], and is left
    out.) *)
Theorem empirical_fit_never_returns_with_invalid_fpr X d :
  out_of_range_fpr (Empirical.fpr Index d) = true ->
  fst (fit X d) <> Ok tt
  /\ forall neigh scores,
      well_formed X = true ->
      NearestNeighbors_fit (Empirical.n_jobs Index d)
        (Empirical.n_neighbors Index d) (Empirical.p Index d) X = Ok neigh ->
      anomaly_score X (Empirical.set__neigh Index neigh d)
      = (Ok scores, Empirical.set__neigh Index neigh d) ->
      fit X d = (Raise ValueError, Empirical.set__neigh Index neigh d).
Proof.
  intros Hfpr. apply out_of_range_fpr_invalid in Hfpr. split.
  - rewrite Empirical_fit_unfold.
    destruct (well_formed X); [|discriminate].
    destruct (NearestNeighbors_fit _ _ _ X) as [neigh|e]; [|discriminate].
    cbv zeta.
    assert (Hst := Empirical_anomaly_score_state Index kneighbors X
                     (Empirical.set__neigh Index neigh d)).
    destruct (Empirical.anomaly_score Index kneighbors X
                (Empirical.set__neigh Index neigh d)) as [[scores|e] d2];
      [|discriminate].
    simpl in Hst. subst d2. simpl Empirical.fpr.
    rewrite (percentile_of_invalid_fpr scores _ Hfpr). discriminate.
  - intros neigh scores HX Hn Hs.
    rewrite Empirical_fit_unfold, HX, Hn. cbv zeta. rewrite Hs.
    simpl Empirical.fpr.
    rewrite (percentile_of_invalid_fpr scores _ Hfpr). reflexivity.
Qed.

(** X13.  [fit] returns whenever the array is valid, the index is built,
    the query answers with non-empty rows of distances and the false
    positive rate lies in [[0, 1]].  It leaves the new index and a
    threshold, whatever index and threshold the detector held before;
    there is one training score per row of distances, and when the
    training scores are finite the threshold is their
    [100 * (1 - fpr)] percentile. *)
Theorem empirical_fit_returns X d neigh dist :
  valid_fpr (Empirical.fpr Index d) = true ->
  well_formed X = true ->
  NearestNeighbors_fit (Empirical.n_jobs Index d)
    (Empirical.n_neighbors Index d) (Empirical.p Index d) X = Ok neigh ->
  kneighbors neigh X = Ok dist ->
  Forall (fun row => row <> []) dist ->
  exists scores t,
    length scores = length dist
    /\ fit X d
       = (Ok tt,
          Empirical.set_threshold_ Index t (Empirical.set__neigh Index neigh d))
    /\ anomaly_score X
         (Empirical.set_threshold_ Index t (Empirical.set__neigh Index neigh d))
       = (Ok scores,
          Empirical.set_threshold_ Index t (Empirical.set__neigh Index neigh d))
    /\ forall l, scores = map Fin l -> l <> [] ->
         exists r,
           Empirical.fpr Index d = Fin r /\ 0 <= r <= 1
           /\ t = Fin (linear_percentile l (100 * (1 - r))).
Proof.
  intros Hfpr HX Hn Hk Hrows.
  destruct (np_max_axis1_total dist Hrows) as (radius & Hr & _).
  set (scores := map (Empirical.score (Empirical.n_neighbors Index d)
                        (n_features X)) radius).
  assert (Hs : anomaly_score X (Empirical.set__neigh Index neigh d)
               = (Ok scores, Empirical.set__neigh Index neigh d)).
  { unfold Empirical.anomaly_score, check_array. simpl.
    rewrite HX. simpl. rewrite Hk. simpl. rewrite Hr. reflexivity. }
  destruct (percentile_of_valid_fpr scores _ Hfpr) as (t & Ht).
  exists scores, t. repeat split.
  - unfold scores. rewrite length_map.
    apply (mapM_length np_max dist radius Hr).
  - rewrite Empirical_fit_unfold, HX, Hn. cbv zeta. rewrite Hs.
    simpl Empirical.fpr. rewrite Ht. reflexivity.
  - rewrite Empirical_anomaly_score_threshold, Hs. reflexivity.
  - intros l El Hl. rewrite El in Ht.
    apply percentile_of_fpr_inv; assumption.
Qed.

End EmpiricalFurther.

(** * Further properties of the pipeline *)

Section PipelineFurther.

Variable Transformer : Type.
Variable transform : Transformer -> matrix -> res matrix.
Variable fit_transform : matrix -> M Transformer matrix.
Variable D : Type.
Variable E : Pipeline.Estimator D.

Local Abbreviation pipeline := (Pipeline.ExtendedPipeline Transformer D).
Local Abbreviation steps := (Pipeline.steps Transformer D).
Local Abbreviation final_name := (Pipeline.final_name Transformer D).
Local Abbreviation _final_estimator := (Pipeline._final_estimator Transformer D).
Local Abbreviation chain := (transform_chain Transformer transform).
Local Abbreviation set_steps := (Pipeline.set_steps Transformer D).

Lemma chain_app l1 : forall l2 X,
  chain (l1 ++ l2) X = res_bind (chain l1 X) (chain l2).
Proof.
  induction l1 as [|[name [t|]] l1 IH]; intros l2 X; simpl.
  - reflexivity.
  - destruct (transform t X) as [Xt|e]; simpl; [apply IH | reflexivity].
  - apply IH.
Qed.

Lemma chain_present_steps l : forall X,
  chain (present_steps l) X = chain l X.
Proof.
  induction l as [|[name [t|]] l IH]; intros X; simpl.
  - reflexivity.
  - destruct (transform t X) as [Xt|e]; simpl; [apply IH | reflexivity].
  - apply IH.
Qed.

Local Abbreviation forwarded := (forwarded Transformer transform D).

Lemma forwarded_delegated {B} (m : option (matrix -> M D B)) X pl :
  forwarded m X pl = delegated Transformer transform D m X pl.
Proof.
  unfold forwarded, Pipeline.delegate. destruct m as [f|];
    [apply transform_then_delegated | reflexivity].
Qed.

Lemma forwarded_keeps_structure {B} (m : option (matrix -> M D B)) X pl :
  steps (snd (forwarded m X pl)) = steps pl
  /\ final_name (snd (forwarded m X pl)) = final_name pl.
Proof.
  rewrite forwarded_delegated. unfold delegated.
  destruct m as [f|]; [|split; reflexivity].
  destruct (chain (steps pl) X) as [Xt|e]; [|split; reflexivity].
  destruct (f Xt (_final_estimator pl)); split; reflexivity.
Qed.

Lemma forwarded_transform_failure {B} (f : matrix -> M D B) X pl l1 name t l2 X1 e :
  steps pl = l1 ++ (name, Some t) :: l2 ->
  chain l1 X = Ok X1 -> transform t X1 = Raise e ->
  forwarded (Some f) X pl = (Raise e, pl).
Proof.
  intros Hl H1 Ht. rewrite forwarded_delegated. unfold delegated.
  rewrite Hl, chain_app, H1. simpl. rewrite Ht. reflexivity.
Qed.

Lemma forwarded_present_steps {B} (m : option (matrix -> M D B)) X pl :
  fst (forwarded m X (set_steps (present_steps (steps pl)) pl))
  = fst (forwarded m X pl)
  /\ _final_estimator
       (snd (forwarded m X (set_steps (present_steps (steps pl)) pl)))
     = _final_estimator (snd (forwarded m X pl)).
Proof.
  rewrite !forwarded_delegated. unfold delegated.
  destruct m as [f|]; [|split; reflexivity].
  simpl. rewrite chain_present_steps.
  destruct (chain (steps pl) X) as [Xt|e]; [|split; reflexivity].
  destruct (f Xt (_final_estimator pl)); split; reflexivity.
Qed.

(** X14.  The methods that do not fit never change the steps of the
    pipeline nor the name of its last step, whatever they return or raise:
    only the final estimator can change. *)
Theorem scoring_keeps_the_pipeline_structure X (pl : pipeline) :
  (steps (snd (Pipeline.predict Transformer transform D E X pl)) = steps pl
   /\ final_name (snd (Pipeline.predict Transformer transform D E X pl))
      = final_name pl)
  /\ (steps (snd (Pipeline.anomaly_score Transformer transform D E X pl))
      = steps pl
      /\ final_name (snd (Pipeline.anomaly_score Transformer transform D E X pl))
         = final_name pl)
  /\ (steps (snd (Pipeline.detect Transformer transform D E X pl)) = steps pl
      /\ final_name (snd (Pipeline.detect Transformer transform D E X pl))
         = final_name pl)
  /\ (steps (snd (Pipeline.feature_wise_anomaly_score Transformer transform
                    D E X pl)) = steps pl
      /\ final_name (snd (Pipeline.feature_wise_anomaly_score Transformer
                            transform D E X pl)) = final_name pl)
  /\ (steps (snd (Pipeline.analyze Transformer transform D E X pl)) = steps pl
      /\ final_name (snd (Pipeline.analyze Transformer transform D E X pl))
         = final_name pl).
Proof.
  repeat apply conj;
    first [ apply (forwarded_keeps_structure (Pipeline.est_predict E))
          | apply (forwarded_keeps_structure (Pipeline.est_anomaly_score E))
          | apply (forwarded_keeps_structure (Pipeline.est_detect E))
          | apply (forwarded_keeps_structure
                     (Pipeline.est_feature_wise_anomaly_score E))
          | apply (forwarded_keeps_structure (Pipeline.est_analyze E)) ].
Qed.

(** X15.  When the [transform] of a step raises, the methods that do not
    fit raise the same exception and leave the whole pipeline as it was:
    the steps after it are not applied and the final estimator is not
    called. *)
Theorem failing_transform_stops_the_pipeline
  X (pl : pipeline) l1 name t l2 X1 e :
  steps pl = l1 ++ (name, Some t) :: l2 ->
  chain l1 X = Ok X1 ->
  transform t X1 = Raise e ->
  (forall f, Pipeline.est_predict E = Some f ->
             Pipeline.predict Transformer transform D E X pl = (Raise e, pl))
  /\ (forall f, Pipeline.est_anomaly_score E = Some f ->
        Pipeline.anomaly_score Transformer transform D E X pl = (Raise e, pl))
  /\ (forall f, Pipeline.est_detect E = Some f ->
        Pipeline.detect Transformer transform D E X pl = (Raise e, pl))
  /\ (forall f, Pipeline.est_feature_wise_anomaly_score E = Some f ->
        Pipeline.feature_wise_anomaly_score Transformer transform D E X pl
        = (Raise e, pl))
  /\ (forall f, Pipeline.est_analyze E = Some f ->
        Pipeline.analyze Transformer transform D E X pl = (Raise e, pl)).
Proof.
  intros Hl H1 Ht.
  repeat apply conj; intros f Hf.
  - unfold Pipeline.predict. rewrite Hf.
    apply (forwarded_transform_failure f X pl l1 name t l2 X1 e Hl H1 Ht).
  - unfold Pipeline.anomaly_score. rewrite Hf.
    apply (forwarded_transform_failure f X pl l1 name t l2 X1 e Hl H1 Ht).
  - unfold Pipeline.detect. rewrite Hf.
    apply (forwarded_transform_failure f X pl l1 name t l2 X1 e Hl H1 Ht).
  - unfold Pipeline.feature_wise_anomaly_score. rewrite Hf.
    apply (forwarded_transform_failure f X pl l1 name t l2 X1 e Hl H1 Ht).
  - unfold Pipeline.analyze. rewrite Hf.
    apply (forwarded_transform_failure f X pl l1 name t l2 X1 e Hl H1 Ht).
Qed.

(** X16.  Steps that are [None] are no-ops for the methods that do not
    fit: on the pipeline without them each method returns the same result
    and leaves the final estimator in the same state. *)
Theorem none_steps_can_be_dropped X (pl : pipeline) :
  let pl' := set_steps (present_steps (steps pl)) pl in
  (fst (Pipeline.predict Transformer transform D E X pl')
   = fst (Pipeline.predict Transformer transform D E X pl)
   /\ _final_estimator (snd (Pipeline.predict Transformer transform D E X pl'))
      = _final_estimator (snd (Pipeline.predict Transformer transform D E X pl)))
  /\ (fst (Pipeline.anomaly_score Transformer transform D E X pl')
      = fst (Pipeline.anomaly_score Transformer transform D E X pl)
      /\ _final_estimator
           (snd (Pipeline.anomaly_score Transformer transform D E X pl'))
         = _final_estimator
             (snd (Pipeline.anomaly_score Transformer transform D E X pl)))
  /\ (fst (Pipeline.detect Transformer transform D E X pl')
      = fst (Pipeline.detect Transformer transform D E X pl)
      /\ _final_estimator (snd (Pipeline.detect Transformer transform D E X pl'))
         = _final_estimator (snd (Pipeline.detect Transformer transform D E X pl)))
  /\ (fst (Pipeline.feature_wise_anomaly_score Transformer transform D E X pl')
      = fst (Pipeline.feature_wise_anomaly_score Transformer transform D E X pl)
      /\ _final_estimator
           (snd (Pipeline.feature_wise_anomaly_score Transformer transform
                   D E X pl'))
         = _final_estimator
             (snd (Pipeline.feature_wise_anomaly_score Transformer transform
                     D E X pl)))
  /\ (fst (Pipeline.analyze Transformer transform D E X pl')
      = fst (Pipeline.analyze Transformer transform D E X pl)
      /\ _final_estimator (snd (Pipeline.analyze Transformer transform D E X pl'))
         = _final_estimator (snd (Pipeline.analyze Transformer transform D E X pl))).
Proof.
  intros pl'. unfold pl'.
  repeat apply conj;
    first [ apply (forwarded_present_steps (Pipeline.est_predict E))
          | apply (forwarded_present_steps (Pipeline.est_anomaly_score E))
          | apply (forwarded_present_steps (Pipeline.est_detect E))
          | apply (forwarded_present_steps
                     (Pipeline.est_feature_wise_anomaly_score E))
          | apply (forwarded_present_steps (Pipeline.est_analyze E)) ].
Qed.

End PipelineFurther.

Section PipelineFitting.

Variable Transformer : Type.
Variable transform : Transformer -> matrix -> res matrix.
Variable fit_transform : matrix -> M Transformer matrix.
Variable D : Type.
Variable E : Pipeline.Estimator D.

Local Abbreviation pipeline := (Pipeline.ExtendedPipeline Transformer D).
Local Abbreviation steps := (Pipeline.steps Transformer D).
Local Abbreviation final_name := (Pipeline.final_name Transformer D).
Local Abbreviation chain := (transform_chain Transformer transform).

Lemma _fit_steps_shape l : forall X,
  step_shape (snd (Pipeline._fit_steps Transformer fit_transform l X))
  = step_shape l.
Proof.
  unfold step_shape.
  induction l as [|[name [t|]] l IH]; intros X; simpl.
  - reflexivity.
  - destruct (fit_transform X t) as [[X'|e] t']; [|reflexivity].
    specialize (IH X').
    destruct (Pipeline._fit_steps Transformer fit_transform l X') as [r l''].
    simpl in *. rewrite IH. reflexivity.
  - specialize (IH X).
    destruct (Pipeline._fit_steps Transformer fit_transform l X) as [r l''].
    simpl in *. rewrite IH. reflexivity.
Qed.

(** A method that fits: [_fit], then the method of the final estimator. *)
Lemma fitting_keeps_shape {B} (m : option (matrix -> M D B)) X (pl : pipeline) :
  let pl' :=
    snd (Pipeline.delegate Transformer D m
           (fun f => Xt <- Pipeline._fit Transformer fit_transform D X ;;
                     Pipeline.on_final Transformer D (f Xt)) pl) in
  step_shape (steps pl') = step_shape (steps pl)
  /\ final_name pl' = final_name pl.
Proof.
  unfold Pipeline.delegate. destruct m as [f|]; [|split; reflexivity].
  unfold bind, Pipeline._fit, Pipeline.on_final.
  assert (H := _fit_steps_shape (steps pl) X).
  destruct (Pipeline._fit_steps Transformer fit_transform (steps pl) X)
    as [[Xt|e] l']; simpl in H.
  - simpl. destruct (f Xt (Pipeline._final_estimator Transformer D pl)).
    simpl. split; [exact H | reflexivity].
  - simpl. split; [exact H | reflexivity].
Qed.

(** X17.  The methods that fit keep the shape of the pipeline, whatever
    they return or raise: the same step names in the same order, the same
    steps being [None], the same name for the last step. *)
Theorem fitting_keeps_the_pipeline_shape X (pl : pipeline) :
  (step_shape (steps (snd (Pipeline.fit Transformer fit_transform D E X pl)))
   = step_shape (steps pl)
   /\ final_name (snd (Pipeline.fit Transformer fit_transform D E X pl))
      = final_name pl)
  /\ (step_shape
        (steps (snd (Pipeline.fit_predict Transformer fit_transform D E X pl)))
      = step_shape (steps pl)
      /\ final_name (snd (Pipeline.fit_predict Transformer fit_transform D E X pl))
         = final_name pl)
  /\ (step_shape
        (steps (snd (Pipeline.fit_detect Transformer fit_transform D E X pl)))
      = step_shape (steps pl)
      /\ final_name (snd (Pipeline.fit_detect Transformer fit_transform D E X pl))
         = final_name pl)
  /\ (step_shape
        (steps (snd (Pipeline.fit_analyze Transformer fit_transform D E X pl)))
      = step_shape (steps pl)
      /\ final_name (snd (Pipeline.fit_analyze Transformer fit_transform D E X pl))
         = final_name pl).
Proof.
  repeat apply conj;
    first [ apply (fitting_keeps_shape (Pipeline.est_fit E))
          | apply (fitting_keeps_shape (Pipeline.est_fit_predict E))
          | apply (fitting_keeps_shape (Pipeline.est_fit_detect E))
          | apply (fitting_keeps_shape (Pipeline.est_fit_analyze E)) ].
Qed.

(** With consistent transforms the fitted steps map the training array
    to the array the final estimator was fitted on. *)
Lemma fitted_steps_reproduce_the_training_array l :
  consistent_transformers transform fit_transform ->
  forall X Xt l',
    Pipeline._fit_steps Transformer fit_transform l X = (Ok Xt, l') ->
    chain l' X = Ok Xt.
Proof.
  intros Hc. induction l as [|[name [t|]] l IH]; intros X Xt l' H; simpl in H.
  - inversion H. reflexivity.
  - destruct (fit_transform X t) as [[X'|e] t'] eqn:Ht; [|discriminate].
    destruct (Pipeline._fit_steps Transformer fit_transform l X')
      as [r l''] eqn:Hl.
    inversion H; subst. simpl. rewrite (Hc X t X' t' Ht). simpl.
    apply (IH X' Xt l''). exact Hl.
  - destruct (Pipeline._fit_steps Transformer fit_transform l X)
      as [r l''] eqn:Hl.
    inversion H; subst. simpl. apply (IH X Xt l''). exact Hl.
Qed.

End PipelineFitting.

Section PipelineOfBase.

Variable Transformer : Type.
Variable transform : Transformer -> matrix -> res matrix.
Variable fit_transform : matrix -> M Transformer matrix.
Variable Model : Type.
Variable _fit : matrix -> M Model unit.
Variable _anomaly_score : Model -> matrix -> res vector.
Variable elapsed : R.

Local Abbreviation D := (Base.BaseOutlierDetector Model).
Local Abbreviation E := (base_estimator Model _fit _anomaly_score elapsed).

(** X18.  For a pipeline that ends in a detector of
    [BaseOutlierDetector] and whose transforms have a [fit_transform] that
    agrees with fitting and then transforming, [fit_predict(X)] is
    [fit(X)] followed by [predict(X)]: same labels or same exception, same
    pipeline afterwards. *)
Theorem pipeline_fit_predict_is_fit_then_predict
  X (pl : Pipeline.ExtendedPipeline Transformer D) :
  consistent_transformers transform fit_transform ->
  Pipeline.fit_predict Transformer fit_transform D E X pl
  = (Pipeline.fit Transformer fit_transform D E X ;;
     Pipeline.predict Transformer transform D E X) pl.
Proof.
  intros Hc.
  unfold Pipeline.fit_predict, Pipeline.fit, Pipeline.predict,
    Pipeline.delegate. simpl.
  unfold bind at 1 2 3. unfold Pipeline._fit.
  destruct (Pipeline._fit_steps Transformer fit_transform
              (Pipeline.steps Transformer D pl) X) as [[Xt|e] l'] eqn:Hl;
    [|reflexivity].
  assert (Hchain := fitted_steps_reproduce_the_training_array Transformer
                      transform fit_transform _ Hc X Xt l' Hl).
  unfold Pipeline.on_final at 1 2. simpl.
  unfold Base.fit_predict, bind at 1.
  destruct (Base.fit Model _fit _anomaly_score elapsed Xt
              (Pipeline._final_estimator Transformer D pl))
    as [[[]|e] d1]; [|reflexivity].
  rewrite transform_then_delegated. unfold delegated. simpl.
  rewrite Hchain.
  destruct (Base.predict Model _anomaly_score Xt None d1); reflexivity.
Qed.

End PipelineOfBase.

(** * The further properties at concrete inputs *)

Lemma spread_scores m :
  log_anomaly_score m X_spread = Ok (map Fin [ln 1; ln 2; ln 3; ln 4]).
Proof.
  unfold log_anomaly_score, X_spread. simpl.
  rewrite (Rltb_true 0 1), (Rltb_true 0 2), (Rltb_true 0 3), (Rltb_true 0 4)
    by lra.
  reflexivity.
Qed.

Lemma spread_scores_distinct : NoDup [ln 1; ln 2; ln 3; ln 4].
Proof.
  assert (H12 : ln 1 < ln 2) by (apply ln_increasing; lra).
  assert (H23 : ln 2 < ln 3) by (apply ln_increasing; lra).
  assert (H34 : ln 3 < ln 4) by (apply ln_increasing; lra).
  repeat constructor; simpl; intros H;
    repeat (destruct H as [H | H]); try contradiction; lra.
Qed.

Lemma spread_fit_ok :
  Base.fit unit log_fit log_anomaly_score 1 X_spread
    (Base.init unit (Fin (1 / 2)) false tt)
  = (Ok tt, spread_detector).
Proof.
  destruct (fit_returns unit log_fit log_anomaly_score 1 X_spread
              (Base.init unit (Fin (1 / 2)) false tt) (1 / 2) tt
              [ln 1; ln 2; ln 3; ln 4]) as (sc & _ & H).
  - reflexivity.
  - lra.
  - reflexivity.
  - reflexivity.
  - apply spread_scores.
  - discriminate.
  - unfold spread_detector. rewrite H. reflexivity.
Qed.

(** C2 on the run of [fit] on [X_spread], where no two training scores
    are equal: with contamination 0.5 and four samples, fewer than three
    and more than zero samples are labelled outliers. *)
Lemma threshold_is_percentile_of_training_scores_witness :
  Base.fit unit log_fit log_anomaly_score 1 X_spread
    (Base.init unit (Fin (1 / 2)) false tt)
  = (Ok tt, spread_detector)
  /\ NoDup [ln 1; ln 2; ln 3; ln 4]
  /\ exists labels,
      Base.anomaly_score_ spread_detector
      = Some (map Fin [ln 1; ln 2; ln 3; ln 4])
      /\ Base.threshold_ spread_detector
         = Some (Fin (linear_percentile [ln 1; ln 2; ln 3; ln 4]
                        (100 * (1 - 1 / 2))))
      /\ Base.predict unit log_anomaly_score X_spread None spread_detector
         = (Ok labels, spread_detector)
      /\ INR (n_outliers labels) < 1 / 2 * INR 4 + 1
      /\ 1 / 2 * INR 4 - 2 < INR (n_outliers labels).
Proof.
  split; [exact spread_fit_ok|]. split; [exact spread_scores_distinct|].
  destruct (proj1 (threshold_is_percentile_of_training_scores unit log_fit
                     log_anomaly_score 1 X_spread
                     (Base.init unit (Fin (1 / 2)) false tt)
                     spread_detector spread_fit_ok))
    as (c & l & labels & Hc & _ & Hs & Ha & _ & Ht & Hp & Hu & Hl).
  simpl in Hc. inversion Hc. subst c.
  rewrite spread_scores in Hs.
  assert (E : l = [ln 1; ln 2; ln 3; ln 4])
    by (apply map_Fin_inj; inversion Hs; reflexivity).
  subst l.
  exists labels. repeat split; try assumption.
  exact (Hl spread_scores_distinct).
Defined.

Lemma zero_fit_ok :
  Base.fit _ line_fit line_anomaly_score 1 X_line (knn_detector (Fin 0))
  = (Ok tt, zero_detector).
Proof.
  destruct (fit_returns _ line_fit line_anomaly_score 1 X_line
              (knn_detector (Fin 0)) 0
              (Empirical.set__neigh _ line_index knn_model)
              [- ln 2; - ln 2; - ln 2]) as (sc & _ & H).
  - reflexivity.
  - lra.
  - reflexivity.
  - apply line_fit_model. reflexivity.
  - exact tied_scores.
  - discriminate.
  - unfold zero_detector. rewrite H. reflexivity.
Qed.

Lemma tied_detector_contamination :
  Base.contamination (knn_detector (Fin (1 / 2))) = Fin (1 / 2).
Proof. reflexivity. Qed.

Lemma zero_le_one : (Fin 0 <=? Fin 1)%num = true.
Proof. simpl. apply Rleb_true. lra. Qed.

Lemma valid_contamination_tenth :
  valid_contamination
    (Base.contamination (Base.init unit (Fin (1 / 10)) false tt)) = true.
Proof. unfold valid_contamination. simpl. Rdecide. reflexivity. Qed.

Lemma log_score_of_zero_fresh :
  log_anomaly_score tt [[Fin 0]] = Ok [NInf].
Proof.
  unfold log_anomaly_score. simpl. rewrite (Rltb_false 0 0) by lra.
  reflexivity.
Qed.

Lemma out_of_range_fpr_two :
  out_of_range_fpr (Empirical.fpr _ (empirical_detector (Fin 2))) = true.
Proof. unfold out_of_range_fpr. simpl. Rdecide. reflexivity. Qed.

Lemma valid_fpr_hundredth :
  valid_fpr (Empirical.fpr _ (empirical_detector (Fin (1 / 100)))) = true.
Proof. unfold valid_fpr. simpl. Rdecide. reflexivity. Qed.

Lemma identity_transformers_consistent :
  consistent_transformers identity_transform identity_fit_transform.
Proof. intros X t X' t' H. inversion H. reflexivity. Qed.

Lemma zero_le_half : 0 <= 1 / 2.
Proof. lra. Qed.

Lemma minus_infinity_is_not_finite :
  Exists (fun x => Num.is_finite x = false) [NInf].
Proof. constructor. reflexivity. Qed.

Lemma line_rows_not_empty :
  Forall (fun row : vector => row <> [])
    [[Fin 0; Fin 1]; [Fin 0; Fin 1]; [Fin 0; Fin 1]].
Proof. repeat constructor; discriminate. Qed.

(** * Validation in [BaseOutlierDetector] *)

Section BaseValidation.

Variable Model : Type.
Variable _anomaly_score : Model -> matrix -> res vector.

Local Abbreviation anomaly_score := (Base.anomaly_score Model _anomaly_score).
Local Abbreviation predict := (Base.predict Model _anomaly_score).

(** X19.  The check that the detector is fitted comes before the
    validation of the array: on an array that [check_array] refuses, an
    unfitted detector raises [NotFittedError] and a fitted one raises
    [ValueError], in [anomaly_score] and in [predict], whatever the flag,
    the threshold and the scoring hook. *)
Theorem invalid_array_raises_after_the_fitted_check
  X (d : Base.BaseOutlierDetector Model) normalize threshold :
  well_formed X = false ->
  (Base._scaler d = None ->
   anomaly_score X normalize d = (Raise NotFittedError, d)
   /\ predict X threshold d = (Raise NotFittedError, d))
  /\ (forall sc, Base._scaler d = Some sc ->
      anomaly_score X normalize d = (Raise ValueError, d)
      /\ predict X threshold d = (Raise ValueError, d)).
Proof.
  intros HX. split.
  - intros H. split; [apply anomaly_score_unfitted | apply predict_unfitted];
      exact H.
  - intros sc H.
    assert (Ha : forall n, anomaly_score X n d = (Raise ValueError, d)).
    { intros n. unfold Base.anomaly_score, Base.check_is_fitted, bind, lift,
        check_array. rewrite H, HX. reflexivity. }
    split; [apply Ha|]. unfold Base.predict, bind. rewrite Ha. reflexivity.
Qed.

End BaseValidation.

(** X19 on an array without rows. *)
Lemma invalid_array_raises_after_the_fitted_check_witness :
  (Base._scaler tied_detector = None ->
   Base.anomaly_score _ line_anomaly_score [] true tied_detector
   = (Raise NotFittedError, tied_detector)
   /\ Base.predict _ line_anomaly_score [] None tied_detector
      = (Raise NotFittedError, tied_detector))
  /\ (forall sc, Base._scaler tied_detector = Some sc ->
      Base.anomaly_score _ line_anomaly_score [] true tied_detector
      = (Raise ValueError, tied_detector)
      /\ Base.predict _ line_anomaly_score [] None tied_detector
         = (Raise ValueError, tied_detector)).
Proof.
  exact (invalid_array_raises_after_the_fitted_check _ line_anomaly_score
           [] tied_detector true None eq_refl).
Defined.

(** X3 on the run of [fit] on [X_line]. *)
Lemma threshold_within_training_scores_witness :
  exists (l : list R) (t : R) (labels : list Z),
    Base.anomaly_score_ tied_detector = Some (map Fin l) /\
    Base.threshold_ tied_detector = Some (Fin t) /\
    list_min l <= t <= list_max l /\
    Base.fit_predict
      (Empirical.EmpiricalOutlierDetector LineIndex.index) line_fit
      line_anomaly_score 1 X_line (knn_detector (Fin (1 / 2))) =
    (Ok labels, tied_detector) /\
    length labels = length l /\
    (forall i : nat,
     nth_error l i = Some (list_min l) -> nth_error labels i = Some 1%Z) /\
    (n_outliers labels < length labels)%nat.
Proof.
  exact (threshold_within_training_scores _ line_fit line_anomaly_score 1
           X_line (knn_detector (Fin (1 / 2))) tied_detector tied_fit_ok).
Defined.

(** X4 on [X_line] with contamination 0. *)
Lemma zero_contamination_flags_no_training_sample_witness :
  exists (l : list R) (labels : list Z),
    Base.anomaly_score_ zero_detector = Some (map Fin l) /\
    Base.threshold_ zero_detector = Some (Fin (list_max l)) /\
    Base.fit_predict
      (Empirical.EmpiricalOutlierDetector LineIndex.index) line_fit
      line_anomaly_score 1 X_line (knn_detector (Fin 0)) =
    (Ok labels, zero_detector) /\ labels = map (fun _ : R => 1%Z) l.
Proof.
  exact (zero_contamination_flags_no_training_sample _ line_fit
           line_anomaly_score 1 X_line (knn_detector (Fin 0)) zero_detector eq_refl
           zero_fit_ok).
Defined.

(** X5 on [X_line] with contamination 0 and 0.5. *)
Lemma higher_contamination_lowers_threshold_witness :
  exists (t1 t2 : R) (labels1 labels2 : list Z),
    Base.threshold_ zero_detector = Some (Fin t1) /\
    Base.threshold_ tied_detector = Some (Fin t2) /\
    t2 <= t1 /\
    Base.predict (Empirical.EmpiricalOutlierDetector LineIndex.index)
      line_anomaly_score X_line None zero_detector =
    (Ok labels1, zero_detector) /\
    Base.predict (Empirical.EmpiricalOutlierDetector LineIndex.index)
      line_anomaly_score X_line None tied_detector =
    (Ok labels2, tied_detector) /\
    (n_outliers labels1 <= n_outliers labels2)%nat.
Proof.
  exact (higher_contamination_lowers_threshold _ line_fit line_anomaly_score
           1 X_line (knn_detector (Fin 0)) (knn_detector (Fin (1 / 2))) zero_detector
           tied_detector 0 (1 / 2) eq_refl eq_refl eq_refl zero_le_half zero_fit_ok
           tied_fit_ok).
Defined.

(** X6 on the fitted detector, at the thresholds 0 and 1. *)
Lemma raising_threshold_only_removes_outliers_witness :
  exists labels1 labels2 : list Z,
    Base.predict (Empirical.EmpiricalOutlierDetector LineIndex.index)
      line_anomaly_score X_line (Some (Fin 0)) tied_detector =
    (Ok labels1, tied_detector) /\
    Base.predict (Empirical.EmpiricalOutlierDetector LineIndex.index)
      line_anomaly_score X_line (Some (Fin 1)) tied_detector =
    (Ok labels2, tied_detector) /\
    Forall2 (fun y1 y2 : Z => y1 = 1%Z -> y2 = 1%Z) labels1 labels2 /\
    (n_outliers labels2 <= n_outliers labels1)%nat.
Proof.
  exact (raising_threshold_only_removes_outliers _ line_fit
           line_anomaly_score 1 X_line (knn_detector (Fin (1 / 2))) tied_detector
           X_line (map Fin [- ln 2; - ln 2; - ln 2]) (Fin 0) (Fin 1) tied_fit_ok
           eq_refl tied_detector_scores zero_le_one).
Defined.

(** X7 on a detector and the same detector holding a threshold. *)
Lemma fit_ignores_previous_fitted_state_witness :
  fst
    (Base.fit (Empirical.EmpiricalOutlierDetector LineIndex.index)
       line_fit line_anomaly_score 1 X_line (knn_detector (Fin (1 / 2)))) =
  fst
    (Base.fit (Empirical.EmpiricalOutlierDetector LineIndex.index)
       line_fit line_anomaly_score 1 X_line
       (Base.set_threshold_
          (Empirical.EmpiricalOutlierDetector LineIndex.index) 
          (Fin 5) (knn_detector (Fin (1 / 2))))) /\
  (forall
     d' : Base.BaseOutlierDetector
            (Empirical.EmpiricalOutlierDetector LineIndex.index),
   Base.fit (Empirical.EmpiricalOutlierDetector LineIndex.index)
     line_fit line_anomaly_score 1 X_line (knn_detector (Fin (1 / 2))) =
   (Ok tt, d') ->
   Base.fit (Empirical.EmpiricalOutlierDetector LineIndex.index)
     line_fit line_anomaly_score 1 X_line
     (Base.set_threshold_
        (Empirical.EmpiricalOutlierDetector LineIndex.index) 
        (Fin 5) (knn_detector (Fin (1 / 2)))) =
   (Ok tt, d')).
Proof.
  exact (fit_ignores_previous_fitted_state _ line_fit line_anomaly_score 1
           X_line (knn_detector (Fin (1 / 2))) (Base.set_threshold_ _ (Fin 5)
           (knn_detector (Fin (1 / 2)))) eq_refl eq_refl eq_refl).
Defined.

(** X9 on the run of [fit] on [X_spread]. *)
Lemma normalization_never_reverses_the_ranking_witness :
  exists f : R -> R,
    (forall x y : R, x <= y -> f x <= f y)
    /\ (forall x y : R, f x < f y -> x < y)
    /\ (forall (X' : matrix) (l' : list R),
        well_formed X' = true ->
        l' <> [] ->
        log_anomaly_score (Base.model spread_detector) X' = Ok (map Fin l') ->
        Base.anomaly_score unit log_anomaly_score X' false spread_detector
        = (Ok (map Fin l'), spread_detector)
        /\ Base.anomaly_score unit log_anomaly_score X' true spread_detector
           = (Ok (map (fun x : R => Fin (f x)) l'), spread_detector)).
Proof.
  exact (normalization_never_reverses_the_ranking unit log_fit
           log_anomaly_score 1 X_spread
           (Base.init unit (Fin (1 / 2)) false tt) spread_detector
           spread_fit_ok).
Defined.

(** X10 on the detector that scores the logarithm of the first feature. *)
Lemma normalize_rejects_infinite_scores_witness :
  Base.anomaly_score unit log_anomaly_score [[Fin 0]] false log_detector =
  (Ok [NInf], log_detector) /\
  Base.anomaly_score unit log_anomaly_score [[Fin 0]] true log_detector =
  (Raise ValueError, log_detector).
Proof.
  exact (normalize_rejects_infinite_scores unit log_fit log_anomaly_score 1
           X_log (Base.init unit (Fin (1 / 10)) false tt) log_detector [[Fin 0]]
           [NInf] log_fit_ok eq_refl log_score_of_zero minus_infinity_is_not_finite).
Defined.

(** X11 on a training sample whose first feature is 0. *)
Lemma fit_rejects_infinite_training_scores_witness :
  exists (d' : Base.BaseOutlierDetector unit) 
  (t : num),
    Base.fit unit log_fit log_anomaly_score 1 [[
      Fin 0]] (Base.init unit (Fin (1 / 10)) false tt) =
    (Raise ValueError, d') /\
    Base.model d' = tt /\
    Base.anomaly_score_ d' = Some [NInf] /\
    Base.threshold_ d' = Some t /\
    Base._scaler d' =
    Base._scaler (Base.init unit (Fin (1 / 10)) false tt).
Proof.
  exact (fit_rejects_infinite_training_scores unit log_fit log_anomaly_score
           1 [[Fin 0]] (Base.init unit (Fin (1 / 10)) false tt) tt [NInf]
           valid_contamination_tenth eq_refl eq_refl log_score_of_zero_fresh
           minus_infinity_is_not_finite).
Defined.

(** X12 at [fpr = 2]. *)
Lemma empirical_fit_never_returns_with_invalid_fpr_witness :
  fst
    (Empirical.fit LineIndex.index LineIndex.fit LineIndex.kneighbors
       X_line (empirical_detector (Fin 2))) <>
  Ok tt /\
  (forall (neigh : LineIndex.index) (scores : vector),
   well_formed X_line = true ->
   LineIndex.fit
     (Empirical.n_jobs LineIndex.index (empirical_detector (Fin 2)))
     (Empirical.n_neighbors LineIndex.index (empirical_detector (Fin 2)))
     (Empirical.p LineIndex.index (empirical_detector (Fin 2))) X_line =
   Ok neigh ->
   Empirical.anomaly_score LineIndex.index LineIndex.kneighbors X_line
     (Empirical.set__neigh LineIndex.index neigh
        (empirical_detector (Fin 2))) =
   (Ok scores,
    Empirical.set__neigh LineIndex.index neigh
      (empirical_detector (Fin 2))) ->
   Empirical.fit LineIndex.index LineIndex.fit LineIndex.kneighbors
     X_line (empirical_detector (Fin 2)) =
   (Raise ValueError,
    Empirical.set__neigh LineIndex.index neigh
      (empirical_detector (Fin 2)))).
Proof.
  exact (empirical_fit_never_returns_with_invalid_fpr _ LineIndex.fit
           LineIndex.kneighbors X_line (empirical_detector (Fin 2))
           out_of_range_fpr_two).
Defined.

(** X13 at [fpr = 0.01] on [X_line]. *)
Lemma empirical_fit_returns_witness :
  exists (scores : list num) (t : num),
    length scores =
    length [[Fin 0; Fin 1]; [Fin 0; Fin 1]; [Fin 0; Fin 1]]
    /\ Empirical.fit LineIndex.index LineIndex.fit LineIndex.kneighbors
         X_line (empirical_detector (Fin (1 / 100)))
       = (Ok tt,
          Empirical.set_threshold_ LineIndex.index t
            (Empirical.set__neigh LineIndex.index line_index
               (empirical_detector (Fin (1 / 100)))))
    /\ Empirical.anomaly_score LineIndex.index LineIndex.kneighbors X_line
         (Empirical.set_threshold_ LineIndex.index t
            (Empirical.set__neigh LineIndex.index line_index
               (empirical_detector (Fin (1 / 100)))))
       = (Ok scores,
          Empirical.set_threshold_ LineIndex.index t
            (Empirical.set__neigh LineIndex.index line_index
               (empirical_detector (Fin (1 / 100)))))
    /\ forall l, scores = map Fin l -> l <> [] ->
         exists r,
           Empirical.fpr LineIndex.index (empirical_detector (Fin (1 / 100)))
           = Fin r
           /\ 0 <= r <= 1
           /\ t = Fin (linear_percentile l (100 * (1 - r))).
Proof.
  exact (empirical_fit_returns _ LineIndex.fit LineIndex.kneighbors X_line
           (empirical_detector (Fin (1 / 100))) line_index _ valid_fpr_hundredth
           eq_refl eq_refl line_kneighbors line_rows_not_empty).
Defined.

(** X15 on a pipeline whose second step raises. *)
Lemma failing_transform_stops_the_pipeline_witness :
  (forall
     f : matrix ->
         M
           (Base.BaseOutlierDetector
              (Empirical.EmpiricalOutlierDetector LineIndex.index))
           (list Z),
   Pipeline.est_predict
     (base_estimator
        (Empirical.EmpiricalOutlierDetector LineIndex.index) line_fit
        line_anomaly_score 1) =
   Some f ->
   Pipeline.predict bool guard_transform
     (Base.BaseOutlierDetector
        (Empirical.EmpiricalOutlierDetector LineIndex.index))
     (base_estimator
        (Empirical.EmpiricalOutlierDetector LineIndex.index) line_fit
        line_anomaly_score 1)
     X_line failing_pipeline =
   (Raise ValueError, failing_pipeline)) /\
  (forall
     f : matrix ->
         M
           (Base.BaseOutlierDetector
              (Empirical.EmpiricalOutlierDetector LineIndex.index))
           vector,
   Pipeline.est_anomaly_score
     (base_estimator
        (Empirical.EmpiricalOutlierDetector LineIndex.index) line_fit
        line_anomaly_score 1) =
   Some f ->
   Pipeline.anomaly_score bool guard_transform
     (Base.BaseOutlierDetector
        (Empirical.EmpiricalOutlierDetector LineIndex.index))
     (base_estimator
        (Empirical.EmpiricalOutlierDetector LineIndex.index) line_fit
        line_anomaly_score 1)
     X_line failing_pipeline =
   (Raise ValueError, failing_pipeline)) /\
  (forall
     f : matrix ->
         M
           (Base.BaseOutlierDetector
              (Empirical.EmpiricalOutlierDetector LineIndex.index))
           (list Z),
   Pipeline.est_detect
     (base_estimator
        (Empirical.EmpiricalOutlierDetector LineIndex.index) line_fit
        line_anomaly_score 1) =
   Some f ->
   Pipeline.detect bool guard_transform
     (Base.BaseOutlierDetector
        (Empirical.EmpiricalOutlierDetector LineIndex.index))
     (base_estimator
        (Empirical.EmpiricalOutlierDetector LineIndex.index) line_fit
        line_anomaly_score 1)
     X_line failing_pipeline =
   (Raise ValueError, failing_pipeline)) /\
  (forall
     f : matrix ->
         M
           (Base.BaseOutlierDetector
              (Empirical.EmpiricalOutlierDetector LineIndex.index))
           matrix,
   Pipeline.est_feature_wise_anomaly_score
     (base_estimator
        (Empirical.EmpiricalOutlierDetector LineIndex.index) line_fit
        line_anomaly_score 1) =
   Some f ->
   Pipeline.feature_wise_anomaly_score bool guard_transform
     (Base.BaseOutlierDetector
        (Empirical.EmpiricalOutlierDetector LineIndex.index))
     (base_estimator
        (Empirical.EmpiricalOutlierDetector LineIndex.index) line_fit
        line_anomaly_score 1)
     X_line failing_pipeline =
   (Raise ValueError, failing_pipeline)) /\
  (forall
     f : matrix ->
         M
           (Base.BaseOutlierDetector
              (Empirical.EmpiricalOutlierDetector LineIndex.index))
           matrix,
   Pipeline.est_analyze
     (base_estimator
        (Empirical.EmpiricalOutlierDetector LineIndex.index) line_fit
        line_anomaly_score 1) =
   Some f ->
   Pipeline.analyze bool guard_transform
     (Base.BaseOutlierDetector
        (Empirical.EmpiricalOutlierDetector LineIndex.index))
     (base_estimator
        (Empirical.EmpiricalOutlierDetector LineIndex.index) line_fit
        line_anomaly_score 1)
     X_line failing_pipeline =
   (Raise ValueError, failing_pipeline)).
Proof.
  exact (failing_transform_stops_the_pipeline bool guard_transform _
           (base_estimator _ line_fit line_anomaly_score 1) X_line failing_pipeline
           [("pass"%string, Some true)] "fail"%string false [] X_line ValueError
           eq_refl eq_refl eq_refl).
Defined.

(** X18 on the pipeline of the identity transform and the detector. *)
Lemma pipeline_fit_predict_is_fit_then_predict_witness :
  Pipeline.fit_predict unit identity_fit_transform
    (Base.BaseOutlierDetector
       (Empirical.EmpiricalOutlierDetector LineIndex.index))
    (base_estimator (Empirical.EmpiricalOutlierDetector LineIndex.index)
       line_fit line_anomaly_score 1)
    X_line identity_pipeline =
  (Pipeline.fit unit identity_fit_transform
     (Base.BaseOutlierDetector
        (Empirical.EmpiricalOutlierDetector LineIndex.index))
     (base_estimator
        (Empirical.EmpiricalOutlierDetector LineIndex.index) line_fit
        line_anomaly_score 1)
     X_line;;
   Pipeline.predict unit identity_transform
     (Base.BaseOutlierDetector
        (Empirical.EmpiricalOutlierDetector LineIndex.index))
     (base_estimator
        (Empirical.EmpiricalOutlierDetector LineIndex.index) line_fit
        line_anomaly_score 1)
     X_line)
    identity_pipeline.
Proof.
  exact (pipeline_fit_predict_is_fit_then_predict unit identity_transform
           identity_fit_transform _ line_fit line_anomaly_score 1 X_line
           identity_pipeline identity_transformers_consistent).
Defined.

(** * Where rounding shows

    Runs of the binary64 arithmetic at inputs where the rounded result
    differs from the real one in a way a caller can observe.  They are the
    reason why the properties above state no upper bound of 1 on the
    normalised scores and no strict order among them, a margin of two
    samples below the contamination, and a margin below zero for the
    false positive rate. *)

Section Rounding.

Import PrimFloat.
Local Open Scope float_scope.

(** With the training scores 1 and 6, the largest training score is
    normalised to a number above 1. *)
Lemma binary64_largest_score_is_normalized_above_one :
  (1 <? Binary64.normalized_rounded 1 6 6) = true.
Proof. reflexivity. Qed.

(** With the training scores 0 and 3, two raw scores one step apart get
    the same normalised score. *)
Lemma binary64_normalization_merges_neighbouring_scores :
  (0x1.8p+0 <? 0x1.8000000000001p+0) = true
  /\ (Binary64.normalized_rounded 0 3 0x1.8p+0
      =? Binary64.normalized_rounded 0 3 0x1.8000000000001p+0) = true.
Proof. split; reflexivity. Qed.

(** Half-way between two neighbouring numbers the interpolation returns
    the upper one: with two such training scores and contamination 0.5
    the threshold is the larger score, and no sample lies above it. *)
Lemma binary64_lerp_reaches_the_upper_score :
  (0x1.0000000000001p+0 <? 0x1.0000000000002p+0) = true
  /\ (Binary64.lerp_rounded 0x1.0000000000001p+0 0x1.0000000000002p+0 0.5
      =? 0x1.0000000000002p+0) = true.
Proof. split; reflexivity. Qed.

(** A negative false positive rate below the resolution at 1 is absorbed:
    the percentile asked for is exactly 100. *)
Lemma binary64_tiny_negative_fpr_is_absorbed :
  (- 0x1p-60 <? 0) = true
  /\ (Binary64.percentile_rank (- 0x1p-60) =? 100) = true.
Proof. split; reflexivity. Qed.

End Rounding.
